(** * Miro MCP server: credential front door, REST client, dispatcher, formatter

    A shallow embedding of the TypeScript sources
      - [types/env.ts]        (credential resolver),
      - [client.ts]           (typed remote client),
      - [utils/formatters.ts] (response formatter),
      - [tools/*.ts]          (tool registry),
      - [index.ts]            (transport front door),
    followed by the theorems that settle the specification's claims.

    JavaScript values are untyped here as they are at run time: every handler
    argument, request payload and decoded response is a [JsValue].  Effects
    (the outgoing HTTP requests, thrown errors) are explicit: a computation is
    run against a remote and yields the list of requests it issued together
    with either the thrown value or its result. *)

From Stdlib Require Import ZArith String Ascii List Bool Lia DecimalString.
Import ListNotations.

#[local] Open Scope list_scope.
#[local] Open Scope string_scope.
#[local] Set Warnings "-register-all".

(* ====================================================================== *)
(** * JavaScript run-time values *)
(* ====================================================================== *)

(** A JavaScript number.  The adapter never does arithmetic; it copies
    numbers, tests them for truthiness and prints them.  Integral values are
    kept exactly in [Z] (a double is exact up to 2^53); [NaN] is what
    [parseInt] returns when no digit can be read. *)
Inductive JsNumber : Type :=
| NaN
| Num (z : Z).

(** A JavaScript value.  The fields of [JObj] are the object's own enumerable
    properties in property order. *)
Inductive JsValue : Type :=
| JUndefined
| JNull
| JBool (b : bool)
| JNum (n : JsNumber)
| JStr (s : string)
| JArr (items : list JsValue)
| JObj (fields : list (string * JsValue)).

Definition JInt (z : Z) : JsValue := JNum (Num z).

(** Modelled from the spec: [utils/errors.ts] is not among the sources; only
    its uses are ([client.ts] constructs the three classes, [formatters.ts]
    tests [instanceof MiroApiError], reads [message] and [retryable] and
    calls [formatErrorForLogging]).  The spec's data model has the tagged
    variant {Authentication, RateLimited(retryAfterSeconds),
    Generic(httpStatus, message)}, raised by the client: one constructor per
    class, with the arguments [client.ts] passes to it.  All three are
    instances of [MiroApiError] and of [Error]; a constructor's message
    argument becomes the error's [message], as a string. *)
Inductive ApiError : Type :=
| MiroApiError (message : string) (statusCode : Z)
| AuthenticationError (message : string)
| RateLimitError (message : string) (retryAfterSeconds : JsNumber).

(** Values that can be thrown: an error of [utils/errors.ts], another
    [Error] instance (with its [name] and [message]), or a value that is not
    an [Error] at all. *)
Inductive Thrown : Type :=
| ThrownApi (e : ApiError)
| ThrownError (name message : string)
| ThrownValue (v : JsValue).

(** ** Strings *)

Definition Z_to_string (z : Z) : string := NilZero.string_of_int (Z.to_int z).

(** [String(n)] for a number. *)
Definition number_to_string (n : JsNumber) : string :=
  match n with
  | NaN => "NaN"
  | Num z => Z_to_string z
  end.

(** [Array.prototype.join]. *)
Definition join (sep : string) (parts : list string) : string :=
  String.concat sep parts.

(** [String(v)] / template-literal interpolation of a value whose conversion
    cannot throw: the handler arguments, which the schemas make strings,
    numbers and booleans, status codes, and the primitive fields of a
    decoded body.  It is the string [ToString] returns whenever [ToString]
    returns one; data decoded from a response is converted with [ToString]. *)
Fixpoint js_String (v : JsValue) : string :=
  match v with
  | JUndefined => "undefined"
  | JNull => "null"
  | JBool true => "true"
  | JBool false => "false"
  | JNum n => number_to_string n
  | JStr s => s
  | JArr items =>
      join ","
        ((fix elems (l : list JsValue) : list string :=
            match l with
            | [] => []
            | JUndefined :: r => "" :: elems r
            | JNull :: r => "" :: elems r
            | x :: r => js_String x :: elems r
            end) items)
  | JObj _ => "[object Object]"
  end.

(** Truthiness ([ToBoolean]). *)
Definition truthy (v : JsValue) : bool :=
  match v with
  | JUndefined | JNull => false
  | JBool b => b
  | JNum NaN => false
  | JNum (Num z) => negb (Z.eqb z 0)
  | JStr s => negb (String.eqb s "")
  | JArr _ | JObj _ => true
  end.

(** [a || b]. *)
Definition js_or (a b : JsValue) : JsValue := if truthy a then a else b.

(** [v !== undefined]. *)
Definition defined (v : JsValue) : bool :=
  match v with
  | JUndefined => false
  | _ => true
  end.

(** ** Objects *)

Fixpoint lookup (k : string) (fields : list (string * JsValue)) : option JsValue :=
  match fields with
  | [] => None
  | (k', v) :: r => if String.eqb k k' then Some v else lookup k r
  end.

(** [obj[k] = v] on the property list: an existing key keeps its place. *)
Fixpoint assign (k : string) (v : JsValue) (fields : list (string * JsValue))
  : list (string * JsValue) :=
  match fields with
  | [] => [(k, v)]
  | (k', v') :: r =>
      if String.eqb k k' then (k, v) :: r else (k', v') :: assign k v r
  end.

(** [obj.k = v]; only ever applied to objects built by the handlers. *)
Definition set_prop (obj : JsValue) (k : string) (v : JsValue) : JsValue :=
  match obj with
  | JObj fields => JObj (assign k v fields)
  | other => other
  end.

(** [k in obj] for an object. *)
Definition has_prop (k : string) (obj : JsValue) : bool :=
  match obj with
  | JObj fields => match lookup k fields with Some _ => true | None => false end
  | _ => false
  end.

(** [obj.k] where [obj] is known not to be null or undefined (a destructured
    handler argument object, [params?.k]): a missing key reads as
    [undefined].  Own data properties only: primitives and arrays carry none
    of the names the adapter reads. *)
Definition prop (obj : JsValue) (k : string) : JsValue :=
  match obj with
  | JObj fields => match lookup k fields with Some v => v | None => JUndefined end
  | _ => JUndefined
  end.

(** [obj.k] in general: reading a property of [null] or [undefined] throws a
    [TypeError] (message as V8 words it). *)
Definition get_prop (obj : JsValue) (k : string) : Thrown + JsValue :=
  match obj with
  | JUndefined =>
      inl (ThrownError "TypeError"
             ("Cannot read properties of undefined (reading '" ++ k ++ "')"))
  | JNull =>
      inl (ThrownError "TypeError"
             ("Cannot read properties of null (reading '" ++ k ++ "')"))
  | other => inr (prop other k)
  end.

(** ** JSON.stringify *)

Definition hex_digit (n : N) : ascii :=
  match n with
  | 0%N => "0" | 1%N => "1" | 2%N => "2" | 3%N => "3" | 4%N => "4"
  | 5%N => "5" | 6%N => "6" | 7%N => "7" | 8%N => "8" | 9%N => "9"
  | 10%N => "a" | 11%N => "b" | 12%N => "c" | 13%N => "d" | 14%N => "e"
  | _ => "f"
  end%char.

Definition dquote : ascii := ascii_of_N 34.

(** The escape of one character inside a JSON string literal. *)
Definition quote_char (c : ascii) : string :=
  let n := N_of_ascii c in
  if N.eqb n 34 then String "\" (String dquote "")
  else if N.eqb n 92 then "\\"
  else if N.eqb n 8 then "\b"
  else if N.eqb n 9 then "\t"
  else if N.eqb n 10 then "\n"
  else if N.eqb n 12 then "\f"
  else if N.eqb n 13 then "\r"
  else if N.ltb n 32 then
    "\u00" ++ String (hex_digit (N.div n 16)) (String (hex_digit (N.modulo n 16)) "")
  else String c "".

Fixpoint quote_body (s : string) : string :=
  match s with
  | EmptyString => ""
  | String c r => quote_char c ++ quote_body r
  end.

(** [QuoteJSONString]. *)
Definition quote (s : string) : string :=
  String dquote (quote_body s ++ String dquote "").

(** [JSON.stringify(v, null, gap)] with the current indentation [indent];
    [None] stands for the JavaScript result [undefined].  Properties whose
    value serialises to [undefined] are left out of objects, such elements
    of arrays become [null], and [NaN] becomes [null].  With an empty [gap]
    this is the compact form [JSON.stringify(v)]. *)
Fixpoint stringify (gap indent : string) (v : JsValue) : option string :=
  match v with
  | JUndefined => None
  | JNull => Some "null"
  | JBool true => Some "true"
  | JBool false => Some "false"
  | JNum NaN => Some "null"
  | JNum (Num z) => Some (Z_to_string z)
  | JStr s => Some (quote s)
  | JArr items =>
      let stepback := indent in
      let indent := indent ++ gap in
      let partial :=
        (fix elems (l : list JsValue) : list string :=
           match l with
           | [] => []
           | x :: r =>
               match stringify gap indent x with
               | Some t => t :: elems r
               | None => "null" :: elems r
               end
           end) items in
      match partial with
      | [] => Some "[]"
      | _ =>
          if String.eqb gap "" then Some ("[" ++ join "," partial ++ "]")
          else
            let nl := String (ascii_of_N 10) "" in
            Some ("[" ++ nl ++ indent ++ join ("," ++ nl ++ indent) partial
                      ++ nl ++ stepback ++ "]")
      end
  | JObj fields =>
      let stepback := indent in
      let indent := indent ++ gap in
      let partial :=
        (fix members (l : list (string * JsValue)) : list string :=
           match l with
           | [] => []
           | (k, x) :: r =>
               match stringify gap indent x with
               | Some t =>
                   (quote k ++ ":" ++ (if String.eqb gap "" then "" else " ") ++ t)
                     :: members r
               | None => members r
               end
           end) fields in
      match partial with
      | [] => Some "{}"
      | _ =>
          if String.eqb gap "" then Some ("{" ++ join "," partial ++ "}")
          else
            let nl := String (ascii_of_N 10) "" in
            Some ("{" ++ nl ++ indent ++ join ("," ++ nl ++ indent) partial
                      ++ nl ++ stepback ++ "}")
      end
  end.

(** [JSON.stringify(v)]. *)
Definition JSON_stringify (v : JsValue) : option string := stringify "" "" v.

(** [JSON.stringify(v, null, 2)]. *)
Definition JSON_stringify_2 (v : JsValue) : option string := stringify "  " "" v.

(** ** parseInt *)

Definition is_space (c : ascii) : bool :=
  let n := N_of_ascii c in
  (N.eqb n 32 || (N.leb 9 n && N.leb n 13))%bool.

Fixpoint trim_start (s : string) : string :=
  match s with
  | String c r => if is_space c then trim_start r else s
  | EmptyString => s
  end.

Definition digit_of (c : ascii) : option Z :=
  let n := N_of_ascii c in
  if (N.leb 48 n && N.leb n 57)%bool then Some (Z.of_N (n - 48)) else None.

(** Reads the longest run of decimal digits at the head of [s], given the
    value [acc] of the digits read so far. *)
Fixpoint read_digits (acc : Z) (s : string) : Z :=
  match s with
  | String c r =>
      match digit_of c with
      | Some d => read_digits (10 * acc + d) r
      | None => acc
      end
  | EmptyString => acc
  end.

Definition starts_with_digit (s : string) : bool :=
  match s with
  | String c _ => match digit_of c with Some _ => true | None => false end
  | EmptyString => false
  end.

(** [parseInt(s, 10)]: leading white space is skipped, one sign is read, then
    the longest run of decimal digits; with no digit the result is [NaN]. *)
Definition parseInt_10 (s : string) : JsNumber :=
  let t := trim_start s in
  let '(negative, u) :=
    match t with
    | String "-" r => (true, r)
    | String "+" r => (false, r)
    | _ => (false, t)
    end in
  if starts_with_digit u
  then Num (if negative then - read_digits 0 u else read_digits 0 u)%Z
  else NaN.

(* ====================================================================== *)
(** * HTTP: headers, requests, responses *)
(* ====================================================================== *)

Definition lower_char (c : ascii) : ascii :=
  let n := N_of_ascii c in
  if (N.leb 65 n && N.leb n 90)%bool then ascii_of_N (n + 32) else c.

Fixpoint lower (s : string) : string :=
  match s with
  | EmptyString => EmptyString
  | String c r => String (lower_char c) (lower r)
  end.

(** A [Headers] object: the header lines in order. *)
Definition Headers : Type := list (string * string).

(** [Headers.get(name)]: names compare without regard to ASCII case; several
    lines of one name are combined with a comma and a space; [None] is the
    JavaScript [null] of an absent header. *)
Definition headers_get (h : Headers) (name : string) : option string :=
  match filter (fun kv => String.eqb (lower (fst kv)) (lower name)) h with
  | [] => None
  | found => Some (join ", " (map snd found))
  end.

(** [{ ...a, ...b }] on plain header records. *)
Fixpoint spread_headers (a b : list (string * string)) : list (string * string) :=
  match b with
  | [] => a
  | (k, v) :: r =>
      spread_headers
        ((fix put (l : list (string * string)) : list (string * string) :=
            match l with
            | [] => [(k, v)]
            | (k', v') :: t =>
                if String.eqb k k' then (k, v) :: t else (k', v') :: put t
            end) a) r
  end.

(** An outgoing request as the global [fetch] receives it. *)
Record HttpRequest : Type := mkHttpRequest {
  req_url : string;
  req_method : string;
  req_headers : list (string * string);
  req_body : option string
}.

(** What the remote answered.  [resp_json] is the outcome of parsing the body
    text as JSON: the parsed value, or the message of the [SyntaxError] that
    [JSON.parse] and [Response.json] throw for a text that is not JSON. *)
Record RemoteResponse : Type := mkRemoteResponse {
  resp_status : Z;
  resp_headers : Headers;
  resp_json : string + JsValue
}.

(** [response.ok]. *)
Definition resp_ok (r : RemoteResponse) : bool :=
  (Z.leb 200 (resp_status r) && Z.leb (resp_status r) 299)%bool.

(** The remote service together with the network: for each request either the
    value with which [fetch] rejects, or the response. *)
Definition Remote : Type := HttpRequest -> Thrown + RemoteResponse.

(* ====================================================================== *)
(** * Computations: issued requests and thrown errors *)
(* ====================================================================== *)

(** An [async] computation of the adapter, run against a remote: the requests
    it issued, in order, and either the value it threw or its result. *)
Definition Exec (A : Type) : Type := Remote -> list HttpRequest * (Thrown + A).

Definition ret {A : Type} (a : A) : Exec A := fun _ => ([], inr a).

Definition throw {A : Type} (e : Thrown) : Exec A := fun _ => ([], inl e).

Definition lift {A : Type} (r : Thrown + A) : Exec A := fun _ => ([], r).

Definition bind {A B : Type} (m : Exec A) (k : A -> Exec B) : Exec B :=
  fun remote =>
    match m remote with
    | (issued, inl e) => (issued, inl e)
    | (issued, inr a) =>
        let '(issued', r) := k a remote in ((issued ++ issued')%list, r)
    end.

(** [try { body } catch (error) { handler }]. *)
Definition try_catch {A : Type} (body : Exec A) (handler : Thrown -> Exec A) : Exec A :=
  fun remote =>
    match body remote with
    | (issued, inr a) => (issued, inr a)
    | (issued, inl e) =>
        let '(issued', r) := handler e remote in ((issued ++ issued')%list, r)
    end.

(** The global [fetch]: the one place where a request leaves the process. *)
Definition js_fetch (req : HttpRequest) : Exec RemoteResponse :=
  fun remote => ([req], remote req).

Declare Scope exec_scope.
Delimit Scope exec_scope with exec.
Notation "x <- m ;; k" := (bind m (fun x => k))
  (at level 61, m at next level, right associativity) : exec_scope.
Notation "m ;;; k" := (bind m (fun _ => k))
  (at level 61, right associativity) : exec_scope.
#[local] Open Scope exec_scope.

(** The requests a computation issues, and its outcome. *)
Definition issued {A : Type} (m : Exec A) (remote : Remote) : list HttpRequest :=
  fst (m remote).

Definition outcome {A : Type} (m : Exec A) (remote : Remote) : Thrown + A :=
  snd (m remote).

(** Synchronous code that may throw. *)
Definition Result (A : Type) : Type := (Thrown + A)%type.

Definition and_then {A B : Type} (r : Result A) (k : A -> Result B) : Result B :=
  match r with
  | inl e => inl e
  | inr a => k a
  end.

Notation "x <~ r ;; k" := (and_then r (fun x => k))
  (at level 61, r at next level, right associativity) : exec_scope.

(** [ToString(v)], the conversion behind [String(v)] and template-literal
    interpolation, for a value decoded from JSON.  An object is converted
    through its [toString] property and then its [valueOf]: the inherited
    [toString] gives "[object Object]"; an own [toString] key, never callable
    in decoded data, is passed over, [valueOf] (own or inherited) yields no
    primitive either, and the conversion throws a [TypeError].  An array
    joins the conversions of its elements, [null] and [undefined] giving
    the empty string. *)
Fixpoint ToString (v : JsValue) : Result string :=
  match v with
  | JArr items =>
      parts <~ (fix elems (l : list JsValue) : Result (list string) :=
                  match l with
                  | [] => inr []
                  | x :: r =>
                      t <~ match x with
                           | JUndefined | JNull => inr ""
                           | _ => ToString x
                           end ;;
                      ts <~ elems r ;;
                      inr (t :: ts)
                  end) items ;;
      inr (join "," parts)
  | JObj fields =>
      match lookup "toString" fields with
      | Some _ =>
          inl (ThrownError "TypeError" "Cannot convert object to primitive value")
      | None => inr "[object Object]"
      end
  | other => inr (js_String other)
  end.

(** Whether [ToString] returns a string. *)
Definition converts (v : JsValue) : bool :=
  match ToString v with
  | inr _ => true
  | inl _ => false
  end.

(** Induction on values, through the elements of arrays. *)
Section JsValue_induction.

Variable P : JsValue -> Prop.
Hypothesis Hundefined : P JUndefined.
Hypothesis Hnull : P JNull.
Hypothesis Hbool : forall b, P (JBool b).
Hypothesis Hnum : forall n, P (JNum n).
Hypothesis Hstr : forall s, P (JStr s).
Hypothesis Harr : forall items, Forall P items -> P (JArr items).
Hypothesis Hobj : forall fields, P (JObj fields).

Fixpoint JsValue_elements_ind (v : JsValue) : P v :=
  match v with
  | JUndefined => Hundefined
  | JNull => Hnull
  | JBool b => Hbool b
  | JNum n => Hnum n
  | JStr s => Hstr s
  | JArr items =>
      Harr items
        ((fix all (l : list JsValue) : Forall P l :=
            match l with
            | [] => Forall_nil P
            | x :: r => Forall_cons x (JsValue_elements_ind x) (all r)
            end) items)
  | JObj fields => Hobj fields
  end.

End JsValue_induction.

(* ====================================================================== *)
(** * utils/errors.ts *)
(* ====================================================================== *)

(** [error.message] of an error of [utils/errors.ts]. *)
Definition api_message (e : ApiError) : string :=
  match e with
  | MiroApiError m _ => m
  | AuthenticationError m => m
  | RateLimitError m _ => m
  end.

(** Modelled from the spec: the [retryable] flag of an error of
    [utils/errors.ts]; per the spec a RateLimited failure is the one that is
    marked as retryable. *)
Definition retryable (e : ApiError) : bool :=
  match e with
  | RateLimitError _ _ => true
  | _ => false
  end.

(** [error instanceof Error ? error.message : fallback]. *)
Definition message_or (error : Thrown) (fallback : string) : string :=
  match error with
  | ThrownApi e => api_message e
  | ThrownError _ m => m
  | ThrownValue _ => fallback
  end.

(** Modelled from the spec: [formatErrorForLogging] of [utils/errors.ts] is
    not among the sources.  The spec has a failure carry its variant's extra
    data (RateLimited: the retry-after seconds, which are to be surfaced
    explicitly to the caller; Generic: the HTTP status and message), so the
    details record holds the message and that data. *)
Definition formatErrorForLogging (error : Thrown) : JsValue :=
  match error with
  | ThrownApi (RateLimitError m n) =>
      JObj [("message", JStr m); ("retryAfterSeconds", JNum n)]
  | ThrownApi (AuthenticationError m) => JObj [("message", JStr m)]
  | ThrownApi (MiroApiError m st) =>
      JObj [("message", JStr m); ("httpStatus", JInt st)]
  | ThrownError _ m => JObj [("message", JStr m)]
  | ThrownValue v => JObj [("message", JStr (js_String v))]
  end.

(* ====================================================================== *)
(** * types/env.ts: the credential resolver *)
(* ====================================================================== *)

(** An inbound request: the path of its URL, its method, its headers. *)
Record Request : Type := mkRequest {
  url_pathname : string;
  method : string;
  headers : Headers
}.

Record TenantCredentials : Type := mkTenantCredentials {
  accessToken : string
}.

(** [value || fallback] for a header value that may be [null]. *)
Definition or_string (value : option string) (fallback : string) : string :=
  match value with
  | Some v => if String.eqb v "" then fallback else v
  | None => fallback
  end.

Definition parseTenantCredentials (request : Request) : TenantCredentials :=
  {| accessToken := or_string (headers_get (headers request) "X-Miro-Access-Token") "" |}.

Definition validateCredentials (credentials : TenantCredentials) : Thrown + unit :=
  if String.eqb (accessToken credentials) ""
  then inl (ThrownError "Error" "Missing credentials. Provide X-Miro-Access-Token header.")
  else inr tt.

(** ** Environment configuration

    The bindings object [env] of the worker: its variables are strings, its
    other bindings are objects. *)

Definition getEnvNumber (env : JsValue) (key : string) (defaultValue : JsNumber)
  : JsNumber :=
  let value := prop env key in
  match value with
  | JStr text =>
      let parsed := parseInt_10 text in
      match parsed with
      | NaN => defaultValue
      | Num _ => parsed
      end
  | _ => defaultValue
  end.

Definition getCharacterLimit (env : JsValue) : JsNumber :=
  getEnvNumber env "CHARACTER_LIMIT" (Num 50000).

Definition getDefaultPageSize (env : JsValue) : JsNumber :=
  getEnvNumber env "DEFAULT_PAGE_SIZE" (Num 20).

Definition getMaxPageSize (env : JsValue) : JsNumber :=
  getEnvNumber env "MAX_PAGE_SIZE" (Num 100).

(* ====================================================================== *)
(** * client.ts: the typed remote client *)
(* ====================================================================== *)

Definition API_BASE_URL : string := "https://api.miro.com/v2".

(** The [RequestInit] a client method passes to [request]. *)
Record RequestInit : Type := mkRequestInit {
  init_method : option string;
  init_body : option string;
  init_headers : option (list (string * string))
}.

(** [{}], [{ method }] and [{ method, body }]. *)
Definition no_options : RequestInit := mkRequestInit None None None.

Definition with_method (m : string) : RequestInit := mkRequestInit (Some m) None None.

Definition with_body (m : string) (body : option string) : RequestInit :=
  mkRequestInit (Some m) body None.

(** ** URLSearchParams *)

Definition upper_hex_digit (n : N) : ascii :=
  match n with
  | 10%N => "A" | 11%N => "B" | 12%N => "C" | 13%N => "D" | 14%N => "E"
  | 15%N => "F"
  | d => hex_digit d
  end%char.

(** The [application/x-www-form-urlencoded] byte serialiser. *)
Definition urlencode_char (c : ascii) : string :=
  let n := N_of_ascii c in
  if ((N.leb 48 n && N.leb n 57) || (N.leb 65 n && N.leb n 90)
      || (N.leb 97 n && N.leb n 122)
      || N.eqb n 42 || N.eqb n 45 || N.eqb n 46 || N.eqb n 95)%bool
  then String c ""
  else if N.eqb n 32 then "+"
  else String "%" (String (upper_hex_digit (N.div n 16))
                     (String (upper_hex_digit (N.modulo n 16)) "")).

Fixpoint urlencode (s : string) : string :=
  match s with
  | EmptyString => ""
  | String c r => urlencode_char c ++ urlencode r
  end.

(** [new URLSearchParams()], filled by [set] with distinct keys, then
    [toString()]. *)
Definition search_params_toString (entries : list (string * string)) : string :=
  join "&" (map (fun kv => urlencode (fst kv) ++ "=" ++ urlencode (snd kv)) entries).

(** A [MiroClientImpl] holds nothing but its credentials: the client is
    represented by them, and every method takes them first. *)
Definition MiroClient : Type := TenantCredentials.

Definition createMiroClient (credentials : TenantCredentials) : MiroClient :=
  credentials.

Section Client.

(** [MiroClientImpl]'s private field. *)
Variable credentials : TenantCredentials.

Definition getAuthHeaders : Thrown + list (string * string) :=
  if String.eqb (accessToken credentials) ""
  then inl (ThrownApi (AuthenticationError
              "No access token provided. Include X-Miro-Access-Token header."))
  else inr [("Authorization", "Bearer " ++ accessToken credentials);
            ("Content-Type", "application/json")].

(** The message of a failed response: [errorJson.message ||
    errorJson.error || message], with the default kept when the body is
    not JSON or reading a property of the parsed value throws. *)
Definition error_message (response : RemoteResponse) : JsValue :=
  let message := JStr ("Miro API error: " ++ Z_to_string (resp_status response)) in
  match resp_json response with
  | inr errorJson =>
      match get_prop errorJson "message", get_prop errorJson "error" with
      | inr m, inr e => js_or (js_or m e) message
      | _, _ => message
      end
  | inl _ => message
  end.

(** The part of [request] that follows the [await fetch(...)]: rate
    limiting, authentication errors, other errors, 204 No Content, and the
    decoded body. *)
Definition handle_response (response : RemoteResponse) : Result JsValue :=
  if Z.eqb (resp_status response) 429 then
    let retryAfter := headers_get (resp_headers response) "Retry-After" in
    inl (ThrownApi (RateLimitError "Rate limit exceeded"
           (match retryAfter with
            | Some v => if String.eqb v "" then Num 60 else parseInt_10 v
            | None => Num 60
            end)))
  else if (Z.eqb (resp_status response) 401 || Z.eqb (resp_status response) 403)%bool then
    inl (ThrownApi (AuthenticationError
           "Authentication failed. Check your Miro access token."))
  else if negb (resp_ok response) then
    inl (ThrownApi (MiroApiError (js_String (error_message response))
                                 (resp_status response)))
  else if Z.eqb (resp_status response) 204 then
    inr JUndefined
  else
    match resp_json response with
    | inr v => inr v
    | inl msg => inl (ThrownError "SyntaxError" msg)
    end.

Definition request (endpoint : string) (options : RequestInit) : Exec JsValue :=
  let url := API_BASE_URL ++ endpoint in
  authHeaders <- lift getAuthHeaders ;;
  response <- js_fetch
    {| req_url := url;
       req_method := match init_method options with Some m => m | None => "GET" end;
       req_headers :=
         spread_headers authHeaders
           (match init_headers options with Some h => h | None => [] end);
       req_body := init_body options |} ;;
  lift (handle_response response).

Definition buildQueryString (params : list (string * JsValue)) : string :=
  let query :=
    flat_map (fun kv =>
                if defined (snd kv) then [(fst kv, js_String (snd kv))] else [])
             params in
  let str := search_params_toString query in
  if String.eqb str "" then "" else "?" ++ str.

(** [JSON.stringify(input)] as a request body. *)
Definition json_body (m : string) (input : JsValue) : RequestInit :=
  with_body m (JSON_stringify input).

(** [{ ...params, type }]. *)
Definition with_type (params : JsValue) (type : string) : JsValue :=
  match params with
  | JObj fields => JObj (assign "type" (JStr type) fields)
  | _ => JObj [("type", JStr type)]
  end.

(** [{ limit: params?.limit, cursor: params?.cursor }]. *)
Definition page_query (params : JsValue) : string :=
  buildQueryString [("limit", prop params "limit"); ("cursor", prop params "cursor")].

(** *** Connection *)

Definition testConnection : Exec JsValue :=
  try_catch
    (user <- request "/users/me" no_options ;;
     name <- lift (get_prop user "name") ;;
     name <- lift (ToString name) ;;
     ret (JObj [("connected", JBool true);
                ("message", JStr ("Connected as " ++ name));
                ("user", user)]))
    (fun error =>
       ret (JObj [("connected", JBool false);
                  ("message", JStr (message_or error "Connection failed"))])).

(** *** Boards *)

Definition listBoards (params : JsValue) : Exec JsValue :=
  let queryString :=
    buildQueryString [("limit", prop params "limit");
                      ("cursor", prop params "cursor");
                      ("team_id", prop params "teamId");
                      ("query", prop params "query");
                      ("sort", prop params "sort")] in
  request ("/boards" ++ queryString) no_options.

Definition getBoard (boardId : JsValue) : Exec JsValue :=
  request ("/boards/" ++ js_String boardId) no_options.

Definition createBoard (input : JsValue) : Exec JsValue :=
  request "/boards" (json_body "POST" input).

Definition updateBoard (boardId input : JsValue) : Exec JsValue :=
  request ("/boards/" ++ js_String boardId) (json_body "PATCH" input).

Definition deleteBoard (boardId : JsValue) : Exec JsValue :=
  request ("/boards/" ++ js_String boardId) (with_method "DELETE") ;;;
  ret JUndefined.

Definition copyBoard (boardId input : JsValue) : Exec JsValue :=
  let body := JObj [] in
  let body := if truthy (prop input "name")
              then set_prop body "name" (prop input "name") else body in
  let body := if truthy (prop input "teamId")
              then set_prop body "team_id" (prop input "teamId") else body in
  request ("/boards/" ++ js_String boardId ++ "/copy") (json_body "PUT" body).

(** *** Board members *)

Definition listBoardMembers (boardId params : JsValue) : Exec JsValue :=
  request ("/boards/" ++ js_String boardId ++ "/members" ++ page_query params)
          no_options.

Definition getBoardMember (boardId memberId : JsValue) : Exec JsValue :=
  request ("/boards/" ++ js_String boardId ++ "/members/" ++ js_String memberId)
          no_options.

Definition shareBoard (boardId input : JsValue) : Exec JsValue :=
  request ("/boards/" ++ js_String boardId ++ "/members")
          (json_body "POST"
             (JObj [("emails", prop input "emails");
                    ("role", js_or (prop input "role") (JStr "viewer"));
                    ("message", prop input "message")])) ;;;
  ret JUndefined.

Definition updateBoardMember (boardId memberId role : JsValue) : Exec JsValue :=
  request ("/boards/" ++ js_String boardId ++ "/members/" ++ js_String memberId)
          (json_body "PATCH" (JObj [("role", role)])).

Definition removeBoardMember (boardId memberId : JsValue) : Exec JsValue :=
  request ("/boards/" ++ js_String boardId ++ "/members/" ++ js_String memberId)
          (with_method "DELETE") ;;;
  ret JUndefined.

(** *** Generic items *)

Definition listItems (boardId params : JsValue) : Exec JsValue :=
  let queryString :=
    buildQueryString [("limit", prop params "limit");
                      ("cursor", prop params "cursor");
                      ("type", prop params "type")] in
  request ("/boards/" ++ js_String boardId ++ "/items" ++ queryString) no_options.

Definition getItem (boardId itemId : JsValue) : Exec JsValue :=
  request ("/boards/" ++ js_String boardId ++ "/items/" ++ js_String itemId)
          no_options.

Definition updateItemPosition (boardId itemId position parentId : JsValue)
  : Exec JsValue :=
  let body := JObj [("position", position)] in
  let body := if truthy parentId
              then set_prop body "parent" (JObj [("id", parentId)]) else body in
  request ("/boards/" ++ js_String boardId ++ "/items/" ++ js_String itemId)
          (json_body "PATCH" body).

Definition deleteItem (boardId itemId : JsValue) : Exec JsValue :=
  request ("/boards/" ++ js_String boardId ++ "/items/" ++ js_String itemId)
          (with_method "DELETE") ;;;
  ret JUndefined.

(** *** The item kinds: one collection per kind under the board *)

(** [this.request(`/boards/${boardId}/<kind>/${itemId}`)]. *)
Definition get_in (kind : string) (boardId itemId : JsValue) : Exec JsValue :=
  request ("/boards/" ++ js_String boardId ++ "/" ++ kind ++ "/" ++ js_String itemId)
          no_options.

(** [this.request(`/boards/${boardId}/<kind>`, { method: 'POST', body })]. *)
Definition create_in (kind : string) (boardId input : JsValue) : Exec JsValue :=
  request ("/boards/" ++ js_String boardId ++ "/" ++ kind) (json_body "POST" input).

(** [this.request(`/boards/${boardId}/<kind>/${itemId}`, { method: 'PATCH',
    body })]. *)
Definition update_in (kind : string) (boardId itemId input : JsValue) : Exec JsValue :=
  request ("/boards/" ++ js_String boardId ++ "/" ++ kind ++ "/" ++ js_String itemId)
          (json_body "PATCH" input).

(** [await this.request<void>(`/boards/${boardId}/<kind>/${itemId}`,
    { method: 'DELETE' })]. *)
Definition delete_in (kind : string) (boardId itemId : JsValue) : Exec JsValue :=
  request ("/boards/" ++ js_String boardId ++ "/" ++ kind ++ "/" ++ js_String itemId)
          (with_method "DELETE") ;;;
  ret JUndefined.

(** Sticky notes *)
Definition listStickyNotes (boardId params : JsValue) : Exec JsValue :=
  listItems boardId (with_type params "sticky_note").
Definition getStickyNote := get_in "sticky_notes".
Definition createStickyNote := create_in "sticky_notes".
Definition updateStickyNote := update_in "sticky_notes".
Definition deleteStickyNote := delete_in "sticky_notes".

(** Shapes *)
Definition listShapes (boardId params : JsValue) : Exec JsValue :=
  listItems boardId (with_type params "shape").
Definition getShape := get_in "shapes".
Definition createShape := create_in "shapes".
Definition updateShape := update_in "shapes".
Definition deleteShape := delete_in "shapes".

(** Text *)
Definition listTexts (boardId params : JsValue) : Exec JsValue :=
  listItems boardId (with_type params "text").
Definition getText := get_in "texts".
Definition createText := create_in "texts".
Definition updateText := update_in "texts".
Definition deleteText := delete_in "texts".

(** Cards *)
Definition listCards (boardId params : JsValue) : Exec JsValue :=
  listItems boardId (with_type params "card").
Definition getCard := get_in "cards".
Definition createCard := create_in "cards".
Definition updateCard := update_in "cards".
Definition deleteCard := delete_in "cards".

(** Images *)
Definition getImage := get_in "images".
Definition createImageFromUrl := create_in "images".
Definition updateImage := update_in "images".
Definition deleteImage := delete_in "images".

(** Frames *)
Definition listFrames (boardId params : JsValue) : Exec JsValue :=
  listItems boardId (with_type params "frame").
Definition getFrame := get_in "frames".
Definition createFrame := create_in "frames".
Definition updateFrame := update_in "frames".
Definition deleteFrame := delete_in "frames".

Definition getFrameItems (boardId frameId params : JsValue) : Exec JsValue :=
  request ("/boards/" ++ js_String boardId ++ "/frames/" ++ js_String frameId
             ++ "/items" ++ page_query params) no_options.

(** Connectors *)
Definition listConnectors (boardId params : JsValue) : Exec JsValue :=
  request ("/boards/" ++ js_String boardId ++ "/connectors" ++ page_query params)
          no_options.
Definition getConnector := get_in "connectors".
Definition createConnector := create_in "connectors".
Definition updateConnector := update_in "connectors".
Definition deleteConnector := delete_in "connectors".

(** Embeds *)
Definition getEmbed := get_in "embeds".
Definition createEmbed := create_in "embeds".
Definition updateEmbed := update_in "embeds".
Definition deleteEmbed := delete_in "embeds".

(** App cards *)
Definition getAppCard := get_in "app_cards".
Definition createAppCard := create_in "app_cards".
Definition updateAppCard := update_in "app_cards".
Definition deleteAppCard := delete_in "app_cards".

(** Tags *)
Definition listTags (boardId params : JsValue) : Exec JsValue :=
  request ("/boards/" ++ js_String boardId ++ "/tags" ++ page_query params)
          no_options.
Definition getTag := get_in "tags".
Definition createTag := create_in "tags".
Definition updateTag := update_in "tags".
Definition deleteTag := delete_in "tags".

Definition attachTagToItem (boardId itemId tagId : JsValue) : Exec JsValue :=
  request ("/boards/" ++ js_String boardId ++ "/items/" ++ js_String itemId
             ++ "/tags/" ++ js_String tagId) (with_method "POST") ;;;
  ret JUndefined.

Definition removeTagFromItem (boardId itemId tagId : JsValue) : Exec JsValue :=
  request ("/boards/" ++ js_String boardId ++ "/items/" ++ js_String itemId
             ++ "/tags/" ++ js_String tagId) (with_method "DELETE") ;;;
  ret JUndefined.

Definition getItemsByTag (boardId tagId params : JsValue) : Exec JsValue :=
  request ("/boards/" ++ js_String boardId ++ "/tags/" ++ js_String tagId
             ++ "/items" ++ page_query params) no_options.

Definition getTagsFromItem (boardId itemId : JsValue) : Exec JsValue :=
  response <- request ("/boards/" ++ js_String boardId ++ "/items/"
                         ++ js_String itemId ++ "/tags") no_options ;;
  lift (get_prop response "data").

(** Documents *)
Definition getDocument := get_in "documents".
Definition createDocumentFromUrl := create_in "documents".
Definition deleteDocument := delete_in "documents".

End Client.

(** ** The client interface

    One constructor per method of the [MiroClient] interface, with the
    method's arguments; [invoke] runs the method of a client built from
    [credentials]. *)
Inductive ClientCall : Type :=
| call_testConnection
| call_listBoards (params : JsValue)
| call_getBoard (boardId : JsValue)
| call_createBoard (input : JsValue)
| call_updateBoard (boardId input : JsValue)
| call_deleteBoard (boardId : JsValue)
| call_copyBoard (boardId input : JsValue)
| call_listBoardMembers (boardId params : JsValue)
| call_getBoardMember (boardId memberId : JsValue)
| call_shareBoard (boardId input : JsValue)
| call_updateBoardMember (boardId memberId role : JsValue)
| call_removeBoardMember (boardId memberId : JsValue)
| call_listItems (boardId params : JsValue)
| call_getItem (boardId itemId : JsValue)
| call_updateItemPosition (boardId itemId position parentId : JsValue)
| call_deleteItem (boardId itemId : JsValue)
| call_listStickyNotes (boardId params : JsValue)
| call_getStickyNote (boardId itemId : JsValue)
| call_createStickyNote (boardId input : JsValue)
| call_updateStickyNote (boardId itemId input : JsValue)
| call_deleteStickyNote (boardId itemId : JsValue)
| call_listShapes (boardId params : JsValue)
| call_getShape (boardId itemId : JsValue)
| call_createShape (boardId input : JsValue)
| call_updateShape (boardId itemId input : JsValue)
| call_deleteShape (boardId itemId : JsValue)
| call_listTexts (boardId params : JsValue)
| call_getText (boardId itemId : JsValue)
| call_createText (boardId input : JsValue)
| call_updateText (boardId itemId input : JsValue)
| call_deleteText (boardId itemId : JsValue)
| call_listCards (boardId params : JsValue)
| call_getCard (boardId itemId : JsValue)
| call_createCard (boardId input : JsValue)
| call_updateCard (boardId itemId input : JsValue)
| call_deleteCard (boardId itemId : JsValue)
| call_getImage (boardId itemId : JsValue)
| call_createImageFromUrl (boardId input : JsValue)
| call_updateImage (boardId itemId input : JsValue)
| call_deleteImage (boardId itemId : JsValue)
| call_listFrames (boardId params : JsValue)
| call_getFrame (boardId itemId : JsValue)
| call_createFrame (boardId input : JsValue)
| call_updateFrame (boardId itemId input : JsValue)
| call_deleteFrame (boardId itemId : JsValue)
| call_getFrameItems (boardId frameId params : JsValue)
| call_listConnectors (boardId params : JsValue)
| call_getConnector (boardId connectorId : JsValue)
| call_createConnector (boardId input : JsValue)
| call_updateConnector (boardId connectorId input : JsValue)
| call_deleteConnector (boardId connectorId : JsValue)
| call_getEmbed (boardId itemId : JsValue)
| call_createEmbed (boardId input : JsValue)
| call_updateEmbed (boardId itemId input : JsValue)
| call_deleteEmbed (boardId itemId : JsValue)
| call_getAppCard (boardId itemId : JsValue)
| call_createAppCard (boardId input : JsValue)
| call_updateAppCard (boardId itemId input : JsValue)
| call_deleteAppCard (boardId itemId : JsValue)
| call_listTags (boardId params : JsValue)
| call_getTag (boardId tagId : JsValue)
| call_createTag (boardId input : JsValue)
| call_updateTag (boardId tagId input : JsValue)
| call_deleteTag (boardId tagId : JsValue)
| call_attachTagToItem (boardId itemId tagId : JsValue)
| call_removeTagFromItem (boardId itemId tagId : JsValue)
| call_getItemsByTag (boardId tagId params : JsValue)
| call_getTagsFromItem (boardId itemId : JsValue)
| call_getDocument (boardId itemId : JsValue)
| call_createDocumentFromUrl (boardId input : JsValue)
| call_deleteDocument (boardId itemId : JsValue).

Definition invoke (credentials : TenantCredentials) (c : ClientCall) : Exec JsValue :=
  match c with
  | call_testConnection => testConnection credentials
  | call_listBoards params => listBoards credentials params
  | call_getBoard boardId => getBoard credentials boardId
  | call_createBoard input => createBoard credentials input
  | call_updateBoard boardId input => updateBoard credentials boardId input
  | call_deleteBoard boardId => deleteBoard credentials boardId
  | call_copyBoard boardId input => copyBoard credentials boardId input
  | call_listBoardMembers boardId params => listBoardMembers credentials boardId params
  | call_getBoardMember boardId memberId => getBoardMember credentials boardId memberId
  | call_shareBoard boardId input => shareBoard credentials boardId input
  | call_updateBoardMember boardId memberId role => updateBoardMember credentials boardId memberId role
  | call_removeBoardMember boardId memberId => removeBoardMember credentials boardId memberId
  | call_listItems boardId params => listItems credentials boardId params
  | call_getItem boardId itemId => getItem credentials boardId itemId
  | call_updateItemPosition boardId itemId position parentId => updateItemPosition credentials boardId itemId position parentId
  | call_deleteItem boardId itemId => deleteItem credentials boardId itemId
  | call_listStickyNotes boardId params => listStickyNotes credentials boardId params
  | call_getStickyNote boardId itemId => getStickyNote credentials boardId itemId
  | call_createStickyNote boardId input => createStickyNote credentials boardId input
  | call_updateStickyNote boardId itemId input => updateStickyNote credentials boardId itemId input
  | call_deleteStickyNote boardId itemId => deleteStickyNote credentials boardId itemId
  | call_listShapes boardId params => listShapes credentials boardId params
  | call_getShape boardId itemId => getShape credentials boardId itemId
  | call_createShape boardId input => createShape credentials boardId input
  | call_updateShape boardId itemId input => updateShape credentials boardId itemId input
  | call_deleteShape boardId itemId => deleteShape credentials boardId itemId
  | call_listTexts boardId params => listTexts credentials boardId params
  | call_getText boardId itemId => getText credentials boardId itemId
  | call_createText boardId input => createText credentials boardId input
  | call_updateText boardId itemId input => updateText credentials boardId itemId input
  | call_deleteText boardId itemId => deleteText credentials boardId itemId
  | call_listCards boardId params => listCards credentials boardId params
  | call_getCard boardId itemId => getCard credentials boardId itemId
  | call_createCard boardId input => createCard credentials boardId input
  | call_updateCard boardId itemId input => updateCard credentials boardId itemId input
  | call_deleteCard boardId itemId => deleteCard credentials boardId itemId
  | call_getImage boardId itemId => getImage credentials boardId itemId
  | call_createImageFromUrl boardId input => createImageFromUrl credentials boardId input
  | call_updateImage boardId itemId input => updateImage credentials boardId itemId input
  | call_deleteImage boardId itemId => deleteImage credentials boardId itemId
  | call_listFrames boardId params => listFrames credentials boardId params
  | call_getFrame boardId itemId => getFrame credentials boardId itemId
  | call_createFrame boardId input => createFrame credentials boardId input
  | call_updateFrame boardId itemId input => updateFrame credentials boardId itemId input
  | call_deleteFrame boardId itemId => deleteFrame credentials boardId itemId
  | call_getFrameItems boardId frameId params => getFrameItems credentials boardId frameId params
  | call_listConnectors boardId params => listConnectors credentials boardId params
  | call_getConnector boardId connectorId => getConnector credentials boardId connectorId
  | call_createConnector boardId input => createConnector credentials boardId input
  | call_updateConnector boardId connectorId input => updateConnector credentials boardId connectorId input
  | call_deleteConnector boardId connectorId => deleteConnector credentials boardId connectorId
  | call_getEmbed boardId itemId => getEmbed credentials boardId itemId
  | call_createEmbed boardId input => createEmbed credentials boardId input
  | call_updateEmbed boardId itemId input => updateEmbed credentials boardId itemId input
  | call_deleteEmbed boardId itemId => deleteEmbed credentials boardId itemId
  | call_getAppCard boardId itemId => getAppCard credentials boardId itemId
  | call_createAppCard boardId input => createAppCard credentials boardId input
  | call_updateAppCard boardId itemId input => updateAppCard credentials boardId itemId input
  | call_deleteAppCard boardId itemId => deleteAppCard credentials boardId itemId
  | call_listTags boardId params => listTags credentials boardId params
  | call_getTag boardId tagId => getTag credentials boardId tagId
  | call_createTag boardId input => createTag credentials boardId input
  | call_updateTag boardId tagId input => updateTag credentials boardId tagId input
  | call_deleteTag boardId tagId => deleteTag credentials boardId tagId
  | call_attachTagToItem boardId itemId tagId => attachTagToItem credentials boardId itemId tagId
  | call_removeTagFromItem boardId itemId tagId => removeTagFromItem credentials boardId itemId tagId
  | call_getItemsByTag boardId tagId params => getItemsByTag credentials boardId tagId params
  | call_getTagsFromItem boardId itemId => getTagsFromItem credentials boardId itemId
  | call_getDocument boardId itemId => getDocument credentials boardId itemId
  | call_createDocumentFromUrl boardId input => createDocumentFromUrl credentials boardId input
  | call_deleteDocument boardId itemId => deleteDocument credentials boardId itemId
  end.

(* ====================================================================== *)
(** * utils/formatters.ts: the response formatter *)
(* ====================================================================== *)

(** A [for ... of] loop that pushes one line per element; it stops at the
    first element for which the body throws. *)
Fixpoint for_each {A B : Type} (f : A -> Result B) (l : list A) : Result (list B) :=
  match l with
  | [] => inr []
  | x :: r =>
      y <~ f x ;;
      ys <~ for_each f r ;;
      inr (y :: ys)
  end.

Definition nl : string := String (ascii_of_N 10) "".

(** [lines.join('\n')]. *)
Definition join_lines (lines : list string) : string := join nl lines.

(** One content block: [{ type: 'text', text }].  [JSON.stringify] gives
    [undefined] for an [undefined] payload, hence the option. *)
Record TextBlock : Type := mkTextBlock {
  type : string;
  text : option string
}.

(** The MCP tool response envelope; [isError = None] is an absent flag. *)
Record ToolResponse : Type := mkToolResponse {
  content : list TextBlock;
  isError : option bool
}.

Definition upper_char (c : ascii) : ascii :=
  let n := N_of_ascii c in
  if (N.leb 97 n && N.leb n 122)%bool then ascii_of_N (n - 32) else c.

(** [str.charAt(0).toUpperCase() + str.slice(1)], on ASCII letters. *)
Definition capitalize (str : string) : string :=
  match str with
  | EmptyString => ""
  | String c r => String (upper_char c) r
  end.

Definition is_upper (c : ascii) : bool :=
  let n := N_of_ascii c in (N.leb 65 n && N.leb n 90)%bool.

(** [key.replace(/([A-Z])/g, ' $1')]. *)
Fixpoint space_capitals (key : string) : string :=
  match key with
  | EmptyString => ""
  | String c r =>
      if is_upper c then String " " (String c (space_capitals r))
      else String c (space_capitals r)
  end.

(** [s.replace(/^./, (str) => str.toUpperCase())]: the dot matches no line
    terminator. *)
Definition upper_first (s : string) : string :=
  match s with
  | EmptyString => ""
  | String c r =>
      let n := N_of_ascii c in
      if (N.eqb n 10 || N.eqb n 13)%bool then s else String (upper_char c) r
  end.

Fixpoint rev_string (acc s : string) : string :=
  match s with
  | EmptyString => acc
  | String c r => rev_string (String c acc) r
  end.

(** [s.trim()], on ASCII white space. *)
Definition trim (s : string) : string :=
  rev_string "" (trim_start (rev_string "" (trim_start s))).

(** Format a key for display (camelCase to Title Case). *)
Definition formatKey (key : string) : string :=
  trim (upper_first (space_capitals key)).

(** [s.replace(/s$/, '')]. *)
Fixpoint drop_final_s (s : string) : string :=
  match s with
  | EmptyString => ""
  | String c EmptyString => if Ascii.eqb c "s" then "" else s
  | String c r => String c (drop_final_s r)
  end.

(** [s.substring(0, n)], counting bytes. *)
Fixpoint substring_0 (n : nat) (s : string) : string :=
  match n, s with
  | S m, String c r => String c (substring_0 m r)
  | _, _ => ""
  end.

(** [k in v]: a [TypeError] unless [v] is an object; arrays carry none of the
    names tested. *)
Definition js_in (k : string) (v : JsValue) : Result bool :=
  match v with
  | JObj _ => inr (has_prop k v)
  | JArr _ => inr false
  | other =>
      inl (ThrownError "TypeError"
             ("Cannot use 'in' operator to search for '" ++ k ++ "' in "
                ++ js_String other))
  end.

(** The row [formatBoardsTable] pushes for one board. *)
Definition board_row (board : JsValue) : Result string :=
  id <~ get_prop board "id" ;;
  id <~ ToString id ;;
  name <~ get_prop board "name" ;;
  name <~ ToString name ;;
  description <~ get_prop board "description" ;;
  description <~ ToString (js_or description (JStr "-")) ;;
  viewLink <~ get_prop board "viewLink" ;;
  viewLink <~ ToString (js_or viewLink (JStr "-")) ;;
  inr ("| " ++ id ++ " | " ++ name ++ " | " ++ description ++ " | [Open]("
         ++ viewLink ++ ") |").

(** Format boards as Markdown table *)
Definition formatBoardsTable (boards : list JsValue) : Result string :=
  rows <~ for_each board_row boards ;;
  inr (join_lines ("| ID | Name | Description | View Link |"
                     :: "|---|---|---|---|" :: rows)).

(** The row [formatItemsTable] pushes for one item. *)
Definition item_row (item : JsValue) : Result string :=
  hasData <~ js_in "data" item ;;
  content <~
    (if (hasData && truthy (prop item "data"))%bool then
       let data := prop item "data" in
       hasContent <~ js_in "content" data ;;
       if hasContent then
         text <~ ToString (prop data "content") ;;
         inr (substring_0 50 text)
       else
         hasTitle <~ js_in "title" data ;;
         if hasTitle then
           text <~ ToString (prop data "title") ;;
           inr (substring_0 50 text)
         else inr "-"
     else inr "-") ;;
  hasPosition <~ js_in "position" item ;;
  pos <~
    (if (hasPosition && truthy (prop item "position"))%bool then
       let position := prop item "position" in
       x <~ ToString (prop position "x") ;;
       y <~ ToString (prop position "y") ;;
       inr ("(" ++ x ++ ", " ++ y ++ ")")
     else inr "-") ;;
  id <~ ToString (prop item "id") ;;
  type <~ ToString (prop item "type") ;;
  inr ("| " ++ id ++ " | " ++ type ++ " | " ++ content ++ " | " ++ pos ++ " |").

(** Format items as Markdown table *)
Definition formatItemsTable (items : list JsValue) : Result string :=
  rows <~ for_each item_row items ;;
  inr (join_lines ("| ID | Type | Content/Title | Position |"
                     :: "|---|---|---|---|" :: rows)).

(** The row [formatMembersTable] pushes for one member. *)
Definition member_row (member : JsValue) : Result string :=
  id <~ get_prop member "id" ;;
  id <~ ToString id ;;
  name <~ get_prop member "name" ;;
  name <~ ToString (js_or name (JStr "-")) ;;
  email <~ get_prop member "email" ;;
  email <~ ToString (js_or email (JStr "-")) ;;
  role <~ get_prop member "role" ;;
  role <~ ToString (js_or role (JStr "-")) ;;
  inr ("| " ++ id ++ " | " ++ name ++ " | " ++ email ++ " | " ++ role ++ " |").

(** Format members as Markdown table *)
Definition formatMembersTable (members : list JsValue) : Result string :=
  rows <~ for_each member_row members ;;
  inr (join_lines ("| ID | Name | Email | Role |" :: "|---|---|---|---|" :: rows)).

(** The row [formatTagsTable] pushes for one tag. *)
Definition tag_row (tag : JsValue) : Result string :=
  id <~ get_prop tag "id" ;;
  id <~ ToString id ;;
  title <~ get_prop tag "title" ;;
  title <~ ToString title ;;
  fillColor <~ get_prop tag "fillColor" ;;
  fillColor <~ ToString (js_or fillColor (JStr "-")) ;;
  inr ("| " ++ id ++ " | " ++ title ++ " | " ++ fillColor ++ " |").

(** Format tags as Markdown table *)
Definition formatTagsTable (tags : list JsValue) : Result string :=
  rows <~ for_each tag_row tags ;;
  inr (join_lines ("| ID | Title | Color |" :: "|---|---|---|" :: rows)).

(** The decimal index keys [0 .. n-1] of an array of [n] elements, from [i]. *)
Fixpoint index_keys (i : Z) (items : list JsValue) : list string :=
  match items with
  | [] => []
  | _ :: r => Z_to_string i :: index_keys (i + 1) r
  end.

(** [Object.keys(v)]: a [TypeError] for [null] and [undefined]; the index
    keys of an array; no key for a number or boolean (nor, here, for a
    string, list entries being objects). *)
Definition Object_keys (v : JsValue) : Result (list string) :=
  match v with
  | JUndefined | JNull =>
      inl (ThrownError "TypeError" "Cannot convert undefined or null to object")
  | JObj fields => inr (map fst fields)
  | JArr items => inr (index_keys 0 items)
  | _ => inr []
  end.

Fixpoint index_lookup (k : string) (i : Z) (items : list JsValue) : JsValue :=
  match items with
  | [] => JUndefined
  | x :: r => if String.eqb k (Z_to_string i) then x else index_lookup k (i + 1) r
  end.

(** [record[k]] for a key [k] obtained from [Object.keys]. *)
Definition get_index (record : JsValue) (k : string) : Result JsValue :=
  match record with
  | JArr items => inr (index_lookup k 0 items)
  | other => get_prop other k
  end.

(** [v ?? fallback]. *)
Definition nullish_or (v fallback : JsValue) : JsValue :=
  match v with
  | JUndefined | JNull => fallback
  | _ => v
  end.

(** The row [formatGenericTable] pushes for one entry, given the columns. *)
Definition generic_row (keys : list string) (record : JsValue) : Result string :=
  values <~ for_each (fun k =>
      v <~ get_index record k ;;
      ToString (nullish_or v (JStr "-"))) keys ;;
  inr ("| " ++ join " | " values ++ " |").

(** Format a generic array as Markdown table *)
Definition formatGenericTable (items : list JsValue) : Result string :=
  match items with
  | [] => inr "_No items_"
  | first :: _ =>
      allKeys <~ Object_keys first ;;
      let keys := firstn 5 allKeys in
      rows <~ for_each (generic_row keys) items ;;
      inr (join_lines (("| " ++ join " | " keys ++ " |")
                         :: ("|" ++ join "|" (map (fun _ => "---") keys) ++ "|")
                         :: rows))
  end.

(** Format an array as Markdown *)
Definition formatArrayAsMarkdown (data : list JsValue) (entityType : string)
  : Result string :=
  formatGenericTable data.

(** [typeof value === 'object'] for a value that is neither [null] nor
    [undefined]. *)
Definition is_object_type (v : JsValue) : bool :=
  match v with
  | JArr _ | JObj _ => true
  | _ => false
  end.

(** Format a single object as Markdown *)
Definition formatObjectAsMarkdown (data : list (string * JsValue)) (entityType : string)
  : string :=
  join_lines
    (("## " ++ capitalize (drop_final_s entityType)) :: "" ::
     flat_map (fun kv =>
        let '(key, value) := kv in
        match value with
        | JUndefined | JNull => []
        | _ =>
            if is_object_type value then
              [ "**" ++ formatKey key ++ ":**";
                "```json";
                match JSON_stringify_2 value with Some t => t | None => "" end;
                "```" ]
            else [ "**" ++ formatKey key ++ ":** " ++ js_String value ]
        end) data).

(** The lines [formatPaginatedAsMarkdown] has pushed when it reaches the test
    for an empty [data]: heading, blank, counts, the cursor hint if there is
    a cursor, blank. *)
Definition paginated_header (data : JsValue) (entityType : string)
  : Result (list string) :=
  counts <~
    (if defined (prop data "total") then
       total <~ ToString (prop data "total") ;;
       size <~ ToString (prop data "size") ;;
       inr ("**Total:** " ++ total ++ " | **Showing:** " ++ size)
     else
       size <~ ToString (prop data "size") ;;
       inr ("**Showing:** " ++ size)) ;;
  cursor <~
    (if truthy (prop data "cursor") then
       cursor <~ ToString (prop data "cursor") ;;
       inr ["**Next cursor:** `" ++ cursor ++ "`"]
     else inr []) ;;
  inr (List.app ["## " ++ capitalize entityType; ""; counts] (List.app cursor [""])).

(** The [switch (entityType)] of [formatPaginatedAsMarkdown]. *)
Definition entity_table (entityType : string) (items : list JsValue) : Result string :=
  if String.eqb entityType "boards" then formatBoardsTable items
  else if String.eqb entityType "items" then formatItemsTable items
  else if String.eqb entityType "members" then formatMembersTable items
  else if String.eqb entityType "tags" then formatTagsTable items
  else formatGenericTable items.

(** Format paginated response as Markdown; [items] is [data.data]. *)
Definition formatPaginatedAsMarkdown (data : JsValue) (items : list JsValue)
           (entityType : string) : Result string :=
  lines <~ paginated_header data entityType ;;
  match items with
  | [] => inr (join_lines (lines ++ ["_No items found._"])%list)
  | _ =>
      table <~ entity_table entityType items ;;
      inr (join_lines (lines ++ [table])%list)
  end.

(** Format data as Markdown; the first case is the type guard
    [isPaginatedResponse]. *)
Definition formatAsMarkdown (data : JsValue) (entityType : string) : Result string :=
  match data with
  | JObj fields =>
      match lookup "data" fields with
      | Some (JArr items) => formatPaginatedAsMarkdown data items entityType
      | _ => inr (formatObjectAsMarkdown fields entityType)
      end
  | JArr items => formatArrayAsMarkdown items entityType
  | other => inr (js_String other)
  end.

(** Format a successful response *)
Definition formatResponse (data format : JsValue) (entityType : string)
  : Result ToolResponse :=
  match format with
  | JStr "markdown" =>
      t <~ formatAsMarkdown data entityType ;;
      inr {| content := [ {| type := "text"; text := Some t |} ]; isError := None |}
  | _ =>
      inr {| content := [ {| type := "text"; text := JSON_stringify_2 data |} ];
             isError := None |}
  end.

(** Format an error response *)
Definition formatError (error : Thrown) : ToolResponse :=
  let errorInfo := formatErrorForLogging error in
  let message :=
    match error with
    | ThrownApi e =>
        "Error: " ++ api_message e ++ (if retryable e then " (retryable)" else "")
    | ThrownError _ m => "Error: " ++ m
    | ThrownValue v => "Error: " ++ js_String v
    end in
  {| content :=
       [ {| type := "text";
            text := JSON_stringify_2
                      (JObj [("error", JStr message); ("details", errorInfo)]) |} ];
     isError := Some true |}.

(* ====================================================================== *)
(** * tools/*.ts: the tool registry *)
(* ====================================================================== *)

(** A registered tool.  Every handler of the sources has the form
    [async (args) => { try { ... } catch (error) { return ...; } }]; a tool
    is kept as its name, its [try] block (a function of the schema-validated
    argument object) and its [catch] block. *)
Record Tool : Type := mkTool {
  tool_name : string;
  tool_try : JsValue -> Exec ToolResponse;
  tool_catch : Thrown -> ToolResponse
}.

(** [{ content: [{ type: 'text', text }] }]. *)
Definition text_response (t : option string) : ToolResponse :=
  {| content := [ {| type := "text"; text := t |} ]; isError := None |}.

(** Running a tool's handler on an argument object. *)
Definition call (t : Tool) (args : JsValue) : Exec ToolResponse :=
  try_catch (tool_try t args) (fun error => ret (tool_catch t error)).

(** [server.tool(name, ..., async (args) => { try { body } catch (error) {
    return formatError(error); } })], the form of every tool in [tools/]. *)
Definition tool (name : string) (body : JsValue -> Exec ToolResponse) : Tool :=
  {| tool_name := name; tool_try := body; tool_catch := formatError |}.

(** [JSON.stringify({ success: true, message, [key]: value }, null, 2)]. *)
Definition success (message key : string) (value : JsValue) : option string :=
  JSON_stringify_2
    (JObj [("success", JBool true); ("message", JStr message); (key, value)]).

(** [JSON.stringify({ success: true, message }, null, 2)]. *)
Definition success_message (message : string) : option string :=
  JSON_stringify_2 (JObj [("success", JBool true); ("message", JStr message)]).

(** [obj.k1.k2 = v]. *)
Definition set_in (obj : JsValue) (k1 k2 : string) (v : JsValue) : JsValue :=
  set_prop obj k1 (set_prop (prop obj k1) k2 v).

(** [s.split(',')]. *)
Fixpoint split_comma (s : string) : list string :=
  match s with
  | EmptyString => [""]
  | String c r =>
      if Ascii.eqb c ","
      then "" :: split_comma r
      else match split_comma r with
           | h :: t => String c h :: t
           | [] => [String c ""]
           end
  end.

(** [emails.split(',').map(e => e.trim()).filter(e => e)]; calling [split]
    on a value that is not a string throws. *)
Definition email_list (emails : JsValue) : Result (list string) :=
  match emails with
  | JStr s =>
      inr (filter (fun e => negb (String.eqb e "")) (map trim (split_comma s)))
  | JUndefined | JNull => e <~ get_prop emails "split" ;; inr []
  | _ => inl (ThrownError "TypeError" "emails.split is not a function")
  end.

Section Tools.

(** The client the tools are registered with. *)
Variable client : MiroClient.

(** ** Board tools *)

Definition miro_list_boards : Tool :=
  tool "miro_list_boards" (fun args =>
    let limit := prop args "limit" in
    let cursor := prop args "cursor" in
    let teamId := prop args "teamId" in
    let query := prop args "query" in
    let sort := prop args "sort" in
    let format := prop args "format" in
    result <- listBoards client
                (JObj [("limit", limit); ("cursor", cursor); ("teamId", teamId);
                       ("query", query); ("sort", sort)]) ;;
    lift (formatResponse result format "boards")).

Definition miro_get_board : Tool :=
  tool "miro_get_board" (fun args =>
    let boardId := prop args "boardId" in
    let format := prop args "format" in
    board <- getBoard client boardId ;;
    lift (formatResponse board format "board")).

Definition miro_create_board : Tool :=
  tool "miro_create_board" (fun args =>
    let name := prop args "name" in
    let description := prop args "description" in
    let teamId := prop args "teamId" in
    let access := prop args "access" in
    let input := JObj [("name", name)] in
    let input := if truthy description
                 then set_prop input "description" description else input in
    let input := if truthy teamId then set_prop input "teamId" teamId else input in
    let input := if truthy access
                 then set_prop input "sharingPolicy" (JObj [("access", access)])
                 else input in
    board <- createBoard client input ;;
    ret (text_response (success "Board created" "board" board))).

Definition miro_update_board : Tool :=
  tool "miro_update_board" (fun args =>
    let boardId := prop args "boardId" in
    let name := prop args "name" in
    let description := prop args "description" in
    let input := JObj [] in
    let input := if truthy name then set_prop input "name" name else input in
    let input := if truthy description
                 then set_prop input "description" description else input in
    board <- updateBoard client boardId input ;;
    ret (text_response (success "Board updated" "board" board))).

Definition miro_delete_board : Tool :=
  tool "miro_delete_board" (fun args =>
    let boardId := prop args "boardId" in
    deleteBoard client boardId ;;;
    ret (text_response
           (success_message ("Board " ++ js_String boardId ++ " deleted")))).

Definition miro_copy_board : Tool :=
  tool "miro_copy_board" (fun args =>
    let boardId := prop args "boardId" in
    let name := prop args "name" in
    let teamId := prop args "teamId" in
    board <- copyBoard client boardId (JObj [("name", name); ("teamId", teamId)]) ;;
    ret (text_response (success "Board copied" "board" board))).

Definition registerBoardTools : list Tool :=
  [ miro_list_boards;
    miro_get_board;
    miro_create_board;
    miro_update_board;
    miro_delete_board;
    miro_copy_board ].

(** ** Board member tools *)

Definition miro_list_board_members : Tool :=
  tool "miro_list_board_members" (fun args =>
    let boardId := prop args "boardId" in
    let limit := prop args "limit" in
    let cursor := prop args "cursor" in
    let format := prop args "format" in
    result <- listBoardMembers client boardId (JObj [("limit", limit); ("cursor", cursor)]) ;;
    lift (formatResponse result format "members")).

Definition miro_get_board_member : Tool :=
  tool "miro_get_board_member" (fun args =>
    let boardId := prop args "boardId" in
    let memberId := prop args "memberId" in
    member <- getBoardMember client boardId memberId ;;
    ret (text_response (JSON_stringify_2 member))).

Definition miro_share_board : Tool :=
  tool "miro_share_board" (fun args =>
    let boardId := prop args "boardId" in
    let emails := prop args "emails" in
    let role := prop args "role" in
    let message := prop args "message" in
    emailList <- lift (email_list emails) ;;
    shareBoard client boardId
      (JObj [("emails", JArr (map JStr emailList)); ("role", role);
             ("message", message)]) ;;;
    ret (text_response
           (success_message
              ("Board shared with " ++ Z_to_string (Z.of_nat (length emailList))
                 ++ " user(s)")))).

Definition miro_update_board_member : Tool :=
  tool "miro_update_board_member" (fun args =>
    let boardId := prop args "boardId" in
    let memberId := prop args "memberId" in
    let role := prop args "role" in
    member <- updateBoardMember client boardId memberId role ;;
    ret (text_response (success "Member updated" "member" member))).

Definition miro_remove_board_member : Tool :=
  tool "miro_remove_board_member" (fun args =>
    let boardId := prop args "boardId" in
    let memberId := prop args "memberId" in
    removeBoardMember client boardId memberId ;;;
    ret (text_response
           (success_message ("Member " ++ js_String memberId ++ " removed from board")))).

Definition registerMemberTools : list Tool :=
  [ miro_list_board_members;
    miro_get_board_member;
    miro_share_board;
    miro_update_board_member;
    miro_remove_board_member ].

(** ** Generic item tools *)

Definition miro_list_items : Tool :=
  tool "miro_list_items" (fun args =>
    let boardId := prop args "boardId" in
    let limit := prop args "limit" in
    let cursor := prop args "cursor" in
    let type := prop args "type" in
    let format := prop args "format" in
    result <- listItems client boardId
                (JObj [("limit", limit); ("cursor", cursor); ("type", type)]) ;;
    lift (formatResponse result format "items")).

Definition miro_get_item : Tool :=
  tool "miro_get_item" (fun args =>
    let boardId := prop args "boardId" in
    let itemId := prop args "itemId" in
    result <- getItem client boardId itemId ;;
    ret (text_response (JSON_stringify_2 result))).

Definition miro_update_item_position : Tool :=
  tool "miro_update_item_position" (fun args =>
    let boardId := prop args "boardId" in
    let itemId := prop args "itemId" in
    let x := prop args "x" in
    let y := prop args "y" in
    let parentId := prop args "parentId" in
    item <- updateItemPosition client boardId itemId
              (JObj [("x", x); ("y", y)]) parentId ;;
    ret (text_response (success "Item position updated" "item" item))).

Definition miro_delete_item : Tool :=
  tool "miro_delete_item" (fun args =>
    let boardId := prop args "boardId" in
    let itemId := prop args "itemId" in
    deleteItem client boardId itemId ;;;
    ret (text_response
           (success_message ("Item " ++ js_String itemId ++ " deleted")))).

Definition registerItemTools : list Tool :=
  [ miro_list_items;
    miro_get_item;
    miro_update_item_position;
    miro_delete_item ].

(** ** Sticky note tools *)

Definition miro_create_sticky_note : Tool :=
  tool "miro_create_sticky_note" (fun args =>
    let boardId := prop args "boardId" in
    let content := prop args "content" in
    let x := prop args "x" in
    let y := prop args "y" in
    let shape := prop args "shape" in
    let fillColor := prop args "fillColor" in
    let width := prop args "width" in
    let height := prop args "height" in
    let input := JObj [("data", JObj [("content", content)]);
                       ("position", JObj [("x", x); ("y", y)])] in
    let input := if truthy shape then set_in input "data" "shape" shape else input in
    let input := if truthy fillColor
                 then set_prop input "style" (JObj [("fillColor", fillColor)])
                 else input in
    let input := if truthy (js_or width height)
                 then set_prop input "geometry"
                        (JObj [("width", width); ("height", height)])
                 else input in
    stickyNote <- createStickyNote client boardId input ;;
    ret (text_response (success "Sticky note created" "stickyNote" stickyNote))).

Definition miro_get_sticky_note : Tool :=
  tool "miro_get_sticky_note" (fun args =>
    let boardId := prop args "boardId" in
    let itemId := prop args "itemId" in
    result <- getStickyNote client boardId itemId ;;
    ret (text_response (JSON_stringify_2 result))).

Definition miro_update_sticky_note : Tool :=
  tool "miro_update_sticky_note" (fun args =>
    let boardId := prop args "boardId" in
    let itemId := prop args "itemId" in
    let content := prop args "content" in
    let x := prop args "x" in
    let y := prop args "y" in
    let fillColor := prop args "fillColor" in
    let input := JObj [] in
    let input := if truthy content
                 then set_prop input "data" (JObj [("content", content)])
                 else input in
    let input := if (defined x && defined y)%bool
                 then set_prop input "position" (JObj [("x", x); ("y", y)])
                 else input in
    let input := if truthy fillColor
                 then set_prop input "style" (JObj [("fillColor", fillColor)])
                 else input in
    stickyNote <- updateStickyNote client boardId itemId input ;;
    ret (text_response (success "Sticky note updated" "stickyNote" stickyNote))).

Definition miro_delete_sticky_note : Tool :=
  tool "miro_delete_sticky_note" (fun args =>
    let boardId := prop args "boardId" in
    let itemId := prop args "itemId" in
    deleteStickyNote client boardId itemId ;;;
    ret (text_response
           (success_message ("Sticky note " ++ js_String itemId ++ " deleted")))).

Definition registerStickyNoteTools : list Tool :=
  [ miro_create_sticky_note;
    miro_get_sticky_note;
    miro_update_sticky_note;
    miro_delete_sticky_note ].

(** ** Shape tools *)

Definition miro_create_shape : Tool :=
  tool "miro_create_shape" (fun args =>
    let boardId := prop args "boardId" in
    let shape := prop args "shape" in
    let x := prop args "x" in
    let y := prop args "y" in
    let width := prop args "width" in
    let height := prop args "height" in
    let content := prop args "content" in
    let fillColor := prop args "fillColor" in
    let borderColor := prop args "borderColor" in
    let borderWidth := prop args "borderWidth" in
    let input := JObj [("data", JObj [("shape", shape)]);
                       ("position", JObj [("x", x); ("y", y)]);
                       ("geometry", JObj [("width", width); ("height", height)])] in
    let input := if truthy content
                 then set_in input "data" "content" content else input in
    let input :=
      if truthy (js_or (js_or fillColor borderColor) borderWidth) then
        let input := set_prop input "style" (JObj []) in
        let input := if truthy fillColor
                     then set_in input "style" "fillColor" fillColor else input in
        let input := if truthy borderColor
                     then set_in input "style" "borderColor" borderColor else input in
        if truthy borderWidth
        then set_in input "style" "borderWidth" borderWidth else input
      else input in
    shapeItem <- createShape client boardId input ;;
    ret (text_response (success "Shape created" "shape" shapeItem))).

Definition miro_get_shape : Tool :=
  tool "miro_get_shape" (fun args =>
    let boardId := prop args "boardId" in
    let itemId := prop args "itemId" in
    result <- getShape client boardId itemId ;;
    ret (text_response (JSON_stringify_2 result))).

Definition miro_update_shape : Tool :=
  tool "miro_update_shape" (fun args =>
    let boardId := prop args "boardId" in
    let itemId := prop args "itemId" in
    let content := prop args "content" in
    let x := prop args "x" in
    let y := prop args "y" in
    let width := prop args "width" in
    let height := prop args "height" in
    let fillColor := prop args "fillColor" in
    let input := JObj [] in
    let input := if truthy content
                 then set_prop input "data" (JObj [("content", content)])
                 else input in
    let input := if (defined x && defined y)%bool
                 then set_prop input "position" (JObj [("x", x); ("y", y)])
                 else input in
    let input := if (defined width || defined height)%bool
                 then set_prop input "geometry"
                        (JObj [("width", width); ("height", height)])
                 else input in
    let input := if truthy fillColor
                 then set_prop input "style" (JObj [("fillColor", fillColor)])
                 else input in
    shape <- updateShape client boardId itemId input ;;
    ret (text_response (success "Shape updated" "shape" shape))).

Definition miro_delete_shape : Tool :=
  tool "miro_delete_shape" (fun args =>
    let boardId := prop args "boardId" in
    let itemId := prop args "itemId" in
    deleteShape client boardId itemId ;;;
    ret (text_response
           (success_message ("Shape " ++ js_String itemId ++ " deleted")))).

Definition registerShapeTools : list Tool :=
  [ miro_create_shape;
    miro_get_shape;
    miro_update_shape;
    miro_delete_shape ].

(** ** Text tools *)

Definition miro_create_text : Tool :=
  tool "miro_create_text" (fun args =>
    let boardId := prop args "boardId" in
    let content := prop args "content" in
    let x := prop args "x" in
    let y := prop args "y" in
    let width := prop args "width" in
    let fontSize := prop args "fontSize" in
    let textAlign := prop args "textAlign" in
    let color := prop args "color" in
    let input := JObj [("data", JObj [("content", content)]);
                       ("position", JObj [("x", x); ("y", y)])] in
    let input := if truthy width
                 then set_prop input "geometry" (JObj [("width", width)])
                 else input in
    let input :=
      if truthy (js_or (js_or fontSize textAlign) color) then
        let input := set_prop input "style" (JObj []) in
        let input := if truthy fontSize
                     then set_in input "style" "fontSize" fontSize else input in
        let input := if truthy textAlign
                     then set_in input "style" "textAlign" textAlign else input in
        if truthy color then set_in input "style" "color" color else input
      else input in
    textItem <- createText client boardId input ;;
    ret (text_response (success "Text item created" "textItem" textItem))).

Definition miro_get_text : Tool :=
  tool "miro_get_text" (fun args =>
    let boardId := prop args "boardId" in
    let itemId := prop args "itemId" in
    result <- getText client boardId itemId ;;
    ret (text_response (JSON_stringify_2 result))).

Definition miro_update_text : Tool :=
  tool "miro_update_text" (fun args =>
    let boardId := prop args "boardId" in
    let itemId := prop args "itemId" in
    let content := prop args "content" in
    let x := prop args "x" in
    let y := prop args "y" in
    let fontSize := prop args "fontSize" in
    let color := prop args "color" in
    let input := JObj [] in
    let input := if truthy content
                 then set_prop input "data" (JObj [("content", content)])
                 else input in
    let input := if (defined x && defined y)%bool
                 then set_prop input "position" (JObj [("x", x); ("y", y)])
                 else input in
    let input :=
      if truthy (js_or fontSize color) then
        let input := set_prop input "style" (JObj []) in
        let input := if truthy fontSize
                     then set_in input "style" "fontSize" fontSize else input in
        if truthy color then set_in input "style" "color" color else input
      else input in
    textItem <- updateText client boardId itemId input ;;
    ret (text_response (success "Text item updated" "textItem" textItem))).

Definition miro_delete_text : Tool :=
  tool "miro_delete_text" (fun args =>
    let boardId := prop args "boardId" in
    let itemId := prop args "itemId" in
    deleteText client boardId itemId ;;;
    ret (text_response
           (success_message ("Text item " ++ js_String itemId ++ " deleted")))).

Definition registerTextTools : list Tool :=
  [ miro_create_text;
    miro_get_text;
    miro_update_text;
    miro_delete_text ].

(** ** Card tools *)

Definition miro_create_card : Tool :=
  tool "miro_create_card" (fun args =>
    let boardId := prop args "boardId" in
    let title := prop args "title" in
    let description := prop args "description" in
    let x := prop args "x" in
    let y := prop args "y" in
    let dueDate := prop args "dueDate" in
    let assigneeId := prop args "assigneeId" in
    let input := JObj [("data", JObj [("title", title)]);
                       ("position", JObj [("x", x); ("y", y)])] in
    let input := if truthy description
                 then set_in input "data" "description" description else input in
    let input := if truthy dueDate
                 then set_in input "data" "dueDate" dueDate else input in
    let input := if truthy assigneeId
                 then set_in input "data" "assigneeId" assigneeId else input in
    card <- createCard client boardId input ;;
    ret (text_response (success "Card created" "card" card))).

Definition miro_get_card : Tool :=
  tool "miro_get_card" (fun args =>
    let boardId := prop args "boardId" in
    let itemId := prop args "itemId" in
    result <- getCard client boardId itemId ;;
    ret (text_response (JSON_stringify_2 result))).

Definition miro_update_card : Tool :=
  tool "miro_update_card" (fun args =>
    let boardId := prop args "boardId" in
    let itemId := prop args "itemId" in
    let title := prop args "title" in
    let description := prop args "description" in
    let x := prop args "x" in
    let y := prop args "y" in
    let dueDate := prop args "dueDate" in
    let assigneeId := prop args "assigneeId" in
    let input := JObj [] in
    let input :=
      if truthy (js_or (js_or (js_or title description) dueDate) assigneeId) then
        let input := set_prop input "data" (JObj []) in
        let input := if truthy title
                     then set_in input "data" "title" title else input in
        let input := if truthy description
                     then set_in input "data" "description" description else input in
        let input := if truthy dueDate
                     then set_in input "data" "dueDate" dueDate else input in
        if truthy assigneeId
        then set_in input "data" "assigneeId" assigneeId else input
      else input in
    let input := if (defined x && defined y)%bool
                 then set_prop input "position" (JObj [("x", x); ("y", y)])
                 else input in
    card <- updateCard client boardId itemId input ;;
    ret (text_response (success "Card updated" "card" card))).

Definition miro_delete_card : Tool :=
  tool "miro_delete_card" (fun args =>
    let boardId := prop args "boardId" in
    let itemId := prop args "itemId" in
    deleteCard client boardId itemId ;;;
    ret (text_response
           (success_message ("Card " ++ js_String itemId ++ " deleted")))).

Definition registerCardTools : list Tool :=
  [ miro_create_card;
    miro_get_card;
    miro_update_card;
    miro_delete_card ].

(** ** Frame tools *)

Definition miro_create_frame : Tool :=
  tool "miro_create_frame" (fun args =>
    let boardId := prop args "boardId" in
    let title := prop args "title" in
    let x := prop args "x" in
    let y := prop args "y" in
    let width := prop args "width" in
    let height := prop args "height" in
    let format := prop args "format" in
    let fillColor := prop args "fillColor" in
    let input := JObj [("data", JObj []);
                       ("position", JObj [("x", x); ("y", y)]);
                       ("geometry", JObj [("width", width); ("height", height)])] in
    let input := if truthy title then set_in input "data" "title" title else input in
    let input := if truthy format
                 then set_in input "data" "format" format else input in
    let input := if truthy fillColor
                 then set_prop input "style" (JObj [("fillColor", fillColor)])
                 else input in
    frame <- createFrame client boardId input ;;
    ret (text_response (success "Frame created" "frame" frame))).

Definition miro_get_frame : Tool :=
  tool "miro_get_frame" (fun args =>
    let boardId := prop args "boardId" in
    let itemId := prop args "itemId" in
    result <- getFrame client boardId itemId ;;
    ret (text_response (JSON_stringify_2 result))).

Definition miro_update_frame : Tool :=
  tool "miro_update_frame" (fun args =>
    let boardId := prop args "boardId" in
    let itemId := prop args "itemId" in
    let title := prop args "title" in
    let x := prop args "x" in
    let y := prop args "y" in
    let width := prop args "width" in
    let height := prop args "height" in
    let fillColor := prop args "fillColor" in
    let input := JObj [] in
    let input := if truthy title
                 then set_prop input "data" (JObj [("title", title)]) else input in
    let input := if (defined x && defined y)%bool
                 then set_prop input "position" (JObj [("x", x); ("y", y)])
                 else input in
    let input := if (defined width || defined height)%bool
                 then set_prop input "geometry"
                        (JObj [("width", width); ("height", height)])
                 else input in
    let input := if truthy fillColor
                 then set_prop input "style" (JObj [("fillColor", fillColor)])
                 else input in
    frame <- updateFrame client boardId itemId input ;;
    ret (text_response (success "Frame updated" "frame" frame))).

Definition miro_delete_frame : Tool :=
  tool "miro_delete_frame" (fun args =>
    let boardId := prop args "boardId" in
    let itemId := prop args "itemId" in
    deleteFrame client boardId itemId ;;;
    ret (text_response
           (success_message ("Frame " ++ js_String itemId ++ " deleted")))).

Definition miro_get_frame_items : Tool :=
  tool "miro_get_frame_items" (fun args =>
    let boardId := prop args "boardId" in
    let frameId := prop args "frameId" in
    let limit := prop args "limit" in
    let cursor := prop args "cursor" in
    let format := prop args "format" in
    result <- getFrameItems client boardId frameId (JObj [("limit", limit); ("cursor", cursor)]) ;;
    lift (formatResponse result format "items")).

Definition registerFrameTools : list Tool :=
  [ miro_create_frame;
    miro_get_frame;
    miro_update_frame;
    miro_delete_frame;
    miro_get_frame_items ].

(** ** Connector tools *)

Definition miro_list_connectors : Tool :=
  tool "miro_list_connectors" (fun args =>
    let boardId := prop args "boardId" in
    let limit := prop args "limit" in
    let cursor := prop args "cursor" in
    let format := prop args "format" in
    result <- listConnectors client boardId (JObj [("limit", limit); ("cursor", cursor)]) ;;
    lift (formatResponse result format "connectors")).

Definition miro_create_connector : Tool :=
  tool "miro_create_connector" (fun args =>
    let boardId := prop args "boardId" in
    let startItemId := prop args "startItemId" in
    let endItemId := prop args "endItemId" in
    let shape := prop args "shape" in
    let startStrokeCap := prop args "startStrokeCap" in
    let endStrokeCap := prop args "endStrokeCap" in
    let strokeColor := prop args "strokeColor" in
    let strokeWidth := prop args "strokeWidth" in
    let caption := prop args "caption" in
    let input := JObj [("startItem", JObj [("id", startItemId)]);
                       ("endItem", JObj [("id", endItemId)])] in
    let input := if truthy shape then set_prop input "shape" shape else input in
    let input :=
      if truthy (js_or (js_or (js_or startStrokeCap endStrokeCap) strokeColor)
                       strokeWidth) then
        let input := set_prop input "style" (JObj []) in
        let input := if truthy startStrokeCap
                     then set_in input "style" "startStrokeCap" startStrokeCap
                     else input in
        let input := if truthy endStrokeCap
                     then set_in input "style" "endStrokeCap" endStrokeCap
                     else input in
        let input := if truthy strokeColor
                     then set_in input "style" "strokeColor" strokeColor
                     else input in
        if truthy strokeWidth
        then set_in input "style" "strokeWidth" strokeWidth else input
      else input in
    let input := if truthy caption
                 then set_prop input "captions" (JArr [JObj [("content", caption)]])
                 else input in
    connector <- createConnector client boardId input ;;
    ret (text_response (success "Connector created" "connector" connector))).

Definition miro_get_connector : Tool :=
  tool "miro_get_connector" (fun args =>
    let boardId := prop args "boardId" in
    let connectorId := prop args "connectorId" in
    result <- getConnector client boardId connectorId ;;
    ret (text_response (JSON_stringify_2 result))).

Definition miro_update_connector : Tool :=
  tool "miro_update_connector" (fun args =>
    let boardId := prop args "boardId" in
    let connectorId := prop args "connectorId" in
    let shape := prop args "shape" in
    let startStrokeCap := prop args "startStrokeCap" in
    let endStrokeCap := prop args "endStrokeCap" in
    let strokeColor := prop args "strokeColor" in
    let caption := prop args "caption" in
    let input := JObj [] in
    let input := if truthy shape then set_prop input "shape" shape else input in
    let input :=
      if truthy (js_or (js_or startStrokeCap endStrokeCap) strokeColor) then
        let input := set_prop input "style" (JObj []) in
        let input := if truthy startStrokeCap
                     then set_in input "style" "startStrokeCap" startStrokeCap
                     else input in
        let input := if truthy endStrokeCap
                     then set_in input "style" "endStrokeCap" endStrokeCap
                     else input in
        if truthy strokeColor
        then set_in input "style" "strokeColor" strokeColor else input
      else input in
    let input := if truthy caption
                 then set_prop input "captions" (JArr [JObj [("content", caption)]])
                 else input in
    connector <- updateConnector client boardId connectorId input ;;
    ret (text_response (success "Connector updated" "connector" connector))).

Definition miro_delete_connector : Tool :=
  tool "miro_delete_connector" (fun args =>
    let boardId := prop args "boardId" in
    let connectorId := prop args "connectorId" in
    deleteConnector client boardId connectorId ;;;
    ret (text_response
           (success_message ("Connector " ++ js_String connectorId ++ " deleted")))).

Definition registerConnectorTools : list Tool :=
  [ miro_list_connectors;
    miro_create_connector;
    miro_get_connector;
    miro_update_connector;
    miro_delete_connector ].

(** ** Image tools *)

Definition miro_create_image : Tool :=
  tool "miro_create_image" (fun args =>
    let boardId := prop args "boardId" in
    let url := prop args "url" in
    let x := prop args "x" in
    let y := prop args "y" in
    let width := prop args "width" in
    let height := prop args "height" in
    let title := prop args "title" in
    let input := JObj [("data", JObj [("url", url)]);
                       ("position", JObj [("x", x); ("y", y)])] in
    let input := if truthy title then set_in input "data" "title" title else input in
    let input := if truthy (js_or width height)
                 then set_prop input "geometry"
                        (JObj [("width", width); ("height", height)])
                 else input in
    image <- createImageFromUrl client boardId input ;;
    ret (text_response (success "Image created" "image" image))).

Definition miro_get_image : Tool :=
  tool "miro_get_image" (fun args =>
    let boardId := prop args "boardId" in
    let itemId := prop args "itemId" in
    result <- getImage client boardId itemId ;;
    ret (text_response (JSON_stringify_2 result))).

Definition miro_update_image : Tool :=
  tool "miro_update_image" (fun args =>
    let boardId := prop args "boardId" in
    let itemId := prop args "itemId" in
    let x := prop args "x" in
    let y := prop args "y" in
    let width := prop args "width" in
    let height := prop args "height" in
    let title := prop args "title" in
    let input := JObj [] in
    let input := if truthy title
                 then set_prop input "data" (JObj [("title", title)]) else input in
    let input := if (defined x && defined y)%bool
                 then set_prop input "position" (JObj [("x", x); ("y", y)])
                 else input in
    let input := if (defined width || defined height)%bool
                 then set_prop input "geometry"
                        (JObj [("width", width); ("height", height)])
                 else input in
    image <- updateImage client boardId itemId input ;;
    ret (text_response (success "Image updated" "image" image))).

Definition miro_delete_image : Tool :=
  tool "miro_delete_image" (fun args =>
    let boardId := prop args "boardId" in
    let itemId := prop args "itemId" in
    deleteImage client boardId itemId ;;;
    ret (text_response
           (success_message ("Image " ++ js_String itemId ++ " deleted")))).

Definition registerImageTools : list Tool :=
  [ miro_create_image;
    miro_get_image;
    miro_update_image;
    miro_delete_image ].

(** ** Tag tools *)

Definition miro_list_tags : Tool :=
  tool "miro_list_tags" (fun args =>
    let boardId := prop args "boardId" in
    let limit := prop args "limit" in
    let cursor := prop args "cursor" in
    let format := prop args "format" in
    result <- listTags client boardId (JObj [("limit", limit); ("cursor", cursor)]) ;;
    lift (formatResponse result format "tags")).

Definition miro_create_tag : Tool :=
  tool "miro_create_tag" (fun args =>
    let boardId := prop args "boardId" in
    let title := prop args "title" in
    let fillColor := prop args "fillColor" in
    let input := JObj [("title", title)] in
    let input := if truthy fillColor
                 then set_prop input "fillColor" fillColor else input in
    tag <- createTag client boardId input ;;
    ret (text_response (success "Tag created" "tag" tag))).

Definition miro_get_tag : Tool :=
  tool "miro_get_tag" (fun args =>
    let boardId := prop args "boardId" in
    let tagId := prop args "tagId" in
    result <- getTag client boardId tagId ;;
    ret (text_response (JSON_stringify_2 result))).

Definition miro_update_tag : Tool :=
  tool "miro_update_tag" (fun args =>
    let boardId := prop args "boardId" in
    let tagId := prop args "tagId" in
    let title := prop args "title" in
    let fillColor := prop args "fillColor" in
    let input := JObj [] in
    let input := if truthy title then set_prop input "title" title else input in
    let input := if truthy fillColor
                 then set_prop input "fillColor" fillColor else input in
    tag <- updateTag client boardId tagId input ;;
    ret (text_response (success "Tag updated" "tag" tag))).

Definition miro_delete_tag : Tool :=
  tool "miro_delete_tag" (fun args =>
    let boardId := prop args "boardId" in
    let tagId := prop args "tagId" in
    deleteTag client boardId tagId ;;;
    ret (text_response
           (success_message ("Tag " ++ js_String tagId ++ " deleted")))).

Definition miro_attach_tag : Tool :=
  tool "miro_attach_tag" (fun args =>
    let boardId := prop args "boardId" in
    let itemId := prop args "itemId" in
    let tagId := prop args "tagId" in
    attachTagToItem client boardId itemId tagId ;;;
    ret (text_response
           (success_message ("Tag " ++ js_String tagId ++ " attached to item "
                               ++ js_String itemId)))).

Definition miro_remove_tag : Tool :=
  tool "miro_remove_tag" (fun args =>
    let boardId := prop args "boardId" in
    let itemId := prop args "itemId" in
    let tagId := prop args "tagId" in
    removeTagFromItem client boardId itemId tagId ;;;
    ret (text_response
           (success_message ("Tag " ++ js_String tagId ++ " removed from item "
                               ++ js_String itemId)))).

Definition miro_get_items_by_tag : Tool :=
  tool "miro_get_items_by_tag" (fun args =>
    let boardId := prop args "boardId" in
    let tagId := prop args "tagId" in
    let limit := prop args "limit" in
    let cursor := prop args "cursor" in
    let format := prop args "format" in
    result <- getItemsByTag client boardId tagId (JObj [("limit", limit); ("cursor", cursor)]) ;;
    lift (formatResponse result format "items")).

Definition miro_get_item_tags : Tool :=
  tool "miro_get_item_tags" (fun args =>
    let boardId := prop args "boardId" in
    let itemId := prop args "itemId" in
    tags <- getTagsFromItem client boardId itemId ;;
    ret (text_response (JSON_stringify_2 (JObj [("tags", tags)])))).

Definition registerTagTools : list Tool :=
  [ miro_list_tags;
    miro_create_tag;
    miro_get_tag;
    miro_update_tag;
    miro_delete_tag;
    miro_attach_tag;
    miro_remove_tag;
    miro_get_items_by_tag;
    miro_get_item_tags ].

(** ** Embed tools *)

Definition miro_create_embed : Tool :=
  tool "miro_create_embed" (fun args =>
    let boardId := prop args "boardId" in
    let url := prop args "url" in
    let x := prop args "x" in
    let y := prop args "y" in
    let width := prop args "width" in
    let height := prop args "height" in
    let mode := prop args "mode" in
    let input := JObj [("data", JObj [("url", url)]);
                       ("position", JObj [("x", x); ("y", y)])] in
    let input := if truthy mode then set_in input "data" "mode" mode else input in
    let input := if truthy (js_or width height)
                 then set_prop input "geometry"
                        (JObj [("width", width); ("height", height)])
                 else input in
    embed <- createEmbed client boardId input ;;
    ret (text_response (success "Embed created" "embed" embed))).

Definition miro_get_embed : Tool :=
  tool "miro_get_embed" (fun args =>
    let boardId := prop args "boardId" in
    let itemId := prop args "itemId" in
    result <- getEmbed client boardId itemId ;;
    ret (text_response (JSON_stringify_2 result))).

Definition miro_update_embed : Tool :=
  tool "miro_update_embed" (fun args =>
    let boardId := prop args "boardId" in
    let itemId := prop args "itemId" in
    let x := prop args "x" in
    let y := prop args "y" in
    let width := prop args "width" in
    let height := prop args "height" in
    let input := JObj [] in
    let input := if (defined x && defined y)%bool
                 then set_prop input "position" (JObj [("x", x); ("y", y)])
                 else input in
    let input := if (defined width || defined height)%bool
                 then set_prop input "geometry"
                        (JObj [("width", width); ("height", height)])
                 else input in
    embed <- updateEmbed client boardId itemId input ;;
    ret (text_response (success "Embed updated" "embed" embed))).

Definition miro_delete_embed : Tool :=
  tool "miro_delete_embed" (fun args =>
    let boardId := prop args "boardId" in
    let itemId := prop args "itemId" in
    deleteEmbed client boardId itemId ;;;
    ret (text_response
           (success_message ("Embed " ++ js_String itemId ++ " deleted")))).

Definition registerEmbedTools : list Tool :=
  [ miro_create_embed;
    miro_get_embed;
    miro_update_embed;
    miro_delete_embed ].

(** ** App card tools *)

Definition miro_create_app_card : Tool :=
  tool "miro_create_app_card" (fun args =>
    let boardId := prop args "boardId" in
    let title := prop args "title" in
    let description := prop args "description" in
    let x := prop args "x" in
    let y := prop args "y" in
    let status := prop args "status" in
    let input := JObj [("data", JObj [("title", title)]);
                       ("position", JObj [("x", x); ("y", y)])] in
    let input := if truthy description
                 then set_in input "data" "description" description else input in
    let input := if truthy status
                 then set_in input "data" "status" status else input in
    appCard <- createAppCard client boardId input ;;
    ret (text_response (success "App card created" "appCard" appCard))).

Definition miro_get_app_card : Tool :=
  tool "miro_get_app_card" (fun args =>
    let boardId := prop args "boardId" in
    let itemId := prop args "itemId" in
    result <- getAppCard client boardId itemId ;;
    ret (text_response (JSON_stringify_2 result))).

Definition miro_update_app_card : Tool :=
  tool "miro_update_app_card" (fun args =>
    let boardId := prop args "boardId" in
    let itemId := prop args "itemId" in
    let title := prop args "title" in
    let description := prop args "description" in
    let x := prop args "x" in
    let y := prop args "y" in
    let status := prop args "status" in
    let input := JObj [] in
    let input :=
      if truthy (js_or (js_or title description) status) then
        let input := set_prop input "data" (JObj []) in
        let input := if truthy title
                     then set_in input "data" "title" title else input in
        let input := if truthy description
                     then set_in input "data" "description" description else input in
        if truthy status then set_in input "data" "status" status else input
      else input in
    let input := if (defined x && defined y)%bool
                 then set_prop input "position" (JObj [("x", x); ("y", y)])
                 else input in
    appCard <- updateAppCard client boardId itemId input ;;
    ret (text_response (success "App card updated" "appCard" appCard))).

Definition miro_delete_app_card : Tool :=
  tool "miro_delete_app_card" (fun args =>
    let boardId := prop args "boardId" in
    let itemId := prop args "itemId" in
    deleteAppCard client boardId itemId ;;;
    ret (text_response
           (success_message ("App card " ++ js_String itemId ++ " deleted")))).

Definition registerAppCardTools : list Tool :=
  [ miro_create_app_card;
    miro_get_app_card;
    miro_update_app_card;
    miro_delete_app_card ].

(** ** Document tools *)

Definition miro_create_document : Tool :=
  tool "miro_create_document" (fun args =>
    let boardId := prop args "boardId" in
    let url := prop args "url" in
    let x := prop args "x" in
    let y := prop args "y" in
    let title := prop args "title" in
    let input := JObj [("data", JObj [("url", url)]);
                       ("position", JObj [("x", x); ("y", y)])] in
    let input := if truthy title then set_in input "data" "title" title else input in
    document <- createDocumentFromUrl client boardId input ;;
    ret (text_response (success "Document created" "document" document))).

Definition miro_get_document : Tool :=
  tool "miro_get_document" (fun args =>
    let boardId := prop args "boardId" in
    let itemId := prop args "itemId" in
    result <- getDocument client boardId itemId ;;
    ret (text_response (JSON_stringify_2 result))).

Definition miro_delete_document : Tool :=
  tool "miro_delete_document" (fun args =>
    let boardId := prop args "boardId" in
    let itemId := prop args "itemId" in
    deleteDocument client boardId itemId ;;;
    ret (text_response
           (success_message ("Document " ++ js_String itemId ++ " deleted")))).

Definition registerDocumentTools : list Tool :=
  [ miro_create_document;
    miro_get_document;
    miro_delete_document ].

End Tools.

(* ====================================================================== *)
(** * index.ts: the transport front door *)
(* ====================================================================== *)

Definition SERVER_NAME : string := "primrose-mcp-miro".
Definition SERVER_VERSION : string := "1.0.0".

(** The registered tools of an [McpServer], in registration order. *)
Definition McpServer : Type := list Tool.

(** Test connection tool *)
Definition miro_test_connection (client : MiroClient) : Tool :=
  {| tool_name := "miro_test_connection";
     tool_try := fun _ =>
       result <- testConnection client ;;
       ret (text_response (JSON_stringify_2 result));
     tool_catch := fun error =>
       {| content :=
            [ {| type := "text";
                 text := Some ("Connection failed: "
                                 ++ message_or error "Unknown error") |} ];
          isError := Some true |} |}.

Definition createStatelessServer (credentials : TenantCredentials) : McpServer :=
  let client := createMiroClient credentials in
  (registerBoardTools client ++ registerMemberTools client
   ++ registerItemTools client ++ registerStickyNoteTools client
   ++ registerShapeTools client ++ registerTextTools client
   ++ registerCardTools client ++ registerFrameTools client
   ++ registerConnectorTools client ++ registerImageTools client
   ++ registerTagTools client ++ registerEmbedTools client
   ++ registerAppCardTools client ++ registerDocumentTools client
   ++ [miro_test_connection client])%list.

(** The tool registered under a name. *)
Definition find_tool (server : McpServer) (name : string) : option Tool :=
  find (fun t => String.eqb (tool_name t) name) server.

(** A [Response] of the worker. *)
Record Response : Type := mkResponse {
  status : Z;
  response_headers : Headers;
  response_body : option string
}.

Definition json_headers : Headers := [("Content-Type", "application/json")].

(** The names listed by the default response. *)
Definition listed_tools : list string :=
  [ "miro_list_boards"; "miro_get_board"; "miro_create_board";
    "miro_update_board"; "miro_delete_board"; "miro_copy_board";
    "miro_list_board_members"; "miro_get_board_member"; "miro_share_board";
    "miro_update_board_member"; "miro_remove_board_member";
    "miro_list_items"; "miro_get_item"; "miro_update_item_position";
    "miro_delete_item";
    "miro_create_sticky_note"; "miro_get_sticky_note";
    "miro_update_sticky_note"; "miro_delete_sticky_note";
    "miro_create_shape"; "miro_get_shape"; "miro_update_shape";
    "miro_delete_shape";
    "miro_create_text"; "miro_get_text"; "miro_update_text"; "miro_delete_text";
    "miro_create_card"; "miro_get_card"; "miro_update_card"; "miro_delete_card";
    "miro_create_frame"; "miro_get_frame"; "miro_update_frame";
    "miro_delete_frame"; "miro_get_frame_items";
    "miro_list_connectors"; "miro_create_connector"; "miro_get_connector";
    "miro_update_connector"; "miro_delete_connector";
    "miro_create_image"; "miro_get_image"; "miro_update_image";
    "miro_delete_image";
    "miro_list_tags"; "miro_create_tag"; "miro_get_tag"; "miro_update_tag";
    "miro_delete_tag"; "miro_attach_tag"; "miro_remove_tag";
    "miro_get_items_by_tag"; "miro_get_item_tags";
    "miro_create_embed"; "miro_get_embed"; "miro_update_embed";
    "miro_delete_embed";
    "miro_create_app_card"; "miro_get_app_card"; "miro_update_app_card";
    "miro_delete_app_card";
    "miro_create_document"; "miro_get_document"; "miro_delete_document";
    "miro_test_connection" ].

Section Worker.

(** [createMcpHandler(server)] of the Agents SDK, applied to the request: the
    only place where the tools of [server] can be run. *)
Variable createMcpHandler : McpServer -> Request -> Exec Response.

(** The worker's [fetch]. *)
Definition fetch (request : Request) : Exec Response :=
  if String.eqb (url_pathname request) "/health" then
    ret {| status := 200;
           response_headers := json_headers;
           response_body :=
             JSON_stringify (JObj [("status", JStr "ok");
                                   ("server", JStr SERVER_NAME)]) |}
  else if (String.eqb (url_pathname request) "/mcp"
           && String.eqb (method request) "POST")%bool then
    let credentials := parseTenantCredentials request in
    match validateCredentials credentials with
    | inl error =>
        ret {| status := 401;
               response_headers := json_headers;
               response_body :=
                 JSON_stringify
                   (JObj [("error", JStr "Unauthorized");
                          ("message", JStr (message_or error "Invalid credentials"));
                          ("required_headers",
                           JArr [JStr "X-Miro-Access-Token"])]) |}
    | inr _ =>
        let server := createStatelessServer credentials in
        createMcpHandler server request
    end
  else if String.eqb (url_pathname request) "/sse" then
    ret {| status := 501;
           response_headers := [];
           response_body :=
             Some "SSE endpoint requires Durable Objects. Enable in wrangler.jsonc." |}
  else
    ret {| status := 200;
           response_headers := json_headers;
           response_body :=
             JSON_stringify
               (JObj [("name", JStr SERVER_NAME);
                      ("version", JStr SERVER_VERSION);
                      ("description", JStr "Multi-tenant Miro MCP Server");
                      ("endpoints",
                       JObj [("mcp", JStr "/mcp (POST) - Streamable HTTP MCP endpoint");
                             ("health", JStr "/health - Health check")]);
                      ("authentication",
                       JObj [("description",
                              JStr "Pass Miro credentials via request headers");
                             ("required_headers",
                              JObj [("X-Miro-Access-Token",
                                     JStr "Miro OAuth access token")])]);
                      ("tools", JArr (map JStr listed_tools))]) |}.

End Worker.

(* ====================================================================== *)
(** * Notions used by the statements *)
(* ====================================================================== *)

(** The request that [request endpoint options] hands to [fetch] for a
    client holding a token. *)
Definition outgoing (credentials : TenantCredentials) (endpoint : string)
           (options : RequestInit) : HttpRequest :=
  {| req_url := API_BASE_URL ++ endpoint;
     req_method := match init_method options with Some m => m | None => "GET" end;
     req_headers :=
       spread_headers
         [("Authorization", "Bearer " ++ accessToken credentials);
          ("Content-Type", "application/json")]
         (match init_headers options with Some h => h | None => [] end);
     req_body := init_body options |}.

Definition is_testConnection (c : ClientCall) : bool :=
  match c with
  | call_testConnection => true
  | _ => false
  end.

Definition is_getTagsFromItem (c : ClientCall) : bool :=
  match c with
  | call_getTagsFromItem _ _ => true
  | _ => false
  end.

(** The error a client without a token throws. *)
Definition no_token_error : Thrown :=
  ThrownApi (AuthenticationError
               "No access token provided. Include X-Miro-Access-Token header.").

(** [needle] occurs in [s]. *)
Fixpoint contains (needle s : string) : bool :=
  if String.prefix needle s then true
  else match s with
       | EmptyString => false
       | String _ r => contains needle r
       end.

(** The message the spec's words describe for a failed response: the
    [message] field of the JSON error body, else its [error] field, else the
    default string. *)
Definition described_message (response : RemoteResponse) : string :=
  let default := "Miro API error: " ++ Z_to_string (resp_status response) in
  match resp_json response with
  | inr (JObj fields) =>
      match lookup "message" fields with
      | Some m =>
          if truthy m then js_String m
          else match lookup "error" fields with
               | Some e => if truthy e then js_String e else default
               | None => default
               end
      | None =>
          match lookup "error" fields with
          | Some e => if truthy e then js_String e else default
          | None => default
          end
      end
  | _ => default
  end.

(** The rejection the front door returns for missing credentials. *)
Definition unauthorized : Response :=
  {| status := 401;
     response_headers := [("Content-Type", "application/json")];
     response_body :=
       JSON_stringify
         (JObj [("error", JStr "Unauthorized");
                ("message",
                 JStr "Missing credentials. Provide X-Miro-Access-Token header.");
                ("required_headers", JArr [JStr "X-Miro-Access-Token"])]) |}.

(** The methods declared [Promise<void>]: they await [request] and return
    nothing. *)
Definition returns_void (c : ClientCall) : bool :=
  match c with
  | call_deleteBoard _ | call_shareBoard _ _ | call_removeBoardMember _ _
  | call_deleteItem _ _ | call_deleteStickyNote _ _ | call_deleteShape _ _
  | call_deleteText _ _ | call_deleteCard _ _ | call_deleteImage _ _
  | call_deleteFrame _ _ | call_deleteConnector _ _ | call_deleteEmbed _ _
  | call_deleteAppCard _ _ | call_deleteTag _ _ | call_attachTagToItem _ _ _
  | call_removeTagFromItem _ _ _ | call_deleteDocument _ _ => true
  | _ => false
  end.

(** What a method other than [testConnection] does with the value that
    [request] resolved to. *)
Definition post_of (c : ClientCall) (v : JsValue) : Result JsValue :=
  if is_getTagsFromItem c then get_prop v "data"
  else if returns_void c then inr JUndefined
  else inr v.

(** The result [testConnection] builds from the outcome of its [request]. *)
Definition connection_report (r : Result JsValue) : JsValue :=
  match (user <~ r ;;
         name <~ get_prop user "name" ;;
         name <~ ToString name ;;
         inr (JObj [("connected", JBool true);
                    ("message", JStr ("Connected as " ++ name));
                    ("user", user)])) with
  | inr report => report
  | inl error =>
      JObj [("connected", JBool false);
            ("message", JStr (message_or error "Connection failed"))]
  end.

(** A success envelope: one text block and no error flag. *)
Definition success_envelope (r : ToolResponse) : Prop :=
  isError r = None /\ exists t, content r = [ {| type := "text"; text := t |} ].

(** A failure envelope: one text block carrying a string, and
    [isError: true]. *)
Definition failure_envelope (r : ToolResponse) : Prop :=
  isError r = Some true
  /\ exists t, content r = [ {| type := "text"; text := Some t |} ].

(** Every result a computation can resolve to satisfies [P]. *)
Definition yields_only (P : ToolResponse -> Prop) (m : Exec ToolResponse) : Prop :=
  forall remote r, outcome m remote = inr r -> P r.

(** The schema of [miro_share_board] makes [emails] a string. *)
Definition emails_valid (t : Tool) (args : JsValue) : Prop :=
  tool_name t = "miro_share_board" -> exists s, prop args "emails" = JStr s.

(** The update tools whose schema has [x] and [y]: optional in the first
    eight, required in [miro_update_item_position]. *)
Definition coordinate_update_tools (client : MiroClient) : list Tool :=
  [ miro_update_sticky_note client; miro_update_shape client;
    miro_update_text client; miro_update_card client;
    miro_update_frame client; miro_update_image client;
    miro_update_embed client; miro_update_app_card client;
    miro_update_item_position client ].

(** The schema of [miro_update_item_position] makes both coordinates
    numbers. *)
Definition coordinates_valid (t : Tool) (args : JsValue) : Prop :=
  tool_name t = "miro_update_item_position" ->
  (defined (prop args "x") && defined (prop args "y"))%bool = true.

(** The argument object with neither coordinate supplied. *)
Definition without_coordinates (args : JsValue) : JsValue :=
  set_prop (set_prop args "x" JUndefined) "y" JUndefined.

(** How often the character [c] occurs in [s]. *)
Fixpoint count_char (c : ascii) (s : string) : nat :=
  match s with
  | EmptyString => 0
  | String x r => (if Ascii.eqb x c then 1 else 0) + count_char c r
  end.

(** The number of parameters with a value. *)
Definition defined_count (params : list (string * JsValue)) : nat :=
  length (filter (fun kv => defined (snd kv)) params).

(** The tools that change an existing entity through a [PATCH]. *)
Definition update_tools (client : MiroClient) : list Tool :=
  [ miro_update_board client; miro_update_sticky_note client;
    miro_update_shape client; miro_update_text client;
    miro_update_card client; miro_update_frame client;
    miro_update_connector client; miro_update_image client;
    miro_update_tag client; miro_update_embed client;
    miro_update_app_card client ].

(** The arguments the schemas of the update tools mark [optional()]. *)
Definition optional_arguments : list string :=
  [ "name"; "description"; "content"; "title"; "x"; "y"; "width"; "height";
    "fillColor"; "fontSize"; "color"; "dueDate"; "assigneeId"; "shape";
    "startStrokeCap"; "endStrokeCap"; "strokeColor"; "caption"; "status" ].

(** The update tools that write one text into [data], with the argument
    holding it. *)
Definition text_field_tools (client : MiroClient) : list (Tool * string) :=
  [ (miro_update_sticky_note client, "content");
    (miro_update_shape client, "content");
    (miro_update_text client, "content");
    (miro_update_frame client, "title");
    (miro_update_image client, "title") ].

(** [v === null || v === undefined]. *)
Definition nullish (v : JsValue) : bool :=
  match v with
  | JUndefined | JNull => true
  | _ => false
  end.


(** Line feed and carriage return end a line. *)
Definition is_line_break (c : ascii) : bool :=
  let n := N_of_ascii c in (N.eqb n 10 || N.eqb n 13)%bool.

(** Whether a string stays on one line. *)
Fixpoint one_line (s : string) : bool :=
  match s with
  | EmptyString => true
  | String c r => (negb (is_line_break c) && one_line r)%bool
  end.

(** The lines of a text. *)
Fixpoint split_lines (s : string) : list string :=
  match s with
  | EmptyString => [""]
  | String c r =>
      if is_line_break c then "" :: split_lines r
      else match split_lines r with
           | line :: rest => String c line :: rest
           | [] => [String c ""]
           end
  end.

(** The string a value converts to, when there is one, stays on one line. *)
Definition converts_to_one_line (v : JsValue) : Prop :=
  forall s, ToString v = inr s -> one_line s = true.




(** The columns the board, member and tag tables read from an entry. *)
Definition table_columns (entityType : string) : list string :=
  if String.eqb entityType "boards" then ["id"; "name"; "description"; "viewLink"]
  else if String.eqb entityType "members" then ["id"; "name"; "email"; "role"]
  else if String.eqb entityType "tags" then ["id"; "title"; "fillColor"]
  else [].


(* ====================================================================== *)
(** * Lemmas on the client's [request] *)
(* ====================================================================== *)

Create HintDb client.

#[local] Hint Unfold
  invoke listBoards getBoard createBoard updateBoard deleteBoard copyBoard
  listBoardMembers getBoardMember shareBoard updateBoardMember
  removeBoardMember listItems getItem updateItemPosition deleteItem
  get_in create_in update_in delete_in
  listStickyNotes getStickyNote createStickyNote updateStickyNote
  deleteStickyNote listShapes getShape createShape updateShape deleteShape
  listTexts getText createText updateText deleteText
  listCards getCard createCard updateCard deleteCard
  getImage createImageFromUrl updateImage deleteImage
  listFrames getFrame createFrame updateFrame deleteFrame getFrameItems
  listConnectors getConnector createConnector updateConnector deleteConnector
  getEmbed createEmbed updateEmbed deleteEmbed
  getAppCard createAppCard updateAppCard deleteAppCard
  listTags getTag createTag updateTag deleteTag attachTagToItem
  removeTagFromItem getItemsByTag getTagsFromItem
  getDocument createDocumentFromUrl deleteDocument : client.

Create HintDb tools.

#[local] Hint Unfold
  miro_list_boards miro_get_board miro_create_board miro_update_board
  miro_delete_board miro_copy_board miro_list_board_members
  miro_get_board_member miro_share_board miro_update_board_member
  miro_remove_board_member miro_list_items miro_get_item
  miro_update_item_position miro_delete_item miro_create_sticky_note
  miro_get_sticky_note miro_update_sticky_note miro_delete_sticky_note
  miro_create_shape miro_get_shape miro_update_shape miro_delete_shape
  miro_create_text miro_get_text miro_update_text miro_delete_text
  miro_create_card miro_get_card miro_update_card miro_delete_card
  miro_create_frame miro_get_frame miro_update_frame miro_delete_frame
  miro_get_frame_items miro_list_connectors miro_create_connector
  miro_get_connector miro_update_connector miro_delete_connector
  miro_create_image miro_get_image miro_update_image miro_delete_image
  miro_list_tags miro_create_tag miro_get_tag miro_update_tag miro_delete_tag
  miro_attach_tag miro_remove_tag miro_get_items_by_tag miro_get_item_tags
  miro_create_embed miro_get_embed miro_update_embed miro_delete_embed
  miro_create_app_card miro_get_app_card miro_update_app_card
  miro_delete_app_card miro_create_document miro_get_document
  miro_delete_document miro_test_connection : tools.

Ltac unfold_registry :=
  unfold createStatelessServer, createMiroClient, registerBoardTools, registerMemberTools,
    registerItemTools, registerStickyNoteTools, registerShapeTools,
    registerTextTools, registerCardTools, registerFrameTools,
    registerConnectorTools, registerImageTools, registerTagTools,
    registerEmbedTools, registerAppCardTools, registerDocumentTools;
  cbn [app In].

Lemma append_assoc (a b c : string) : (a ++ b) ++ c = a ++ (b ++ c).
Proof.
  induction a as [| ch a IH]; cbn [String.append]; [reflexivity |].
  rewrite IH. reflexivity.
Qed.

Lemma eqb_empty_false (s : string) : s <> "" -> String.eqb s "" = false.
Proof.
  intros H. destruct (String.eqb_spec s ""); [contradiction | reflexivity].
Qed.

(** Without a token [request] throws before it reaches [fetch]. *)
Lemma request_no_token credentials endpoint options remote :
  accessToken credentials = "" ->
  request credentials endpoint options remote = ([], inl no_token_error).
Proof.
  intros H. unfold request, bind, lift, getAuthHeaders. rewrite H. reflexivity.
Qed.

(** With a token [request] issues exactly one request, whatever the answer. *)
(** With a token [request] issues exactly one request and turns the answer
    into its result. *)
Lemma request_run credentials endpoint options remote :
  accessToken credentials <> "" ->
  request credentials endpoint options remote
  = ([outgoing credentials endpoint options],
     and_then (remote (outgoing credentials endpoint options)) handle_response).
Proof.
  intros H. unfold request, bind, lift, getAuthHeaders, js_fetch.
  rewrite (eqb_empty_false _ H). fold (outgoing credentials endpoint options).
  destruct (remote (outgoing credentials endpoint options)) as [e | response];
    reflexivity.
Qed.

(** Every method other than [testConnection] issues one request and passes
    the outcome of [request] on, through [post_of]. *)
Lemma invoke_run credentials c :
  accessToken credentials <> "" ->
  is_testConnection c = false ->
  exists req,
    forall remote,
      invoke credentials c remote
      = ([req], and_then (and_then (remote req) handle_response) (post_of c)).
Proof.
  intros Htoken Hc.
  destruct c; try discriminate Hc; autounfold with client;
    eexists; intros remote; unfold bind;
    rewrite (request_run _ _ _ _ Htoken);
    lazymatch goal with
    | |- ?lhs = _ =>
        match lhs with
        | context [remote ?r] => instantiate (1 := r)
        end
    end;
    (destruct (remote _) as [e | response];
     [reflexivity | cbn [and_then]; destruct (handle_response response); reflexivity]).
Qed.

(** [testConnection] issues one request and never throws. *)
Lemma testConnection_run credentials remote :
  accessToken credentials <> "" ->
  testConnection credentials remote
  = ([outgoing credentials "/users/me" no_options],
     inr (connection_report
            (and_then (remote (outgoing credentials "/users/me" no_options))
                      handle_response))).
Proof.
  intros Htoken. unfold testConnection, try_catch, bind.
  rewrite (request_run _ _ _ _ Htoken). unfold connection_report.
  destruct (remote _) as [e | response]; [reflexivity |].
  cbn [and_then]. destruct (handle_response response) as [e | user]; [reflexivity |].
  unfold lift. cbn [and_then].
  destruct (get_prop user "name") as [e | name]; [reflexivity |].
  cbn [and_then]. destruct (ToString name); reflexivity.
Qed.

(** The message [request] gives a Generic error is the one the spec's words
    describe. *)
Lemma error_message_described response :
  js_String (error_message response) = described_message response.
Proof.
  unfold error_message, described_message.
  destruct (resp_json response) as [msg | errorJson]; [reflexivity |].
  destruct errorJson; try reflexivity.
  cbn [get_prop prop]. unfold js_or.
  destruct (lookup "message" fields) as [m |];
    destruct (lookup "error" fields) as [e |]; cbn [truthy];
    repeat match goal with
           | |- context [truthy ?v] => destruct (truthy v) eqn:?
           end;
    try reflexivity; try congruence; try (cbn in *; discriminate).
Qed.

(* ====================================================================== *)
(** * The front door (index.ts) *)
(* ====================================================================== *)

(** C1.  A POST to [/mcp] whose [X-Miro-Access-Token] header is absent or
    empty is answered with the 401 JSON rejection, whose body lists the
    required headers.  This holds for every MCP handler and every remote:
    the handler, through which alone the tools of the server run, is not
    consulted, and no request is issued. *)
Theorem front_door_rejects_missing_token :
  forall (createMcpHandler : McpServer -> Request -> Exec Response)
         (request : Request) (remote : Remote),
    url_pathname request = "/mcp" ->
    method request = "POST" ->
    (headers_get (headers request) "X-Miro-Access-Token" = None
     \/ headers_get (headers request) "X-Miro-Access-Token" = Some "") ->
    fetch createMcpHandler request remote = ([], inr unauthorized)
    /\ status unauthorized = 401%Z
    /\ response_body unauthorized =
         JSON_stringify
           (JObj [("error", JStr "Unauthorized");
                  ("message",
                   JStr "Missing credentials. Provide X-Miro-Access-Token header.");
                  ("required_headers", JArr [JStr "X-Miro-Access-Token"])]).
Proof.
  intros h request remote Hpath Hmethod Htoken.
  split; [| split; reflexivity].
  unfold fetch. rewrite Hpath, Hmethod. cbn [String.eqb Ascii.eqb Bool.eqb andb].
  unfold parseTenantCredentials, validateCredentials.
  destruct Htoken as [-> | ->]; reflexivity.
Qed.

Lemma front_door_rejects_missing_token_witness :
  fetch (fun _ _ => ret unauthorized)
        {| url_pathname := "/mcp"; method := "POST"; headers := [] |}
        (fun _ => inl no_token_error)
  = ([], inr unauthorized).
Proof.
  apply (front_door_rejects_missing_token
           (fun _ _ => ret unauthorized)
           {| url_pathname := "/mcp"; method := "POST"; headers := [] |}
           (fun _ => inl no_token_error)).
  - reflexivity.
  - reflexivity.
  - left. reflexivity.
Defined.

(* ====================================================================== *)
(** * The client without a token (client.ts) *)
(* ====================================================================== *)

(** C2 as stated fails: with an empty token [testConnection] does not fail,
    it returns a result. *)
Lemma testConnection_without_token_returns :
  ~ (forall (c : ClientCall) (remote : Remote),
        exists m,
          outcome (invoke {| accessToken := "" |} c) remote
          = inl (ThrownApi (AuthenticationError m))).
Proof.
  intros H.
  destruct (H call_testConnection (fun _ => inl no_token_error)) as [m Hm].
  discriminate Hm.
Qed.

(** C2, amended.  With an empty token no client method issues a request.
    Every method other than [testConnection] fails with the Authentication
    error; [testConnection] catches it and returns its
    [{ connected: false, message }] result. *)
Theorem no_token_no_request :
  forall (credentials : TenantCredentials) (c : ClientCall) (remote : Remote),
    accessToken credentials = "" ->
    issued (invoke credentials c) remote = []
    /\ outcome (invoke credentials c) remote =
         if is_testConnection c
         then inr (JObj [("connected", JBool false);
                         ("message",
                          JStr "No access token provided. Include X-Miro-Access-Token header.")])
         else inl no_token_error.
Proof.
  intros credentials c remote H.
  unfold issued, outcome.
  destruct c; autounfold with client;
    unfold testConnection, try_catch, bind;
    rewrite (request_no_token _ _ _ _ H); split; reflexivity.
Qed.

Lemma no_token_no_request_witness :
  issued (invoke {| accessToken := "" |} (call_getBoard (JStr "b1")))
         (fun _ => inl no_token_error) = []
  /\ outcome (invoke {| accessToken := "" |} (call_getBoard (JStr "b1")))
             (fun _ => inl no_token_error)
     = inl no_token_error.
Proof.
  apply (no_token_no_request {| accessToken := "" |} (call_getBoard (JStr "b1"))
                             (fun _ => inl no_token_error)).
  reflexivity.
Defined.

(* ====================================================================== *)
(** * Rate limiting (client.ts) *)
(* ====================================================================== *)

(** C3 as stated fails twice over.  Under HTTP 429 [testConnection] does not
    fail, it returns a [connected: false] result; and for a [Retry-After]
    value that does not start with an integer (an HTTP date, say) the
    failure of any other method carries [NaN], not 60. *)
Lemma rate_limit_claim_fails :
  outcome (invoke {| accessToken := "tok" |} call_testConnection)
          (fun _ => inr {| resp_status := 429;
                           resp_headers := [("Retry-After", "30")];
                           resp_json := inl "Unexpected end of JSON input" |})
  = inr (JObj [("connected", JBool false);
               ("message", JStr "Rate limit exceeded")])
  /\ outcome (invoke {| accessToken := "tok" |} (call_getBoard (JStr "b1")))
             (fun _ => inr {| resp_status := 429;
                              resp_headers :=
                                [("Retry-After", "Wed, 21 Oct 2015 07:28:00 GMT")];
                              resp_json := inl "Unexpected end of JSON input" |})
     = inl (ThrownApi (RateLimitError "Rate limit exceeded" NaN)).
Proof.
  split; vm_compute; reflexivity.
Qed.

(** C3, amended.  Let the remote answer HTTP 429.  Every client method
    other than [testConnection] fails with a RateLimited error whose
    retry-after value is 60 when the [Retry-After] header is absent or
    empty, and the integer [parseInt] reads from the header when it reads
    one; [testConnection] catches the failure and returns its
    [connected: false] result.  (A header from which no integer can be read
    is left out of this statement.) *)
Theorem rate_limit_retry_after :
  forall (credentials : TenantCredentials) (c : ClientCall) (remote : Remote)
         (response : RemoteResponse) (n : Z),
    accessToken credentials <> "" ->
    (forall req, remote req = inr response) ->
    resp_status response = 429%Z ->
    ((headers_get (resp_headers response) "Retry-After" = None /\ n = 60%Z)
     \/ (headers_get (resp_headers response) "Retry-After" = Some "" /\ n = 60%Z)
     \/ (exists v, headers_get (resp_headers response) "Retry-After" = Some v
                   /\ parseInt_10 v = Num n)) ->
    outcome (invoke credentials c) remote =
      if is_testConnection c
      then inr (JObj [("connected", JBool false);
                      ("message", JStr "Rate limit exceeded")])
      else inl (ThrownApi (RateLimitError "Rate limit exceeded" (Num n))).
Proof.
  intros credentials c remote response n Htoken Hremote Hstatus Hheader.
  assert (Hresp : handle_response response
                  = inl (ThrownApi (RateLimitError "Rate limit exceeded" (Num n)))).
  { unfold handle_response. rewrite Hstatus. cbn [Z.eqb Pos.eqb].
    destruct Hheader as [[-> ->] | [[-> ->] | [v [-> Hv]]]]; try reflexivity.
    destruct (String.eqb_spec v "") as [-> | _].
    - discriminate Hv.
    - rewrite Hv. reflexivity. }
  unfold outcome.
  destruct (is_testConnection c) eqn:Hc.
  - destruct c; try discriminate Hc. cbn [invoke].
    rewrite (testConnection_run _ _ Htoken), Hremote. cbn [and_then snd].
    rewrite Hresp. reflexivity.
  - destruct (invoke_run credentials c Htoken Hc) as [req Hrun].
    rewrite Hrun, Hremote. cbn [and_then snd]. rewrite Hresp. reflexivity.
Qed.

Lemma rate_limit_retry_after_witness :
  outcome (invoke {| accessToken := "tok" |}
                  (call_getStickyNote (JStr "b1") (JStr "n1")))
          (fun _ => inr {| resp_status := 429;
                           resp_headers := [("Retry-After", "30")];
                           resp_json := inl "Unexpected end of JSON input" |})
  = inl (ThrownApi (RateLimitError "Rate limit exceeded" (Num 30))).
Proof.
  apply (rate_limit_retry_after
           {| accessToken := "tok" |}
           (call_getStickyNote (JStr "b1") (JStr "n1"))
           (fun _ => inr {| resp_status := 429;
                            resp_headers := [("Retry-After", "30")];
                            resp_json := inl "Unexpected end of JSON input" |})
           {| resp_status := 429;
              resp_headers := [("Retry-After", "30")];
              resp_json := inl "Unexpected end of JSON input" |}
           30%Z).
  - discriminate.
  - reflexivity.
  - reflexivity.
  - right. right. exists "30". split; reflexivity.
Defined.

(* ====================================================================== *)
(** * Other failures and 204 No Content (client.ts) *)
(* ====================================================================== *)

(** C6 as stated fails for two methods.  Under HTTP 500 [testConnection]
    does not fail with a Generic error, it returns a result; and under HTTP
    204 [getTagsFromItem] reads [data] off the absent body and throws. *)
Lemma generic_error_claim_fails :
  outcome (invoke {| accessToken := "tok" |} call_testConnection)
          (fun _ => inr {| resp_status := 500;
                           resp_headers := [];
                           resp_json := inr (JObj [("message", JStr "boom")]) |})
  = inr (JObj [("connected", JBool false); ("message", JStr "boom")])
  /\ outcome (invoke {| accessToken := "tok" |}
                     (call_getTagsFromItem (JStr "b1") (JStr "i1")))
             (fun _ => inr {| resp_status := 204;
                              resp_headers := [];
                              resp_json := inl "Unexpected end of JSON input" |})
     = inl (ThrownError "TypeError"
              "Cannot read properties of undefined (reading 'data')").
Proof.
  split; vm_compute; reflexivity.
Qed.

(** C6, amended.  Let the remote answer with status [st].
    - If [st] is outside 200..299 and is none of 429, 401, 403, every client
      method other than [testConnection] fails with a Generic error carrying
      [st] and the described message: the [message] field of the JSON error
      body if it is truthy, else its [error] field if that is truthy, else
      ["Miro API error: " ++ st]; [testConnection] returns a
      [connected: false] result with that message.
    - If [st] is 204, every method other than [testConnection] and
      [getTagsFromItem] succeeds with [undefined], after one request. *)
Theorem generic_error_and_no_content :
  forall (credentials : TenantCredentials) (c : ClientCall) (remote : Remote)
         (response : RemoteResponse),
    accessToken credentials <> "" ->
    (forall req, remote req = inr response) ->
    ((resp_status response < 200 \/ 299 < resp_status response)%Z ->
     resp_status response <> 429%Z ->
     resp_status response <> 401%Z ->
     resp_status response <> 403%Z ->
     outcome (invoke credentials c) remote =
       if is_testConnection c
       then inr (JObj [("connected", JBool false);
                       ("message", JStr (described_message response))])
       else inl (ThrownApi (MiroApiError (described_message response)
                                         (resp_status response))))
    /\ (resp_status response = 204%Z ->
        is_testConnection c = false ->
        is_getTagsFromItem c = false ->
        length (issued (invoke credentials c) remote) = 1
        /\ outcome (invoke credentials c) remote = inr JUndefined).
Proof.
  intros credentials c remote response Htoken Hremote. split.
  - intros Hrange H429 H401 H403.
    assert (Hresp : handle_response response
                    = inl (ThrownApi (MiroApiError (described_message response)
                                                   (resp_status response)))).
    { unfold handle_response, resp_ok.
      rewrite (proj2 (Z.eqb_neq _ _) H429), (proj2 (Z.eqb_neq _ _) H401),
        (proj2 (Z.eqb_neq _ _) H403).
      cbn [orb].
      replace (Z.leb 200 (resp_status response) && Z.leb (resp_status response) 299)%bool
        with false by (symmetry; apply andb_false_iff; lia).
      cbn [negb]. rewrite error_message_described. reflexivity. }
    unfold outcome.
    destruct (is_testConnection c) eqn:Hc.
    + destruct c; try discriminate Hc. cbn [invoke].
      rewrite (testConnection_run _ _ Htoken), Hremote. cbn [and_then snd].
      rewrite Hresp. reflexivity.
    + destruct (invoke_run credentials c Htoken Hc) as [req Hrun].
      rewrite Hrun, Hremote. cbn [and_then snd]. rewrite Hresp. reflexivity.
  - intros H204 Hc Htags.
    assert (Hresp : handle_response response = inr JUndefined).
    { unfold handle_response, resp_ok. rewrite H204. reflexivity. }
    destruct (invoke_run credentials c Htoken Hc) as [req Hrun].
    unfold issued, outcome. rewrite Hrun, Hremote. cbn [and_then fst snd].
    rewrite Hresp. cbn [and_then]. unfold post_of. rewrite Htags.
    split; [reflexivity |]. destruct (returns_void c); reflexivity.
Qed.

Lemma generic_error_and_no_content_witness :
  outcome (invoke {| accessToken := "tok" |} (call_getBoard (JStr "b1")))
          (fun _ => inr {| resp_status := 404;
                           resp_headers := [];
                           resp_json := inr (JObj [("error", JStr "not found")]) |})
  = inl (ThrownApi (MiroApiError "not found" 404)).
Proof.
  destruct (generic_error_and_no_content
              {| accessToken := "tok" |} (call_getBoard (JStr "b1"))
              (fun _ => inr {| resp_status := 404;
                               resp_headers := [];
                               resp_json := inr (JObj [("error", JStr "not found")]) |})
              {| resp_status := 404;
                 resp_headers := [];
                 resp_json := inr (JObj [("error", JStr "not found")]) |})
    as [Hgeneric _].
  - discriminate.
  - reflexivity.
  - apply Hgeneric.
    + right. reflexivity.
    + discriminate.
    + discriminate.
    + discriminate.
Defined.

(* ====================================================================== *)
(** * The envelope of a tool invocation (tools/*.ts, index.ts) *)
(* ====================================================================== *)

Lemma yields_only_bind {A : Type} (P : ToolResponse -> Prop)
      (m : Exec A) (k : A -> Exec ToolResponse) :
  (forall a, yields_only P (k a)) -> yields_only P (bind m k).
Proof.
  intros Hk remote r. unfold outcome, bind.
  destruct (m remote) as [issued1 [e | a]]; [discriminate |].
  specialize (Hk a remote r). unfold outcome in Hk.
  destruct (k a remote) as [issued2 res]. exact Hk.
Qed.

Lemma yields_only_ret (P : ToolResponse -> Prop) (r : ToolResponse) :
  P r -> yields_only P (ret r).
Proof.
  intros H remote r' Hr. injection Hr as <-. exact H.
Qed.

Lemma yields_only_lift (P : ToolResponse -> Prop) (x : Result ToolResponse) :
  (forall r, x = inr r -> P r) -> yields_only P (lift x).
Proof.
  intros H remote r Hr. apply H. exact Hr.
Qed.

Lemma text_response_success t : success_envelope (text_response t).
Proof.
  split; [reflexivity | exists t; reflexivity].
Qed.

Lemma formatResponse_success data format entityType r :
  formatResponse data format entityType = inr r -> success_envelope r.
Proof.
  unfold formatResponse. intros H.
  assert (Hjson : success_envelope
                    {| content := [ {| type := "text"; text := JSON_stringify_2 data |} ];
                       isError := None |}).
  { split; [reflexivity | eexists; reflexivity]. }
  destruct format as [ | | b | n | f | items | fields];
    try (injection H as <-; exact Hjson).
  destruct (String.eqb_spec f "markdown") as [-> | Hne].
  - destruct (formatAsMarkdown data entityType) as [e | t]; [discriminate |].
    injection H as <-. split; [reflexivity | eexists; reflexivity].
  - assert (Hr : inr {| content := [ {| type := "text"; text := JSON_stringify_2 data |} ];
                        isError := None |} = @inr Thrown _ r).
    { rewrite <- H. clear H.
      repeat (destruct f as [| [[] [] [] [] [] [] [] []] f];
              try reflexivity). contradiction Hne. reflexivity. }
    injection Hr as <-. exact Hjson.
Qed.

Lemma stringify_object_some gap indent fields :
  exists t, stringify gap indent (JObj fields) = Some t.
Proof.
  cbn [stringify].
  match goal with
  | |- context [match ?p with [] => _ | _ :: _ => _ end] => destruct p
  end.
  - eexists; reflexivity.
  - destruct (String.eqb gap ""); eexists; reflexivity.
Qed.

Lemma formatError_failure error : failure_envelope (formatError error).
Proof.
  split; [reflexivity |]. unfold formatError, JSON_stringify_2.
  destruct (stringify_object_some "  " ""
              [("error", JStr match error with
                              | ThrownApi e =>
                                  "Error: " ++ api_message e
                                    ++ (if retryable e then " (retryable)" else "")
                              | ThrownError _ m => "Error: " ++ m
                              | ThrownValue v => "Error: " ++ js_String v
                              end);
               ("details", formatErrorForLogging error)]) as [t Ht].
  rewrite Ht. exists t. reflexivity.
Qed.

(** The [try] block of every tool resolves to success envelopes only, and
    its [catch] block builds failure envelopes only. *)
Lemma tool_blocks credentials t args :
  In t (createStatelessServer credentials) ->
  yields_only success_envelope (tool_try t args)
  /\ (forall error, failure_envelope (tool_catch t error)).
Proof.
  unfold_registry. intros H.
  repeat (destruct H as [<- | H]); try contradiction;
    (split;
     [ cbn [tool_try tool miro_test_connection];
       repeat (apply yields_only_bind; intros);
       first [ apply yields_only_ret; apply text_response_success
             | apply yields_only_lift; intros r Hr;
               exact (formatResponse_success _ _ _ _ Hr) ]
     | intros error; first [ exact (formatError_failure error)
                           | split; [reflexivity | eexists; reflexivity] ] ]).
Qed.

(** [testConnection] never throws. *)
Lemma testConnection_returns credentials remote :
  exists report, outcome (testConnection credentials) remote = inr report.
Proof.
  unfold outcome.
  destruct (String.eqb_spec (accessToken credentials) "") as [Hempty | Htoken].
  - unfold testConnection, try_catch, bind.
    rewrite (request_no_token _ _ _ _ Hempty). eexists; reflexivity.
  - rewrite (testConnection_run _ _ Htoken). eexists; reflexivity.
Qed.

(** The [try] block of [miro_test_connection] never throws. *)
Lemma test_connection_try_returns credentials t args remote :
  In t (createStatelessServer credentials) ->
  tool_name t = "miro_test_connection" ->
  exists r', outcome (tool_try t args) remote = inr r'.
Proof.
  unfold_registry. intros Hin Hname.
  repeat (destruct Hin as [<- | Hin]); try contradiction;
    try discriminate Hname.
  cbn [tool_try miro_test_connection]. unfold outcome, bind.
  destruct (testConnection_returns credentials remote) as [report Hreport].
  unfold outcome in Hreport.
  destruct (testConnection credentials remote) as [issued1 res]. cbn in Hreport.
  subst res. eexists; reflexivity.
Qed.

(** An invocation of [miro_test_connection] does not fail: its envelope has
    no [isError]. *)
Lemma test_connection_never_fails credentials t args remote :
  In t (createStatelessServer credentials) ->
  tool_name t = "miro_test_connection" ->
  exists r, outcome (call t args) remote = inr r /\ isError r = None.
Proof.
  intros Hin Hname.
  destruct (test_connection_try_returns credentials t args remote Hin Hname)
    as [r Hr].
  destruct (tool_blocks credentials t args Hin) as [Htry _].
  exists r. split; [| exact (proj1 (Htry remote r Hr))].
  unfold outcome, call, try_catch. unfold outcome in Hr.
  destruct (tool_try t args remote) as [issued1 res]. cbn [snd] in Hr. subst res.
  reflexivity.
Qed.









(* ====================================================================== *)
(** * Rate-limited tool invocations (formatters.ts, client.ts) *)
(* ====================================================================== *)

(** When the remote's answer makes [request] throw [error], every tool other
    than [miro_test_connection] issues its one request and returns
    [formatError(error)]. *)
Lemma tool_failure credentials t args remote response error :
  In t (createStatelessServer credentials) ->
  tool_name t <> "miro_test_connection" ->
  emails_valid t args ->
  accessToken credentials <> "" ->
  (forall req, remote req = inr response) ->
  handle_response response = inl error ->
  exists req, call t args remote = ([req], inr (formatError error)).
Proof.
  unfold_registry. intros Hin Hname Hemails Htoken Hremote Hresp.
  repeat (destruct Hin as [<- | Hin]); try contradiction;
    try (exfalso; apply Hname; reflexivity);
    try (destruct (Hemails eq_refl) as [emails Hemail]);
    unfold call, try_catch; autounfold with tools;
    cbn [tool tool_try tool_catch];
    try (rewrite Hemail; cbn [email_list]);
    autounfold with client; unfold bind, lift;
    rewrite (request_run _ _ _ _ Htoken), Hremote; cbn [and_then];
    rewrite Hresp; eexists; reflexivity.
Qed.

(** C4.  Let the remote answer HTTP 429 with [Retry-After: 30], and let a
    client holding a token invoke any registered tool.  The invocation fails
    with the RateLimited error for every tool but [miro_test_connection]
    (which does not fail: it reports [connected: false] in an envelope
    without [isError]).  The failure envelope's text is the serialisation of
    [{ error, details }] where the error message ends in the marker
    ["(retryable)"] and the details carry a retry-after value of 30; the
    text contains both. *)
Theorem rate_limited_invocation_is_retryable :
  forall (credentials : TenantCredentials) (t : Tool) (args : JsValue)
         (remote : Remote) (response : RemoteResponse),
    In t (createStatelessServer credentials) ->
    emails_valid t args ->
    accessToken credentials <> "" ->
    (forall req, remote req = inr response) ->
    resp_status response = 429%Z ->
    headers_get (resp_headers response) "Retry-After" = Some "30" ->
    (tool_name t = "miro_test_connection"
     /\ exists r, outcome (call t args) remote = inr r /\ isError r = None)
    \/ (tool_name t <> "miro_test_connection"
        /\ exists message_text,
             outcome (call t args) remote
             = inr {| content := [ {| type := "text"; text := Some message_text |} ];
                      isError := Some true |}
             /\ JSON_stringify_2
                  (JObj [("error", JStr "Error: Rate limit exceeded (retryable)");
                         ("details", JObj [("message", JStr "Rate limit exceeded");
                                           ("retryAfterSeconds", JInt 30)])])
                = Some message_text
             /\ contains "(retryable)" message_text = true
             /\ contains (quote "retryAfterSeconds" ++ ": 30") message_text = true).
Proof.
  intros credentials t args remote response Hin Hemails Htoken Hremote
         Hstatus Hheader.
  destruct (String.eqb_spec (tool_name t) "miro_test_connection") as [Hname | Hname].
  - left. split; [exact Hname |].
    exact (test_connection_never_fails credentials t args remote Hin Hname).
  - right. split; [exact Hname |].
    assert (Hresp : handle_response response
                    = inl (ThrownApi (RateLimitError "Rate limit exceeded" (Num 30)))).
    { unfold handle_response. rewrite Hstatus, Hheader. reflexivity. }
    destruct (tool_failure credentials t args remote response _
                           Hin Hname Hemails Htoken Hremote Hresp) as [req Hcall].
    unfold outcome. rewrite Hcall. cbn [snd].
    eexists. split; [vm_compute; reflexivity |].
    split; [vm_compute; reflexivity |].
    split; vm_compute; reflexivity.
Qed.

Lemma rate_limited_invocation_is_retryable_witness :
  (tool_name (miro_get_sticky_note {| accessToken := "tok" |}) = "miro_test_connection"
   /\ exists r,
        outcome (call (miro_get_sticky_note {| accessToken := "tok" |})
                      (JObj [("boardId", JStr "b1"); ("itemId", JStr "n1")]))
                (fun _ => inr {| resp_status := 429;
                                 resp_headers := [("Retry-After", "30")];
                                 resp_json := inl "Unexpected end of JSON input" |})
        = inr r /\ isError r = None)
  \/ (tool_name (miro_get_sticky_note {| accessToken := "tok" |})
      <> "miro_test_connection"
      /\ exists message_text,
           outcome (call (miro_get_sticky_note {| accessToken := "tok" |})
                         (JObj [("boardId", JStr "b1"); ("itemId", JStr "n1")]))
                   (fun _ => inr {| resp_status := 429;
                                    resp_headers := [("Retry-After", "30")];
                                    resp_json := inl "Unexpected end of JSON input" |})
           = inr {| content := [ {| type := "text"; text := Some message_text |} ];
                    isError := Some true |}
           /\ JSON_stringify_2
                (JObj [("error", JStr "Error: Rate limit exceeded (retryable)");
                       ("details", JObj [("message", JStr "Rate limit exceeded");
                                         ("retryAfterSeconds", JInt 30)])])
              = Some message_text
           /\ contains "(retryable)" message_text = true
           /\ contains (quote "retryAfterSeconds" ++ ": 30") message_text = true).
Proof.
  apply (rate_limited_invocation_is_retryable
           {| accessToken := "tok" |}
           (miro_get_sticky_note {| accessToken := "tok" |})
           (JObj [("boardId", JStr "b1"); ("itemId", JStr "n1")])
           (fun _ => inr {| resp_status := 429;
                            resp_headers := [("Retry-After", "30")];
                            resp_json := inl "Unexpected end of JSON input" |})
           {| resp_status := 429;
              resp_headers := [("Retry-After", "30")];
              resp_json := inl "Unexpected end of JSON input" |}).
  - unfold_registry. repeat (first [left; reflexivity | right]).
  - intros Hname. discriminate Hname.
  - discriminate.
  - reflexivity.
  - reflexivity.
  - reflexivity.
Defined.

(* ====================================================================== *)
(** * Creating a sticky note, end to end (tools/sticky-notes.ts) *)
(* ====================================================================== *)

(** C7.  With a client holding a token, invoking [miro_create_sticky_note]
    with [{boardId: "b1", content: "hello", x: 10, y: 20}] issues exactly
    one request: a POST to the sticky-note collection of board [b1] whose
    body is the serialisation of
    [{data: {content: "hello"}, position: {x: 10, y: 20}}].  When the remote
    answers it with HTTP 201 and a JSON entity, the result is a success
    envelope (no [isError]) whose text serialises
    [{success: true, message, stickyNote: entity}]. *)
Theorem create_sticky_note_end_to_end :
  forall (credentials : TenantCredentials) (remote : Remote)
         (response_headers : Headers) (entity : JsValue),
    accessToken credentials <> "" ->
    remote {| req_url := "https://api.miro.com/v2/boards/b1/sticky_notes";
              req_method := "POST";
              req_headers :=
                [("Authorization", "Bearer " ++ accessToken credentials);
                 ("Content-Type", "application/json")];
              req_body :=
                JSON_stringify
                  (JObj [("data", JObj [("content", JStr "hello")]);
                         ("position", JObj [("x", JInt 10); ("y", JInt 20)])]) |}
    = inr {| resp_status := 201;
             resp_headers := response_headers;
             resp_json := inr entity |} ->
    find_tool (createStatelessServer credentials) "miro_create_sticky_note"
    = Some (miro_create_sticky_note credentials)
    /\ call (miro_create_sticky_note credentials)
            (JObj [("boardId", JStr "b1"); ("content", JStr "hello");
                   ("x", JInt 10); ("y", JInt 20)])
            remote
       = ([ {| req_url := "https://api.miro.com/v2/boards/b1/sticky_notes";
               req_method := "POST";
               req_headers :=
                 [("Authorization", "Bearer " ++ accessToken credentials);
                  ("Content-Type", "application/json")];
               req_body :=
                 JSON_stringify
                   (JObj [("data", JObj [("content", JStr "hello")]);
                          ("position", JObj [("x", JInt 10); ("y", JInt 20)])]) |} ],
          inr {| content :=
                   [ {| type := "text";
                        text := JSON_stringify_2
                                  (JObj [("success", JBool true);
                                         ("message", JStr "Sticky note created");
                                         ("stickyNote", entity)]) |} ];
                 isError := None |})
    /\ JSON_stringify
         (JObj [("data", JObj [("content", JStr "hello")]);
                ("position", JObj [("x", JInt 10); ("y", JInt 20)])])
       = Some ("{" ++ quote "data" ++ ":{" ++ quote "content" ++ ":"
                   ++ quote "hello" ++ "}," ++ quote "position" ++ ":{"
                   ++ quote "x" ++ ":10," ++ quote "y" ++ ":20}}").
Proof.
  intros credentials remote response_headers entity Htoken Hremote.
  split; [reflexivity |]. split; [| reflexivity].
  unfold call, try_catch, miro_create_sticky_note.
  cbn [tool tool_try tool_catch].
  unfold createStickyNote, create_in, bind.
  rewrite (request_run _ _ _ _ Htoken).
  lazymatch goal with
  | |- context [remote ?r] =>
      replace (remote r)
        with (@inr Thrown RemoteResponse
                   {| resp_status := 201;
                      resp_headers := response_headers;
                      resp_json := inr entity |})
        by (rewrite <- Hremote; reflexivity)
  end.
  reflexivity.
Qed.

Lemma create_sticky_note_end_to_end_witness :
  call (miro_create_sticky_note {| accessToken := "tok" |})
       (JObj [("boardId", JStr "b1"); ("content", JStr "hello");
              ("x", JInt 10); ("y", JInt 20)])
       (fun _ => inr {| resp_status := 201;
                        resp_headers := [];
                        resp_json := inr (JObj [("id", JStr "n1")]) |})
  = ([ {| req_url := "https://api.miro.com/v2/boards/b1/sticky_notes";
          req_method := "POST";
          req_headers :=
            [("Authorization", "Bearer tok");
             ("Content-Type", "application/json")];
          req_body :=
            JSON_stringify
              (JObj [("data", JObj [("content", JStr "hello")]);
                     ("position", JObj [("x", JInt 10); ("y", JInt 20)])]) |} ],
     inr {| content :=
              [ {| type := "text";
                   text := JSON_stringify_2
                             (JObj [("success", JBool true);
                                    ("message", JStr "Sticky note created");
                                    ("stickyNote", JObj [("id", JStr "n1")])]) |} ];
            isError := None |}).
Proof.
  apply (create_sticky_note_end_to_end
           {| accessToken := "tok" |}
           (fun _ => inr {| resp_status := 201;
                            resp_headers := [];
                            resp_json := inr (JObj [("id", JStr "n1")]) |})
           [] (JObj [("id", JStr "n1")])).
  - discriminate.
  - reflexivity.
Defined.

(* ====================================================================== *)
(** * Paginated results in markdown (formatters.ts) *)
(* ====================================================================== *)


(** A table of a non-empty list is two header lines and one row per entry. *)
(** A table, were one rendered for an empty list, would start with a
    vertical bar (or be the generic table's own marker). *)
(* ====================================================================== *)
(** * Lemmas on conversions, loops and lines *)
(* ====================================================================== *)

Lemma for_each_succeeds {A B : Type} (f : A -> Result B) (l : list A) :
  (exists rows, for_each f l = inr rows)
  <-> Forall (fun x => exists y, f x = inr y) l.
Proof.
  induction l as [| x l IH].
  - split; [intros _; constructor | intros _; eexists; reflexivity].
  - cbn [for_each and_then]. split.
    + intros [rows H]. destruct (f x) as [e | y] eqn:Hx; [discriminate |].
      cbn [and_then] in H.
      destruct (for_each f l) as [e | ys]; [discriminate |].
      constructor; [exists y; exact Hx | apply IH; eexists; reflexivity].
    + intros H. pose proof (Forall_inv H) as [y Hy].
      apply Forall_inv_tail in H. apply IH in H. destruct H as [ys Hys].
      rewrite Hy. cbn [and_then]. rewrite Hys. cbn [and_then].
      eexists; reflexivity.
Qed.




Lemma get_prop_value obj k v : get_prop obj k = inr v -> v = prop obj k.
Proof.
  destruct obj; cbn [get_prop]; intros H; try discriminate H;
    injection H as <-; reflexivity.
Qed.





(** Where [ToString] returns a string, it is the one [js_String] gives. *)
Lemma ToString_js_String v : forall s, ToString v = inr s -> js_String v = s.
Proof.
  induction v as [ | | b | n | s' | items IH | fields] using JsValue_elements_ind;
    intros s H; try (injection H as <-; reflexivity).
  - cbn [ToString] in H. cbn [js_String].
    match type of H with
    | and_then ?loop _ = _ => destruct loop as [e' | parts] eqn:Hparts
    end; [discriminate H |].
    cbn [and_then] in H. injection H as <-. f_equal.
    revert parts Hparts. induction IH as [| x items Hx _ IHitems]; intros parts Hparts.
    + injection Hparts as <-. reflexivity.
    + match type of Hparts with
      | and_then ?head _ = _ => destruct head as [e1 | t] eqn:Hhead
      end; [discriminate Hparts |].
      cbn [and_then] in Hparts.
      match type of Hparts with
      | and_then ?tail _ = _ => destruct tail as [e2 | ts] eqn:Htail
      end; [discriminate Hparts |].
      cbn [and_then] in Hparts. injection Hparts as <-.
      rewrite <- (IHitems ts eq_refl).
      destruct x; first [ injection Hhead as <-; reflexivity
                        | rewrite (Hx _ Hhead); reflexivity ].
  - cbn [ToString] in H. destruct (lookup "toString" fields); [discriminate H |].
    injection H as <-. reflexivity.
Qed.

(** A falsy value is a primitive, and converts. *)
Lemma falsy_converts v : truthy v = false -> converts v = true.
Proof.
  destruct v; cbn [truthy]; intros H; try reflexivity; discriminate H.
Qed.

Lemma converts_js_or v : converts (js_or v (JStr "-")) = converts v.
Proof.
  unfold js_or. destruct (truthy v) eqn:Hv; [reflexivity |].
  rewrite (falsy_converts v Hv). reflexivity.
Qed.

Lemma not_defined v : defined v = false -> v = JUndefined.
Proof.
  destruct v; cbn [defined]; intros H; first [reflexivity | discriminate H].
Qed.

Lemma one_line_append a b : one_line (a ++ b) = (one_line a && one_line b)%bool.
Proof.
  induction a as [| c a IH]; [reflexivity |].
  cbn [append one_line]. rewrite IH. apply andb_assoc.
Qed.

Lemma upper_char_line_break c : is_line_break (upper_char c) = is_line_break c.
Proof.
  destruct c as [[] [] [] [] [] [] [] []]; reflexivity.
Qed.

Lemma capitalize_one_line s : one_line (capitalize s) = one_line s.
Proof.
  destruct s as [| c s]; [reflexivity |].
  cbn [capitalize one_line]. rewrite upper_char_line_break. reflexivity.
Qed.

Lemma split_lines_one_line s : one_line s = true -> split_lines s = [s].
Proof.
  induction s as [| c s IH]; [reflexivity |].
  cbn [one_line split_lines]. intros H. apply andb_prop in H.
  destruct H as [Hc Hs]. apply negb_true_iff in Hc. rewrite Hc, (IH Hs).
  reflexivity.
Qed.

Lemma split_lines_append a b :
  split_lines (a ++ nl ++ b) = (split_lines a ++ split_lines b)%list.
Proof.
  induction a as [| c a IH]; [reflexivity |].
  cbn [append split_lines]. change (a ++ String (ascii_of_N 10) b)
    with (a ++ nl ++ b). rewrite IH.
  destruct (is_line_break c); [reflexivity |].
  destruct (split_lines a) as [| line rest] eqn:Ha; [| reflexivity].
  destruct a; cbn [split_lines] in Ha;
    [discriminate Ha |
     destruct (is_line_break a); [discriminate Ha | destruct (split_lines a0); discriminate Ha]].
Qed.

Lemma join_lines_cons x y rest :
  join_lines (x :: y :: rest) = x ++ nl ++ join_lines (y :: rest).
Proof.
  reflexivity.
Qed.

Lemma join_lines_snoc chunks x :
  chunks <> [] ->
  join_lines (chunks ++ [x])%list = join_lines chunks ++ nl ++ x.
Proof.
  induction chunks as [| c chunks IH]; [contradiction |].
  intros _. destruct chunks as [| d chunks]; [reflexivity |].
  change ((c :: d :: chunks) ++ [x])%list with (c :: d :: (chunks ++ [x])%list).
  rewrite !join_lines_cons.
  change (d :: (chunks ++ [x])%list) with ((d :: chunks) ++ [x])%list.
  rewrite IH by discriminate. rewrite !append_assoc. reflexivity.
Qed.

Lemma split_lines_join chunks :
  chunks <> [] ->
  Forall (fun chunk => one_line chunk = true) chunks ->
  split_lines (join_lines chunks) = chunks.
Proof.
  induction chunks as [| c chunks IH]; [contradiction |].
  intros _ Hall. pose proof (Forall_inv Hall) as Hc.
  apply Forall_inv_tail in Hall.
  destruct chunks as [| d chunks]; [exact (split_lines_one_line c Hc) |].
  rewrite join_lines_cons, split_lines_append, (split_lines_one_line c Hc).
  rewrite IH by (discriminate || exact Hall). reflexivity.
Qed.

(** The header of a page is produced exactly when the count and cursor
    fields convert. *)
Lemma paginated_header_succeeds data entityType :
  (exists heading, paginated_header data entityType = inr heading)
  <-> (converts (prop data "total") && converts (prop data "size")
       && converts (prop data "cursor"))%bool = true.
Proof.
  unfold paginated_header.
  destruct (defined (prop data "total")) eqn:Htotal;
    [| rewrite (not_defined _ Htotal)];
    (destruct (truthy (prop data "cursor")) eqn:Hcursor;
     [| rewrite (falsy_converts _ Hcursor)]);
    unfold converts;
    repeat match goal with
           | |- context [ToString ?v] =>
               lazymatch v with
               | JUndefined => fail
               | _ => destruct (ToString v)
               end
           end;
    cbn [ToString js_String and_then andb];
    split; intros H; try discriminate H; try reflexivity;
    try (eexists; reflexivity); destruct H as [heading H]; discriminate H.
Qed.

(** The lines of the header of a page. *)
Lemma paginated_header_lines data entityType heading :
  paginated_header data entityType = inr heading ->
  exists shown counts cursor,
    ToString (prop data "size") = inr shown
    /\ heading = List.app ["## " ++ capitalize entityType; ""; counts]
                           (List.app cursor [""])
    /\ ((defined (prop data "total") = false /\ counts = "**Showing:** " ++ shown)
        \/ (exists total,
               ToString (prop data "total") = inr total
               /\ counts = "**Total:** " ++ total ++ " | **Showing:** " ++ shown))
    /\ ((truthy (prop data "cursor") = false /\ cursor = [])
        \/ (exists next,
               ToString (prop data "cursor") = inr next
               /\ cursor = ["**Next cursor:** `" ++ next ++ "`"])).
Proof.
  unfold paginated_header. intros H.
  destruct (ToString (prop data "size")) as [e | shown] eqn:Hsize.
  { destruct (defined (prop data "total"));
      [destruct (ToString (prop data "total")) |]; discriminate H. }
  exists shown.
  destruct (defined (prop data "total")) eqn:Htotal.
  - destruct (ToString (prop data "total")) as [e | total] eqn:Ht;
      [discriminate H |].
    cbn [and_then] in H.
    destruct (truthy (prop data "cursor")) eqn:Hcursor.
    + destruct (ToString (prop data "cursor")) as [e | next] eqn:Hnext;
        [discriminate H |].
      cbn [and_then] in H. injection H as <-.
      exists ("**Total:** " ++ total ++ " | **Showing:** " ++ shown), ["**Next cursor:** `" ++ next ++ "`"]. split; [reflexivity |]. split; [reflexivity |].
      split; [right; exists total; split; reflexivity
             | right; exists next; split; reflexivity].
    + cbn [and_then] in H. injection H as <-.
      exists ("**Total:** " ++ total ++ " | **Showing:** " ++ shown), (@nil string). split; [reflexivity |]. split; [reflexivity |].
      split; [right; exists total; split; reflexivity
             | left; split; reflexivity].
  - cbn [and_then] in H.
    destruct (truthy (prop data "cursor")) eqn:Hcursor.
    + destruct (ToString (prop data "cursor")) as [e | next] eqn:Hnext;
        [discriminate H |].
      cbn [and_then] in H. injection H as <-.
      exists ("**Showing:** " ++ shown), ["**Next cursor:** `" ++ next ++ "`"]. split; [reflexivity |]. split; [reflexivity |].
      split; [left; split; reflexivity
             | right; exists next; split; reflexivity].
    + cbn [and_then] in H. injection H as <-.
      exists ("**Showing:** " ++ shown), (@nil string). split; [reflexivity |]. split; [reflexivity |].
      split; left; split; reflexivity.
Qed.


Lemma handle_response_decodes response :
  (200 <= resp_status response <= 299)%Z ->
  resp_status response <> 204%Z ->
  handle_response response
  = match resp_json response with
    | inr v => inr v
    | inl msg => inl (ThrownError "SyntaxError" msg)
    end.
Proof.
  intros Hrange H204. unfold handle_response, resp_ok.
  replace (Z.eqb (resp_status response) 429) with false
    by (symmetry; apply Z.eqb_neq; lia).
  replace (Z.eqb (resp_status response) 401) with false
    by (symmetry; apply Z.eqb_neq; lia).
  replace (Z.eqb (resp_status response) 403) with false
    by (symmetry; apply Z.eqb_neq; lia).
  replace (Z.leb 200 (resp_status response)) with true
    by (symmetry; apply Z.leb_le; lia).
  replace (Z.leb (resp_status response) 299) with true
    by (symmetry; apply Z.leb_le; lia).
  rewrite (proj2 (Z.eqb_neq _ _) H204). reflexivity.
Qed.

(** C8 as stated fails: the cursor is copied into the text as it is.  For
    an empty page whose cursor holds line breaks, the text shows, below the
    cursor hint, the very two lines that make the header-only table of
    boards, and then the marker. *)
Lemma cursor_lines_can_show_a_header_only_table :
  formatBoardsTable []
  = inr (join_lines ["| ID | Name | Description | View Link |";
                     "|---|---|---|---|"])
  /\ formatAsMarkdown
       (JObj [("data", JArr []);
              ("size", JInt 0);
              ("cursor",
               JStr ("c" ++ nl ++ "| ID | Name | Description | View Link |"
                         ++ nl ++ "|---|---|---|---|" ++ nl))])
       "boards"
     = inr (join_lines ["## Boards"; ""; "**Showing:** 0";
                        "**Next cursor:** `c";
                        "| ID | Name | Description | View Link |";
                        "|---|---|---|---|";
                        "`"; ""; "_No items found._"]).
Proof.
  split; vm_compute; reflexivity.
Qed.

(** C8, amended.  For a paginated result whose [data] is empty, and any
    entity label, the markdown rendering is produced exactly when [total],
    [size] and [cursor] convert to strings.  It is then the header followed
    by the marker [_No items found._], which is the last line of the text,
    on [formatAsMarkdown] and through [formatResponse].  When the label and
    the three fields hold no line break, the lines of the text are exactly
    the lines of the header and the marker, and none of them starts a table
    row. *)
Theorem empty_page_renders_no_items_marker :
  forall (fields : list (string * JsValue)) (entityType : string),
    lookup "data" fields = Some (JArr []) ->
    ((exists text, formatAsMarkdown (JObj fields) entityType = inr text)
     <-> (converts (prop (JObj fields) "total")
          && converts (prop (JObj fields) "size")
          && converts (prop (JObj fields) "cursor"))%bool = true)
    /\ (forall text,
           formatAsMarkdown (JObj fields) entityType = inr text ->
           formatResponse (JObj fields) (JStr "markdown") entityType
           = inr (text_response (Some text))
           /\ exists heading,
                paginated_header (JObj fields) entityType = inr heading
                /\ text = join_lines (List.app heading ["_No items found._"])
                /\ last (split_lines text) "" = "_No items found._"
                /\ (one_line entityType = true ->
                    converts_to_one_line (prop (JObj fields) "total") ->
                    converts_to_one_line (prop (JObj fields) "size") ->
                    converts_to_one_line (prop (JObj fields) "cursor") ->
                    split_lines text = List.app heading ["_No items found._"]
                    /\ Forall (fun line => String.prefix "|" line = false)
                              (split_lines text))).
Proof.
  intros fields entityType Hdata.
  assert (Hmd : formatAsMarkdown (JObj fields) entityType
                = (heading <~ paginated_header (JObj fields) entityType ;;
                   inr (join_lines (List.app heading ["_No items found._"])))).
  { unfold formatAsMarkdown. rewrite Hdata. reflexivity. }
  split.
  - rewrite <- (paginated_header_succeeds (JObj fields) entityType). rewrite Hmd.
    destruct (paginated_header (JObj fields) entityType) as [e | heading].
    + split; intros [x Hx]; cbn [and_then] in Hx; discriminate Hx.
    + split; intros _; eexists; reflexivity.
  - intros text Htext.
    change (formatResponse (JObj fields) (JStr "markdown") entityType)
      with (and_then (formatAsMarkdown (JObj fields) entityType)
                     (fun t => inr {| content := [ {| type := "text"; text := Some t |} ];
                                      isError := None |})).
    rewrite Htext. split; [reflexivity |].
    rewrite Hmd in Htext.
    destruct (paginated_header (JObj fields) entityType) as [e | heading] eqn:Hheading;
      [discriminate Htext |].
    cbn [and_then] in Htext. injection Htext as <-.
    exists heading. split; [reflexivity |]. split; [reflexivity |].
    destruct (paginated_header_lines _ _ _ Hheading)
      as [shown [counts [cursor [Hsize [-> [Hcounts Hcursor]]]]]].
    split.
    + rewrite join_lines_snoc by discriminate.
      rewrite split_lines_append.
      rewrite (split_lines_one_line "_No items found._") by reflexivity.
      apply last_last.
    + intros Hlabel Htotal Hshown Hnext.
      assert (Hcounts_line : one_line counts = true).
      { destruct Hcounts as [[_ ->] | [total [Ht ->]]];
          rewrite ?one_line_append, ?(Hshown _ Hsize), ?(Htotal _ Ht);
          reflexivity. }
      assert (Hall : Forall (fun chunk => one_line chunk = true)
                            (List.app (List.app ["## " ++ capitalize entityType; ""; counts]
                                                (List.app cursor [""]))
                                      ["_No items found._"])).
      { destruct Hcursor as [[_ ->] | [next [Hn ->]]]; cbn [List.app];
          repeat constructor;
          rewrite ?one_line_append, ?capitalize_one_line, ?Hlabel, ?(Hnext _ Hn);
          first [reflexivity | exact Hcounts_line]. }
      rewrite split_lines_join; [| cbn [List.app]; discriminate | exact Hall].
      split; [reflexivity |].
      destruct Hcounts as [[_ ->] | [total [Ht ->]]];
        destruct Hcursor as [[_ ->] | [next [Hn ->]]]; cbn [List.app];
        repeat constructor.
Qed.

Lemma empty_page_renders_no_items_marker_witness :
  exists text,
    formatAsMarkdown (JObj [("data", JArr []); ("size", JInt 0)]) "boards"
    = inr text
    /\ formatResponse (JObj [("data", JArr []); ("size", JInt 0)])
                      (JStr "markdown") "boards"
       = inr (text_response (Some text))
    /\ last (split_lines text) "" = "_No items found._"
    /\ split_lines text
       = ["## Boards"; ""; "**Showing:** 0"; ""; "_No items found._"]
    /\ Forall (fun line => String.prefix "|" line = false) (split_lines text).
Proof.
  destruct (empty_page_renders_no_items_marker
              [("data", JArr []); ("size", JInt 0)] "boards" eq_refl)
    as [Hproduced Hshape].
  destruct (proj2 Hproduced eq_refl) as [text Htext].
  destruct (Hshape text Htext)
    as [Hresponse [heading [Hheading [_ [Hlast Hlines]]]]].
  assert (Hone : forall v,
             v = JUndefined \/ v = JInt 0 -> converts_to_one_line v).
  { intros v [-> | ->] s Hs; vm_compute in Hs; injection Hs as <-; reflexivity. }
  destruct (Hlines eq_refl
                   (Hone _ (or_introl eq_refl))
                   (Hone _ (or_intror eq_refl))
                   (Hone _ (or_introl eq_refl)))
    as [Hsplit Hbars].
  exists text.
  split; [exact Htext |]. split; [exact Hresponse |]. split; [exact Hlast |].
  split; [| exact Hbars].
  rewrite Hsplit. vm_compute in Hheading. injection Hheading as <-. reflexivity.
Defined.




(* ====================================================================== *)
(** * Coordinates of the update tools (tools/*.ts) *)
(* ====================================================================== *)

Lemma lookup_assign k k' v fields :
  lookup k (assign k' v fields)
  = if String.eqb k k' then Some v else lookup k fields.
Proof.
  induction fields as [| [k0 v0] fields IH]; cbn [assign lookup].
  - reflexivity.
  - destruct (String.eqb_spec k' k0) as [-> | Hne]; cbn [lookup].
    + destruct (String.eqb k k0); reflexivity.
    + rewrite IH. destruct (String.eqb_spec k k0) as [-> | Hne0].
      * destruct (String.eqb_spec k0 k') as [Heq | _]; [congruence | reflexivity].
      * reflexivity.
Qed.

Lemma prop_without_coordinates args k :
  prop (without_coordinates args) k
  = if (String.eqb k "x" || String.eqb k "y")%bool then JUndefined else prop args k.
Proof.
  unfold without_coordinates.
  destruct args; try (destruct (String.eqb k "x" || String.eqb k "y")%bool; reflexivity).
  cbn [set_prop prop]. rewrite !lookup_assign.
  destruct (String.eqb k "y"); [rewrite orb_true_r; reflexivity |].
  destruct (String.eqb k "x"); reflexivity.
Qed.

(** C10.  For each update tool that accepts [x] and [y], invoked with
    schema-valid arguments by a client holding a token: exactly one request
    is issued, a PATCH whose body is the serialisation of an object [input];
    [input] has a [position] field if and only if both [x] and [y] are
    supplied, and then it is [{x, y}]; when at most one of the two is
    supplied, the request issued is the very request issued for the same
    arguments with neither coordinate: the lone coordinate is dropped
    without a trace. *)
Theorem position_sent_iff_both_coordinates :
  forall (credentials : TenantCredentials) (t : Tool) (args : JsValue)
         (remote : Remote),
    In t (coordinate_update_tools credentials) ->
    coordinates_valid t args ->
    accessToken credentials <> "" ->
    exists input req,
      issued (call t args) remote = [req]
      /\ req_method req = "PATCH"
      /\ req_body req = JSON_stringify input
      /\ has_prop "position" input
         = (defined (prop args "x") && defined (prop args "y"))%bool
      /\ ((defined (prop args "x") && defined (prop args "y"))%bool = true ->
          prop input "position"
          = JObj [("x", prop args "x"); ("y", prop args "y")])
      /\ ((defined (prop args "x") && defined (prop args "y"))%bool = false ->
          issued (call t (without_coordinates args)) remote = [req]).
Proof.
  intros credentials t args remote Hin Hvalid Htoken.
  unfold coordinate_update_tools in Hin. cbn [In] in Hin.
  repeat (destruct Hin as [<- | Hin]); try contradiction;
    try (pose proof (Hvalid eq_refl) as Hboth_required);
    unfold issued, call, try_catch; autounfold with tools;
    cbn [tool tool_try tool_catch]; autounfold with client; unfold bind;
    rewrite !(request_run _ _ _ _ Htoken);
    rewrite !prop_without_coordinates;
    cbn [String.eqb Ascii.eqb Bool.eqb orb];
    (eexists; eexists;
     split;
     [ destruct (remote _) as [e | response];
       [ reflexivity
       | cbn [and_then]; destruct (handle_response response); reflexivity ]
     | split; [reflexivity |];
       split; [reflexivity |];
       destruct (defined (prop args "x") && defined (prop args "y"))%bool eqn:Hxy;
       try discriminate Hboth_required;
       (split;
        [ repeat match goal with
                 | |- context [truthy ?v] => destruct (truthy v)
                 | |- context [(defined ?a || defined ?b)%bool] =>
                     destruct (defined a || defined b)%bool
                 end; reflexivity
        | split;
          [ intros Hboth;
            first [ discriminate Hboth
                  | repeat match goal with
                           | |- context [truthy ?v] => destruct (truthy v)
                           | |- context [(defined ?a || defined ?b)%bool] =>
                               destruct (defined a || defined b)%bool
                           end; reflexivity ]
          | intros Hnot;
            first [ discriminate Hnot
                  | cbn [defined andb];
                    destruct (remote _) as [e | response];
                    [ reflexivity
                    | cbn [and_then]; destruct (handle_response response);
                      reflexivity ] ] ] ]) ]).
Qed.

Lemma position_sent_iff_both_coordinates_witness :
  exists input req,
    issued (call (miro_update_card {| accessToken := "tok" |})
                 (JObj [("boardId", JStr "b1"); ("itemId", JStr "c1");
                        ("x", JInt 5)]))
           (fun _ => inl no_token_error)
    = [req]
    /\ req_method req = "PATCH"
    /\ req_body req = JSON_stringify input
    /\ has_prop "position" input
       = (defined (prop (JObj [("boardId", JStr "b1"); ("itemId", JStr "c1");
                               ("x", JInt 5)]) "x")
          && defined (prop (JObj [("boardId", JStr "b1"); ("itemId", JStr "c1");
                                  ("x", JInt 5)]) "y"))%bool
    /\ ((defined (prop (JObj [("boardId", JStr "b1"); ("itemId", JStr "c1");
                              ("x", JInt 5)]) "x")
         && defined (prop (JObj [("boardId", JStr "b1"); ("itemId", JStr "c1");
                                 ("x", JInt 5)]) "y"))%bool = true ->
        prop input "position"
        = JObj [("x", prop (JObj [("boardId", JStr "b1"); ("itemId", JStr "c1");
                                  ("x", JInt 5)]) "x");
                ("y", prop (JObj [("boardId", JStr "b1"); ("itemId", JStr "c1");
                                  ("x", JInt 5)]) "y")])
    /\ ((defined (prop (JObj [("boardId", JStr "b1"); ("itemId", JStr "c1");
                              ("x", JInt 5)]) "x")
         && defined (prop (JObj [("boardId", JStr "b1"); ("itemId", JStr "c1");
                                 ("x", JInt 5)]) "y"))%bool = false ->
        issued (call (miro_update_card {| accessToken := "tok" |})
                     (without_coordinates
                        (JObj [("boardId", JStr "b1"); ("itemId", JStr "c1");
                               ("x", JInt 5)])))
               (fun _ => inl no_token_error)
        = [req]).
Proof.
  apply (position_sent_iff_both_coordinates
           {| accessToken := "tok" |}
           (miro_update_card {| accessToken := "tok" |})
           (JObj [("boardId", JStr "b1"); ("itemId", JStr "c1"); ("x", JInt 5)])
           (fun _ => inl no_token_error)).
  - unfold coordinate_update_tools. cbn [In]. right. right. right. left. reflexivity.
  - intros Hname. discriminate Hname.
  - discriminate.
Defined.

(** A lone coordinate, concretely: [miro_update_card] invoked with [x] only
    sends the body [{}]. *)
Example update_card_with_x_only :
  issued (call (miro_update_card {| accessToken := "tok" |})
               (JObj [("boardId", JStr "b1"); ("itemId", JStr "c1");
                      ("x", JInt 5)]))
         (fun _ => inl no_token_error)
  = [ {| req_url := "https://api.miro.com/v2/boards/b1/cards/c1";
         req_method := "PATCH";
         req_headers := [("Authorization", "Bearer tok");
                         ("Content-Type", "application/json")];
         req_body := Some "{}" |} ].
Proof. vm_compute. reflexivity. Qed.

(** [miro_update_item_position], whose schema requires both coordinates,
    always sends a [position]. *)
Example update_item_position_sends_position :
  issued (call (miro_update_item_position {| accessToken := "tok" |})
               (JObj [("boardId", JStr "b1"); ("itemId", JStr "i1");
                      ("x", JInt 1); ("y", JInt 2)]))
         (fun _ => inl no_token_error)
  = [ {| req_url := "https://api.miro.com/v2/boards/b1/items/i1";
         req_method := "PATCH";
         req_headers := [("Authorization", "Bearer tok");
                         ("Content-Type", "application/json")];
         req_body :=
           JSON_stringify
             (JObj [("position", JObj [("x", JInt 1); ("y", JInt 2)])]) |} ].
Proof. vm_compute. reflexivity. Qed.

(* ====================================================================== *)
(** * Further properties: environment numbers (types/env.ts) *)
(* ====================================================================== *)

Lemma getEnvNumber_number_aux env key d :
  exists n, getEnvNumber env key (Num d) = Num n.
Proof.
  unfold getEnvNumber.
  destruct (prop env key); try (exists d; reflexivity).
  destruct (parseInt_10 s) as [| n]; [exists d | exists n]; reflexivity.
Qed.

(** X1.  [getEnvNumber] with a numeric default never returns [NaN]: the
    result is the integer [parseInt] reads from the variable when the
    variable is a string from which one can be read, and the default in
    every other case (variable absent, not a string, or not numeric). *)
Theorem getEnvNumber_is_a_number :
  forall (env : JsValue) (key : string) (d : Z),
    exists n,
      getEnvNumber env key (Num d) = Num n
      /\ ((exists text, prop env key = JStr text /\ parseInt_10 text = Num n)
          \/ (n = d
              /\ forall text, prop env key = JStr text -> parseInt_10 text = NaN)).
Proof.
  intros env key d. unfold getEnvNumber.
  destruct (prop env key) as [ | | b | m | text | items | fields];
    try (exists d; split; [reflexivity | right; split; [reflexivity | discriminate]]).
  destruct (parseInt_10 text) as [| n] eqn:Hparse.
  - exists d. split; [reflexivity |]. right. split; [reflexivity |].
    intros text' Heq. injection Heq as <-. exact Hparse.
  - exists n. split; [reflexivity |]. left. exists text. split; [reflexivity | exact Hparse].
Qed.

(** X2.  The three configured limits are always numbers, and a variable that
    is not set leaves its limit at the built-in value: 50000 characters, a
    page size of 20, a maximal page size of 100. *)
Theorem configured_limits_default :
  forall env : JsValue,
    (exists a b c,
        getCharacterLimit env = Num a
        /\ getDefaultPageSize env = Num b
        /\ getMaxPageSize env = Num c)
    /\ (prop env "CHARACTER_LIMIT" = JUndefined -> getCharacterLimit env = Num 50000)
    /\ (prop env "DEFAULT_PAGE_SIZE" = JUndefined -> getDefaultPageSize env = Num 20)
    /\ (prop env "MAX_PAGE_SIZE" = JUndefined -> getMaxPageSize env = Num 100).
Proof.
  intros env. unfold getCharacterLimit, getDefaultPageSize, getMaxPageSize.
  split.
  - destruct (getEnvNumber_number_aux env "CHARACTER_LIMIT" 50000) as [a Ha].
    destruct (getEnvNumber_number_aux env "DEFAULT_PAGE_SIZE" 20) as [b Hb].
    destruct (getEnvNumber_number_aux env "MAX_PAGE_SIZE" 100) as [c Hc].
    exists a, b, c. repeat split; assumption.
  - repeat split; intros H; unfold getEnvNumber; rewrite H; reflexivity.
Qed.

(* ====================================================================== *)
(** * Further properties: credentials and routing (types/env.ts, index.ts) *)
(* ====================================================================== *)

(** X3.  Parsing then validating succeeds exactly for a request whose
    [X-Miro-Access-Token] header is present and not empty, and the
    credentials then hold that header value unchanged. *)
Theorem credentials_round_trip :
  forall request : Request,
    (validateCredentials (parseTenantCredentials request) = inr tt
     <-> exists v, headers_get (headers request) "X-Miro-Access-Token" = Some v
                   /\ v <> "")
    /\ (forall v,
           headers_get (headers request) "X-Miro-Access-Token" = Some v ->
           v <> "" ->
           accessToken (parseTenantCredentials request) = v).
Proof.
  intros request. unfold validateCredentials, parseTenantCredentials, or_string.
  cbn [accessToken].
  destruct (headers_get (headers request) "X-Miro-Access-Token") as [v |].
  - destruct (String.eqb_spec v "") as [-> | Hne].
    + split.
      * split; [discriminate |]. intros [v [Hv Hne]]. injection Hv as <-.
        contradiction.
      * intros v Hv Hne. injection Hv as <-. contradiction.
    + rewrite (eqb_empty_false _ Hne). split.
      * split; [intros _; exists v; split; [reflexivity | exact Hne] | reflexivity].
      * intros v' Hv _. injection Hv as <-. reflexivity.
  - split.
    + split; [discriminate |]. intros [v [Hv _]]. discriminate Hv.
    + intros v Hv. discriminate Hv.
Qed.

(** X4.  A POST to [/mcp] that carries a token is handed to the MCP handler
    together with a server built from exactly that token: the response, and
    every request issued, are the handler's. *)
Theorem front_door_delegates_with_token :
  forall (createMcpHandler : McpServer -> Request -> Exec Response)
         (request : Request) (remote : Remote) (token : string),
    url_pathname request = "/mcp" ->
    method request = "POST" ->
    headers_get (headers request) "X-Miro-Access-Token" = Some token ->
    token <> "" ->
    fetch createMcpHandler request remote
    = createMcpHandler (createStatelessServer {| accessToken := token |})
                       request remote.
Proof.
  intros h request remote token Hpath Hmethod Hheader Hne.
  unfold fetch. rewrite Hpath, Hmethod. cbn [String.eqb Ascii.eqb Bool.eqb andb].
  unfold parseTenantCredentials, validateCredentials, or_string.
  rewrite Hheader. cbn [accessToken]. rewrite (eqb_empty_false _ Hne).
  cbn [accessToken]. rewrite (eqb_empty_false _ Hne). reflexivity.
Qed.

Lemma front_door_delegates_with_token_witness :
  fetch (fun server _ => ret {| status := Z.of_nat (length server);
                                response_headers := [];
                                response_body := None |})
        {| url_pathname := "/mcp"; method := "POST";
           headers := [("x-miro-access-token", "tok")] |}
        (fun _ => inl no_token_error)
  = (fun server (_ : Request) =>
       ret {| status := Z.of_nat (length server);
              response_headers := [];
              response_body := None |})
      (createStatelessServer {| accessToken := "tok" |})
      {| url_pathname := "/mcp"; method := "POST";
         headers := [("x-miro-access-token", "tok")] |}
      (fun _ => inl no_token_error).
Proof.
  apply (front_door_delegates_with_token
           (fun server _ => ret {| status := Z.of_nat (length server);
                                   response_headers := [];
                                   response_body := None |})
           {| url_pathname := "/mcp"; method := "POST";
              headers := [("x-miro-access-token", "tok")] |}
           (fun _ => inl no_token_error) "tok").
  - reflexivity.
  - reflexivity.
  - reflexivity.
  - discriminate.
Defined.

(** X5.  Every request other than a POST to [/mcp] is answered without
    credentials: no header is read, the MCP handler is not consulted, no
    request is issued, and the response depends on the path alone - status
    501 for [/sse], 200 for the health check and for everything else. *)
Theorem other_routes_need_no_credentials :
  forall (createMcpHandler : McpServer -> Request -> Exec Response)
         (request : Request) (remote : Remote),
    (url_pathname request = "/mcp" -> method request <> "POST") ->
    exists response,
      fetch createMcpHandler request remote = ([], inr response)
      /\ status response
         = (if String.eqb (url_pathname request) "/sse" then 501 else 200)%Z
      /\ (forall createMcpHandler' request' remote',
             url_pathname request' = url_pathname request ->
             (url_pathname request' = "/mcp" -> method request' <> "POST") ->
             fetch createMcpHandler' request' remote' = ([], inr response)).
Proof.
  intros h request remote Hroute.
  assert (Hcases :
            forall h' request' remote',
              url_pathname request' = url_pathname request ->
              (url_pathname request' = "/mcp" -> method request' <> "POST") ->
              fetch h' request' remote' = fetch h request remote).
  { intros h' request' remote' Hpath Hroute'. unfold fetch. rewrite Hpath.
    destruct (String.eqb_spec (url_pathname request) "/health"); [reflexivity |].
    destruct (String.eqb_spec (url_pathname request) "/mcp") as [Hmcp | _].
    - destruct (String.eqb_spec (method request) "POST") as [Hpost | _];
        [exfalso; exact (Hroute Hmcp Hpost) |].
      destruct (String.eqb_spec (method request') "POST") as [Hpost' | _];
        [exfalso; apply (Hroute' (eq_trans Hpath Hmcp) Hpost') |].
      cbn [andb]. rewrite Hmcp. reflexivity.
    - cbn [andb].
      destruct (String.eqb (url_pathname request) "/sse"); reflexivity. }
  assert (Hhere : exists response,
             fetch h request remote = ([], inr response)
             /\ status response
                = (if String.eqb (url_pathname request) "/sse" then 501 else 200)%Z).
  { unfold fetch.
    destruct (String.eqb_spec (url_pathname request) "/health") as [Hh | _].
    - rewrite Hh. eexists. split; reflexivity.
    - destruct (String.eqb_spec (url_pathname request) "/mcp") as [Hmcp | _].
      + destruct (String.eqb_spec (method request) "POST") as [Hpost | _];
          [exfalso; exact (Hroute Hmcp Hpost) |].
        cbn [andb]. rewrite Hmcp. eexists. split; reflexivity.
      + cbn [andb].
        destruct (String.eqb (url_pathname request) "/sse");
          eexists; split; reflexivity. }
  destruct Hhere as [response [Hfetch Hstatus]].
  exists response. split; [exact Hfetch |]. split; [exact Hstatus |].
  intros h' request' remote' Hpath Hroute'.
  rewrite (Hcases h' request' remote' Hpath Hroute'). exact Hfetch.
Qed.

Lemma other_routes_need_no_credentials_witness :
  exists response,
    fetch (fun _ _ => ret unauthorized)
          {| url_pathname := "/mcp"; method := "GET"; headers := [] |}
          (fun _ => inl no_token_error)
    = ([], inr response)
    /\ status response
       = (if String.eqb (url_pathname {| url_pathname := "/mcp"; method := "GET";
                                         headers := [] |}) "/sse"
          then 501 else 200)%Z
    /\ (forall createMcpHandler' request' remote',
           url_pathname request'
           = url_pathname {| url_pathname := "/mcp"; method := "GET"; headers := [] |} ->
           (url_pathname request' = "/mcp" -> method request' <> "POST") ->
           fetch createMcpHandler' request' remote' = ([], inr response)).
Proof.
  apply (other_routes_need_no_credentials
           (fun _ _ => ret unauthorized)
           {| url_pathname := "/mcp"; method := "GET"; headers := [] |}
           (fun _ => inl no_token_error)).
  intros _. discriminate.
Defined.

(** X6.  The tool names that the default response advertises are exactly the
    names of the tools a server registers, in registration order, and no
    name occurs twice. *)
Theorem advertised_tools_are_registered :
  forall credentials : TenantCredentials,
    map tool_name (createStatelessServer credentials) = listed_tools
    /\ NoDup listed_tools.
Proof.
  intros credentials. split; [reflexivity |].
  unfold listed_tools.
  repeat (constructor;
          [ cbn [In]; intros Hin;
            repeat (destruct Hin as [Hin | Hin]; [discriminate Hin |]);
            exact Hin
          | ]).
  constructor.
Qed.

(** X7.  Looking a registered tool up by its name yields that very tool:
    since names are unique, dispatch by name reaches the handler that was
    registered under the name. *)
Theorem find_tool_finds_registered :
  forall (credentials : TenantCredentials) (t : Tool),
    In t (createStatelessServer credentials) ->
    find_tool (createStatelessServer credentials) (tool_name t) = Some t.
Proof.
  intros credentials t. unfold find_tool. unfold_registry. intros Hin.
  repeat (destruct Hin as [<- | Hin]; [reflexivity |]).
  contradiction.
Qed.

Lemma find_tool_finds_registered_witness :
  find_tool (createStatelessServer {| accessToken := "tok" |})
            (tool_name (miro_get_tag {| accessToken := "tok" |}))
  = Some (miro_get_tag {| accessToken := "tok" |}).
Proof.
  apply (find_tool_finds_registered
           {| accessToken := "tok" |} (miro_get_tag {| accessToken := "tok" |})).
  unfold_registry. repeat (first [left; reflexivity | right]).
Defined.

(* ====================================================================== *)
(** * Further properties: the client (client.ts) *)
(* ====================================================================== *)

Lemma prefix_append (a b : string) : String.prefix a (a ++ b) = true.
Proof.
  induction a as [| ch a IH]; cbn [String.append String.prefix].
  - destruct b; reflexivity.
  - destruct (Ascii.ascii_dec ch ch) as [_ | Hne]; [exact IH | contradiction].
Qed.

(** Every method but [testConnection] issues the request
    [outgoing credentials endpoint options] for some endpoint and options
    without headers of their own. *)
Lemma invoke_outgoing credentials c :
  accessToken credentials <> "" ->
  is_testConnection c = false ->
  exists endpoint options,
    init_headers options = None
    /\ forall remote,
        invoke credentials c remote
        = ([outgoing credentials endpoint options],
           and_then (and_then (remote (outgoing credentials endpoint options))
                              handle_response)
                    (post_of c)).
Proof.
  intros Htoken Hc.
  destruct c; try discriminate Hc; autounfold with client;
    match goal with
    | |- context [request _ ?e ?o] => exists e, o
    end;
    (split; [reflexivity |]); intros remote; unfold bind;
    rewrite (request_run _ _ _ _ Htoken);
    (destruct (remote _) as [e | response];
     [reflexivity | cbn [and_then]; destruct (handle_response response); reflexivity]).
Qed.

(** X8.  A client holding a token issues exactly one request per method
    call, whatever the remote answers (so nothing is retried, not even after
    HTTP 429); the request goes to the API base URL and carries the bearer
    token and the JSON content type, and no other header. *)
Theorem every_method_issues_one_authorized_request :
  forall (credentials : TenantCredentials) (c : ClientCall) (remote : Remote),
    accessToken credentials <> "" ->
    exists req,
      issued (invoke credentials c) remote = [req]
      /\ String.prefix API_BASE_URL (req_url req) = true
      /\ req_headers req
         = [("Authorization", "Bearer " ++ accessToken credentials);
            ("Content-Type", "application/json")].
Proof.
  intros credentials c remote Htoken.
  destruct (is_testConnection c) eqn:Hc.
  - destruct c; try discriminate Hc. cbn [invoke]. unfold issued.
    rewrite (testConnection_run _ _ Htoken).
    eexists. split; [reflexivity |]. split; [apply prefix_append | reflexivity].
  - destruct (invoke_outgoing credentials c Htoken Hc)
      as [endpoint [options [Hheaders Hrun]]].
    unfold issued. rewrite Hrun.
    eexists. split; [reflexivity |]. split; [apply prefix_append |].
    unfold outgoing. cbn [req_headers]. rewrite Hheaders. reflexivity.
Qed.

Lemma every_method_issues_one_authorized_request_witness :
  exists req,
    issued (invoke {| accessToken := "tok" |} (call_deleteTag (JStr "b1") (JStr "t1")))
           (fun _ => inr {| resp_status := 429; resp_headers := [];
                            resp_json := inl "Unexpected end of JSON input" |})
    = [req]
    /\ String.prefix API_BASE_URL (req_url req) = true
    /\ req_headers req
       = [("Authorization", "Bearer " ++ accessToken {| accessToken := "tok" |});
          ("Content-Type", "application/json")].
Proof.
  apply (every_method_issues_one_authorized_request
           {| accessToken := "tok" |} (call_deleteTag (JStr "b1") (JStr "t1"))
           (fun _ => inr {| resp_status := 429; resp_headers := [];
                            resp_json := inl "Unexpected end of JSON input" |})).
  discriminate.
Defined.

(** X9.  On HTTP 401 or 403 every client method other than [testConnection]
    fails with the Authentication error, whatever the response body says;
    [testConnection] reports it as [connected: false]. *)
Theorem unauthorized_response_is_authentication_error :
  forall (credentials : TenantCredentials) (c : ClientCall) (remote : Remote)
         (response : RemoteResponse),
    accessToken credentials <> "" ->
    (forall req, remote req = inr response) ->
    (resp_status response = 401 \/ resp_status response = 403)%Z ->
    outcome (invoke credentials c) remote =
      if is_testConnection c
      then inr (JObj [("connected", JBool false);
                      ("message",
                       JStr "Authentication failed. Check your Miro access token.")])
      else inl (ThrownApi (AuthenticationError
                             "Authentication failed. Check your Miro access token.")).
Proof.
  intros credentials c remote response Htoken Hremote Hstatus.
  assert (Hresp : handle_response response
                  = inl (ThrownApi (AuthenticationError
                           "Authentication failed. Check your Miro access token."))).
  { unfold handle_response. destruct Hstatus as [-> | ->]; reflexivity. }
  unfold outcome.
  destruct (is_testConnection c) eqn:Hc.
  - destruct c; try discriminate Hc. cbn [invoke].
    rewrite (testConnection_run _ _ Htoken), Hremote. cbn [and_then snd].
    rewrite Hresp. reflexivity.
  - destruct (invoke_run credentials c Htoken Hc) as [req Hrun].
    rewrite Hrun, Hremote. cbn [and_then snd]. rewrite Hresp. reflexivity.
Qed.

Lemma unauthorized_response_is_authentication_error_witness :
  outcome (invoke {| accessToken := "tok" |} (call_listTags (JStr "b1") JUndefined))
          (fun _ => inr {| resp_status := 403; resp_headers := [];
                           resp_json := inr (JObj [("message", JStr "forbidden")]) |})
  = inl (ThrownApi (AuthenticationError
                      "Authentication failed. Check your Miro access token.")).
Proof.
  apply (unauthorized_response_is_authentication_error
           {| accessToken := "tok" |} (call_listTags (JStr "b1") JUndefined)
           (fun _ => inr {| resp_status := 403; resp_headers := [];
                            resp_json := inr (JObj [("message", JStr "forbidden")]) |})
           {| resp_status := 403; resp_headers := [];
              resp_json := inr (JObj [("message", JStr "forbidden")]) |}).
  - discriminate.
  - reflexivity.
  - right. reflexivity.
Defined.

(** X10.  When [fetch] itself rejects (no response at all), every client
    method other than [testConnection] rejects with that very value, after
    its one request; [testConnection] reports it as [connected: false] with
    the error's message. *)
Theorem network_failure_passes_through :
  forall (credentials : TenantCredentials) (c : ClientCall) (remote : Remote)
         (error : Thrown),
    accessToken credentials <> "" ->
    (forall req, remote req = inl error) ->
    length (issued (invoke credentials c) remote) = 1
    /\ outcome (invoke credentials c) remote =
         if is_testConnection c
         then inr (JObj [("connected", JBool false);
                         ("message", JStr (message_or error "Connection failed"))])
         else inl error.
Proof.
  intros credentials c remote error Htoken Hremote.
  unfold issued, outcome.
  destruct (is_testConnection c) eqn:Hc.
  - destruct c; try discriminate Hc. cbn [invoke].
    rewrite (testConnection_run _ _ Htoken), Hremote. split; reflexivity.
  - destruct (invoke_run credentials c Htoken Hc) as [req Hrun].
    rewrite Hrun, Hremote. split; reflexivity.
Qed.

Lemma network_failure_passes_through_witness :
  length (issued (invoke {| accessToken := "tok" |} (call_getBoard (JStr "b1")))
                 (fun _ => inl (ThrownError "TypeError" "fetch failed"))) = 1
  /\ outcome (invoke {| accessToken := "tok" |} (call_getBoard (JStr "b1")))
             (fun _ => inl (ThrownError "TypeError" "fetch failed"))
     = inl (ThrownError "TypeError" "fetch failed").
Proof.
  apply (network_failure_passes_through
           {| accessToken := "tok" |} (call_getBoard (JStr "b1"))
           (fun _ => inl (ThrownError "TypeError" "fetch failed"))
           (ThrownError "TypeError" "fetch failed")).
  - discriminate.
  - reflexivity.
Defined.

(** A successful status other than 204 makes [request] decode the body. *)
(** X11.  A successful status other than 204 whose body is not JSON makes
    every client method other than [testConnection] fail with the parser's
    [SyntaxError] - also the methods that return nothing (delete, share,
    attach, remove), although the request was issued and answered with
    success. *)
Theorem success_without_json_is_a_syntax_error :
  forall (credentials : TenantCredentials) (c : ClientCall) (remote : Remote)
         (response : RemoteResponse) (msg : string),
    accessToken credentials <> "" ->
    is_testConnection c = false ->
    (forall req, remote req = inr response) ->
    (200 <= resp_status response <= 299)%Z ->
    resp_status response <> 204%Z ->
    resp_json response = inl msg ->
    length (issued (invoke credentials c) remote) = 1
    /\ outcome (invoke credentials c) remote = inl (ThrownError "SyntaxError" msg).
Proof.
  intros credentials c remote response msg Htoken Hc Hremote Hrange H204 Hjson.
  destruct (invoke_run credentials c Htoken Hc) as [req Hrun].
  unfold issued, outcome. rewrite Hrun, Hremote. cbn [and_then fst snd].
  rewrite (handle_response_decodes _ Hrange H204), Hjson. split; reflexivity.
Qed.

Lemma success_without_json_is_a_syntax_error_witness :
  length (issued (invoke {| accessToken := "tok" |}
                         (call_deleteBoard (JStr "b1")))
                 (fun _ => inr {| resp_status := 200; resp_headers := [];
                                  resp_json := inl "Unexpected end of JSON input" |}))
  = 1
  /\ outcome (invoke {| accessToken := "tok" |} (call_deleteBoard (JStr "b1")))
             (fun _ => inr {| resp_status := 200; resp_headers := [];
                              resp_json := inl "Unexpected end of JSON input" |})
     = inl (ThrownError "SyntaxError" "Unexpected end of JSON input").
Proof.
  apply (success_without_json_is_a_syntax_error
           {| accessToken := "tok" |} (call_deleteBoard (JStr "b1"))
           (fun _ => inr {| resp_status := 200; resp_headers := [];
                            resp_json := inl "Unexpected end of JSON input" |})
           {| resp_status := 200; resp_headers := [];
              resp_json := inl "Unexpected end of JSON input" |}
           "Unexpected end of JSON input").
  - discriminate.
  - reflexivity.
  - reflexivity.
  - cbn. lia.
  - discriminate.
  - reflexivity.
Defined.

(** X12.  A successful status other than 204 with a JSON body [v] makes a
    method return [v] itself - unchanged - unless the method returns
    nothing (then the result is [undefined] and [v] is discarded) or is
    [getTagsFromItem] (then the result is [v.data], a [TypeError] if [v] is
    [null]). *)
Theorem success_returns_decoded_body :
  forall (credentials : TenantCredentials) (c : ClientCall) (remote : Remote)
         (response : RemoteResponse) (v : JsValue),
    accessToken credentials <> "" ->
    is_testConnection c = false ->
    (forall req, remote req = inr response) ->
    (200 <= resp_status response <= 299)%Z ->
    resp_status response <> 204%Z ->
    resp_json response = inr v ->
    outcome (invoke credentials c) remote =
      if is_getTagsFromItem c then get_prop v "data"
      else if returns_void c then inr JUndefined
      else inr v.
Proof.
  intros credentials c remote response v Htoken Hc Hremote Hrange H204 Hjson.
  destruct (invoke_run credentials c Htoken Hc) as [req Hrun].
  unfold outcome. rewrite Hrun, Hremote. cbn [and_then snd].
  rewrite (handle_response_decodes _ Hrange H204), Hjson. reflexivity.
Qed.

Lemma success_returns_decoded_body_witness :
  outcome (invoke {| accessToken := "tok" |}
                  (call_createTag (JStr "b1") (JObj [("title", JStr "urgent")])))
          (fun _ => inr {| resp_status := 201; resp_headers := [];
                           resp_json := inr (JObj [("id", JStr "t1")]) |})
  = inr (JObj [("id", JStr "t1")]).
Proof.
  apply (success_returns_decoded_body
           {| accessToken := "tok" |}
           (call_createTag (JStr "b1") (JObj [("title", JStr "urgent")]))
           (fun _ => inr {| resp_status := 201; resp_headers := [];
                            resp_json := inr (JObj [("id", JStr "t1")]) |})
           {| resp_status := 201; resp_headers := [];
              resp_json := inr (JObj [("id", JStr "t1")]) |}
           (JObj [("id", JStr "t1")])).
  - discriminate.
  - reflexivity.
  - reflexivity.
  - cbn. lia.
  - discriminate.
  - reflexivity.
Defined.

(** X13.  The front door and the client agree on what a missing token is:
    credentials that pass [validateCredentials] make [getAuthHeaders]
    succeed, so behind the front door every client method reaches the
    network with exactly one request. *)
Theorem validated_credentials_reach_the_network :
  forall (credentials : TenantCredentials) (c : ClientCall) (remote : Remote),
    validateCredentials credentials = inr tt ->
    (exists h, getAuthHeaders credentials = inr h)
    /\ length (issued (invoke credentials c) remote) = 1.
Proof.
  intros credentials c remote Hvalid.
  assert (Htoken : accessToken credentials <> "").
  { unfold validateCredentials in Hvalid.
    destruct (String.eqb_spec (accessToken credentials) ""); [discriminate | assumption]. }
  split.
  - unfold getAuthHeaders. rewrite (eqb_empty_false _ Htoken). eexists; reflexivity.
  - unfold issued. destruct (is_testConnection c) eqn:Hc.
    + destruct c; try discriminate Hc. cbn [invoke].
      rewrite (testConnection_run _ _ Htoken). reflexivity.
    + destruct (invoke_run credentials c Htoken Hc) as [req Hrun].
      rewrite Hrun. reflexivity.
Qed.

Lemma validated_credentials_reach_the_network_witness :
  (exists h, getAuthHeaders {| accessToken := "tok" |} = inr h)
  /\ length (issued (invoke {| accessToken := "tok" |} call_testConnection)
                    (fun _ => inl no_token_error)) = 1.
Proof.
  apply (validated_credentials_reach_the_network
           {| accessToken := "tok" |} call_testConnection
           (fun _ => inl no_token_error)).
  reflexivity.
Defined.

Lemma count_char_append c (a b : string) :
  count_char c (a ++ b) = count_char c a + count_char c b.
Proof.
  induction a as [| x a IH]; cbn [String.append count_char]; [reflexivity |].
  rewrite IH. lia.
Qed.

(** The characters that delimit a query string do not survive encoding. *)
Lemma urlencode_char_clean (x : ascii) :
  count_char "&" (urlencode_char x) = 0
  /\ count_char "=" (urlencode_char x) = 0
  /\ count_char " " (urlencode_char x) = 0
  /\ count_char "#" (urlencode_char x) = 0
  /\ count_char "?" (urlencode_char x) = 0.
Proof.
  destruct x as [[] [] [] [] [] [] [] []]; vm_compute; repeat split; reflexivity.
Qed.

Lemma urlencode_clean (s : string) :
  count_char "&" (urlencode s) = 0
  /\ count_char "=" (urlencode s) = 0
  /\ count_char " " (urlencode s) = 0
  /\ count_char "#" (urlencode s) = 0
  /\ count_char "?" (urlencode s) = 0.
Proof.
  induction s as [| x s IH]; cbn [urlencode]; [repeat split; reflexivity |].
  rewrite !count_char_append.
  destruct (urlencode_char_clean x) as [H1 [H2 [H3 [H4 H5]]]].
  destruct IH as [I1 [I2 [I3 [I4 I5]]]].
  rewrite H1, H2, H3, H4, H5, I1, I2, I3, I4, I5. repeat split; reflexivity.
Qed.

(** Joining [n > 0] encoded [name=value] pairs with an ampersand gives
    [n - 1] ampersands, [n] equals signs and no other delimiter. *)
Lemma search_params_counts (entries : list (string * string)) :
  entries <> [] ->
  count_char "&" (search_params_toString entries) = length entries - 1
  /\ count_char "=" (search_params_toString entries) = length entries
  /\ count_char " " (search_params_toString entries) = 0
  /\ count_char "#" (search_params_toString entries) = 0
  /\ count_char "?" (search_params_toString entries) = 0.
Proof.
  unfold search_params_toString, join.
  induction entries as [| [k v] rest IH]; [contradiction |]. intros _.
  destruct (urlencode_clean k) as [K1 [K2 [K3 [K4 K5]]]].
  destruct (urlencode_clean v) as [V1 [V2 [V3 [V4 V5]]]].
  destruct rest as [| kv rest].
  - cbn [map String.concat fst snd length]. rewrite !count_char_append.
    rewrite K1, K2, K3, K4, K5, V1, V2, V3, V4, V5. repeat split; reflexivity.
  - destruct (IH ltac:(discriminate)) as [I1 [I2 [I3 [I4 I5]]]].
    cbn [map String.concat fst snd length] in *.
    rewrite !count_char_append.
    rewrite K1, K2, K3, K4, K5, V1, V2, V3, V4, V5, I1, I2, I3, I4, I5.
    cbn [count_char Ascii.eqb Bool.eqb].
    repeat split; lia.
Qed.

Lemma query_entries_length (params : list (string * JsValue)) :
  length (flat_map (fun kv =>
                      if defined (snd kv) then [(fst kv, js_String (snd kv))] else [])
                   params)
  = defined_count params.
Proof.
  unfold defined_count.
  induction params as [| kv params IH]; [reflexivity |].
  cbn [flat_map filter]. destruct (defined (snd kv)); cbn [List.app length]; lia.
Qed.

(** X14.  [buildQueryString] leaves out the parameters whose value is
    [undefined]; with none left the result is empty, otherwise it is a
    question mark followed by one [name=value] pair per remaining parameter:
    as many equals signs as parameters, one ampersand less, and no space,
    hash or further question mark - no value (a cursor, a search query) can
    add a parameter or cut the query short. *)
Theorem query_string_is_well_delimited :
  forall params : list (string * JsValue),
    (defined_count params = 0 -> buildQueryString params = "")
    /\ (defined_count params <> 0 ->
        exists body,
          buildQueryString params = "?" ++ body
          /\ count_char "&" body = defined_count params - 1
          /\ count_char "=" body = defined_count params
          /\ count_char " " body = 0
          /\ count_char "#" body = 0
          /\ count_char "?" body = 0).
Proof.
  intros params. unfold buildQueryString.
  pose proof (query_entries_length params) as Hlen.
  destruct (flat_map _ params) as [| entry entries] eqn:Hentries.
  - cbn [length] in Hlen. split; [intros _; reflexivity |].
    intros Hne. exfalso. apply Hne. symmetry. exact Hlen.
  - split; [intros Hzero; rewrite Hzero in Hlen; discriminate Hlen |].
    intros _.
    destruct (search_params_counts (entry :: entries) ltac:(discriminate))
      as [C1 [C2 [C3 [C4 C5]]]].
    rewrite Hlen in C1, C2.
    destruct (String.eqb_spec (search_params_toString (entry :: entries)) "")
      as [Hempty | _].
    + rewrite Hempty in C2. cbn [count_char] in C2. rewrite <- Hlen in C2.
      discriminate C2.
    + exists (search_params_toString (entry :: entries)).
      repeat split; assumption.
Qed.

Lemma query_string_is_well_delimited_witness :
  buildQueryString [("limit", JInt 5); ("cursor", JStr "a&b=c d"); ("type", JUndefined)]
  = "?limit=5&cursor=a%26b%3Dc+d".
Proof.
  destruct (query_string_is_well_delimited
              [("limit", JInt 5); ("cursor", JStr "a&b=c d"); ("type", JUndefined)])
    as [_ Hsome].
  destruct (Hsome ltac:(discriminate)) as [body [Hbody _]].
  rewrite Hbody. vm_compute in Hbody. injection Hbody as <-. reflexivity.
Defined.

(** X15.  [testConnection] never throws: it always resolves to a report
    whose [connected] flag is a boolean.  The flag is [true] exactly when
    the client holds a token, the request succeeded, the decoded user is
    neither [undefined] nor [null] and the user's [name] converts to a
    string; the report then holds that user and greets it by that string. *)
Theorem testConnection_reports_instead_of_throwing :
  forall (credentials : TenantCredentials) (remote : Remote),
    exists report,
      outcome (testConnection credentials) remote = inr report
      /\ (prop report "connected" = JBool true
          \/ prop report "connected" = JBool false)
      /\ (prop report "connected" = JBool true <->
          accessToken credentials <> ""
          /\ exists user,
               and_then (remote (outgoing credentials "/users/me" no_options))
                        handle_response = inr user
               /\ user <> JUndefined /\ user <> JNull
               /\ converts (prop user "name") = true)
      /\ (prop report "connected" = JBool true ->
          exists user name,
            and_then (remote (outgoing credentials "/users/me" no_options))
                     handle_response = inr user
            /\ ToString (prop user "name") = inr name
            /\ report = JObj [("connected", JBool true);
                              ("message", JStr ("Connected as " ++ name));
                              ("user", user)]).
Proof.
  intros credentials remote. unfold outcome.
  destruct (String.eqb_spec (accessToken credentials) "") as [Hempty | Htoken].
  - unfold testConnection, try_catch, bind.
    rewrite (request_no_token _ _ _ _ Hempty). cbn.
    eexists. split; [reflexivity |]. split; [right; reflexivity |].
    split; [split; [discriminate | intros [Hne _]; contradiction] | discriminate].
  - rewrite (testConnection_run _ _ Htoken). cbn [snd].
    destruct (and_then (remote (outgoing credentials "/users/me" no_options))
                       handle_response) as [e | user] eqn:Hrequest.
    + eexists. split; [reflexivity |]. unfold connection_report. cbn.
      split; [right; reflexivity |].
      split; [| discriminate].
      split; [discriminate | intros [_ [user [Huser _]]]; discriminate Huser].
    + unfold connection_report. cbn [and_then].
      destruct (get_prop user "name") as [e | name] eqn:Hget.
      * eexists. split; [reflexivity |]. cbn.
        split; [right; reflexivity |].
        split; [| discriminate].
        split; [discriminate |].
        intros [_ [user' [Huser [Hundef [Hnull _]]]]]. injection Huser as <-.
        destruct user; first [contradiction | discriminate Hget].
      * pose proof (get_prop_value _ _ _ Hget) as ->. cbn [and_then].
        destruct (ToString (prop user "name")) as [e | name] eqn:Hname.
        -- eexists. split; [reflexivity |]. cbn.
           split; [right; reflexivity |].
           split; [| discriminate].
           split; [discriminate |].
           intros [_ [user' [Huser [_ [_ Hconverts]]]]]. injection Huser as <-.
           unfold converts in Hconverts. rewrite Hname in Hconverts.
           discriminate Hconverts.
        -- eexists. split; [reflexivity |]. cbn.
           split; [left; reflexivity |].
           split.
           ++ split; [| intros _; reflexivity].
              intros _. split; [exact Htoken |]. exists user.
              split; [reflexivity |].
              split; [intros ->; discriminate Hget |].
              split; [intros ->; discriminate Hget |].
              unfold converts. rewrite Hname. reflexivity.
           ++ intros _. exists user, name.
              split; [reflexivity |]. split; [exact Hname | reflexivity].
Qed.

(* ====================================================================== *)
(** * Further properties: the tools (tools/*.ts, index.ts) *)
(* ====================================================================== *)

(** X16.  No tool invocation issues more than one request, whatever the
    arguments, the token and the remote's answers: there is no retry, no
    second call and no fan-out in any handler. *)
Theorem tools_issue_at_most_one_request :
  forall (credentials : TenantCredentials) (t : Tool) (args : JsValue)
         (remote : Remote),
    In t (createStatelessServer credentials) ->
    length (issued (call t args) remote) <= 1.
Proof.
  intros credentials t args remote. unfold_registry. intros Hin.
  destruct (String.eqb_spec (accessToken credentials) "") as [Hempty | Htoken].
  - repeat (destruct Hin as [<- | Hin]); try contradiction;
      unfold issued, call, try_catch; autounfold with tools;
      cbn [tool tool_try tool_catch miro_test_connection];
      autounfold with client; unfold testConnection, try_catch, bind, lift;
      try (destruct (email_list (prop args "emails")));
      rewrite ?(request_no_token _ _ _ _ Hempty); cbn [fst length app];
      auto with arith.
  - repeat (destruct Hin as [<- | Hin]); try contradiction;
      unfold issued, call, try_catch; autounfold with tools;
      cbn [tool tool_try tool_catch miro_test_connection];
      autounfold with client; unfold testConnection, try_catch, bind, lift;
      try (destruct (email_list (prop args "emails")));
      rewrite ?(request_run _ _ _ _ Htoken);
      repeat (cbn [and_then];
              match goal with
              | |- context [remote ?r] => destruct (remote r)
              | |- context [handle_response ?r] => destruct (handle_response r)
              | |- context [formatResponse ?a ?b ?c] => destruct (formatResponse a b c)
              | |- context [get_prop ?a ?b] => destruct (get_prop a b)
              | |- context [ToString ?a] => destruct (ToString a)
              end);
      cbn [fst length app and_then]; auto with arith.
Qed.

Lemma tools_issue_at_most_one_request_witness :
  length (issued (call (miro_list_boards {| accessToken := "tok" |})
                       (JObj [("limit", JInt 20); ("format", JStr "json")]))
                 (fun _ => inr {| resp_status := 429; resp_headers := [];
                                  resp_json := inl "Unexpected end of JSON input" |}))
  <= 1.
Proof.
  apply (tools_issue_at_most_one_request
           {| accessToken := "tok" |}
           (miro_list_boards {| accessToken := "tok" |})
           (JObj [("limit", JInt 20); ("format", JStr "json")])
           (fun _ => inr {| resp_status := 429; resp_headers := [];
                            resp_json := inl "Unexpected end of JSON input" |})).
  unfold_registry. left. reflexivity.
Defined.

(** X17.  Whatever makes the client call fail - [fetch] rejecting, or a
    response that [request] turns into an error - every tool other than
    [miro_test_connection] returns [formatError] of that very error, after
    its one request: no handler swallows, replaces or retries a client
    error. *)
Theorem tools_report_the_client_error :
  forall (credentials : TenantCredentials) (t : Tool) (args : JsValue)
         (remote : Remote) (error : Thrown),
    In t (createStatelessServer credentials) ->
    tool_name t <> "miro_test_connection" ->
    emails_valid t args ->
    accessToken credentials <> "" ->
    (forall req, and_then (remote req) handle_response = inl error) ->
    exists req, call t args remote = ([req], inr (formatError error)).
Proof.
  unfold_registry. intros credentials t args remote error Hin Hname Hemails
                          Htoken Hremote.
  repeat (destruct Hin as [<- | Hin]); try contradiction;
    try (exfalso; apply Hname; reflexivity);
    try (destruct (Hemails eq_refl) as [emails Hemail]);
    unfold call, try_catch; autounfold with tools;
    cbn [tool tool_try tool_catch];
    try (rewrite Hemail; cbn [email_list]);
    autounfold with client; unfold bind, lift;
    rewrite (request_run _ _ _ _ Htoken), Hremote; eexists; reflexivity.
Qed.

Lemma tools_report_the_client_error_witness :
  exists req,
    call (miro_delete_frame {| accessToken := "tok" |})
         (JObj [("boardId", JStr "b1"); ("itemId", JStr "f1")])
         (fun _ => inl (ThrownError "TypeError" "fetch failed"))
    = ([req], inr (formatError (ThrownError "TypeError" "fetch failed"))).
Proof.
  apply (tools_report_the_client_error
           {| accessToken := "tok" |}
           (miro_delete_frame {| accessToken := "tok" |})
           (JObj [("boardId", JStr "b1"); ("itemId", JStr "f1")])
           (fun _ => inl (ThrownError "TypeError" "fetch failed"))
           (ThrownError "TypeError" "fetch failed")).
  - unfold_registry. repeat (first [left; reflexivity | right]).
  - discriminate.
  - intros Hname. discriminate Hname.
  - discriminate.
  - reflexivity.
Defined.

(** X18.  An update tool called with none of its optional arguments does
    not short-circuit: it still issues its one [PATCH], and the body is the
    empty object. *)
Theorem update_without_changes_sends_empty_patch :
  forall (credentials : TenantCredentials) (t : Tool) (args : JsValue)
         (remote : Remote),
    In t (update_tools credentials) ->
    accessToken credentials <> "" ->
    (forall k, In k optional_arguments -> prop args k = JUndefined) ->
    exists req,
      issued (call t args) remote = [req]
      /\ req_method req = "PATCH"
      /\ req_body req = Some "{}".
Proof.
  intros credentials t args remote Hin Htoken Hnone.
  assert (Hall : Forall (fun k => prop args k = JUndefined) optional_arguments).
  { apply Forall_forall. exact Hnone. }
  unfold optional_arguments in Hall.
  repeat match goal with
         | H : Forall _ (_ :: _) |- _ =>
             let Hhead := fresh "Hhead" in
             let Htail := fresh "Htail" in
             pose proof (Forall_inv H) as Hhead;
             pose proof (Forall_inv_tail H) as Htail;
             clear H; cbv beta in Hhead
         end.
  unfold update_tools in Hin. cbn [In] in Hin.
  repeat (destruct Hin as [<- | Hin]); try contradiction;
    unfold issued, call, try_catch; autounfold with tools;
    cbn [tool tool_try tool_catch]; autounfold with client; unfold bind;
    rewrite !(request_run _ _ _ _ Htoken);
    repeat match goal with
           | H : prop args _ = JUndefined |- _ => rewrite ?H; clear H
           end;
    cbn [truthy defined andb orb js_or];
    (eexists; split;
     [ destruct (remote _) as [e | response];
       [ reflexivity
       | cbn [and_then]; destruct (handle_response response); reflexivity ]
     | split; reflexivity ]).
Qed.

Lemma update_without_changes_sends_empty_patch_witness :
  exists req,
    issued (call (miro_update_tag {| accessToken := "tok" |})
                 (JObj [("boardId", JStr "b1"); ("tagId", JStr "t1")]))
           (fun _ => inl no_token_error)
    = [req]
    /\ req_method req = "PATCH"
    /\ req_body req = Some "{}".
Proof.
  apply (update_without_changes_sends_empty_patch
           {| accessToken := "tok" |}
           (miro_update_tag {| accessToken := "tok" |})
           (JObj [("boardId", JStr "b1"); ("tagId", JStr "t1")])
           (fun _ => inl no_token_error)).
  - unfold update_tools. cbn [In]. repeat (first [left; reflexivity | right]).
  - discriminate.
  - intros k Hk. unfold optional_arguments in Hk. cbn [In] in Hk.
    repeat (destruct Hk as [<- | Hk]; [reflexivity |]). contradiction.
Defined.

(** X19.  The update tools that carry a text ([content] or [title]) test it
    for truthiness: the request body has a [data] member exactly when the
    text is a non-empty string, so an empty text is dropped and cannot be
    written to the board. *)
Theorem empty_text_is_not_sent :
  forall (credentials : TenantCredentials) (t : Tool) (key : string)
         (args : JsValue) (remote : Remote),
    In (t, key) (text_field_tools credentials) ->
    accessToken credentials <> "" ->
    exists input req,
      issued (call t args) remote = [req]
      /\ req_body req = JSON_stringify input
      /\ has_prop "data" input = truthy (prop args key)
      /\ (truthy (prop args key) = true ->
          prop input "data" = JObj [(key, prop args key)])
      /\ (prop args key = JStr "" -> has_prop "data" input = false).
Proof.
  intros credentials t key args remote Hin Htoken.
  unfold text_field_tools in Hin. cbn [In] in Hin.
  repeat (destruct Hin as [Heq | Hin];
          [ injection Heq as <- <- | ]); try contradiction;
    unfold issued, call, try_catch; autounfold with tools;
    cbn [tool tool_try tool_catch]; autounfold with client; unfold bind;
    rewrite !(request_run _ _ _ _ Htoken);
    (eexists; eexists;
     split;
     [ destruct (remote _) as [e | response];
       [ reflexivity
       | cbn [and_then]; destruct (handle_response response); reflexivity ]
     | split; [reflexivity |];
       match goal with
       | |- has_prop _ _ = truthy (prop args ?k) /\ _ =>
           destruct (truthy (prop args k)) eqn:Htext
       end;
       (split;
        [ repeat match goal with
                 | |- context [truthy ?v] => destruct (truthy v)
                 | |- context [(defined ?a && defined ?b)%bool] =>
                     destruct (defined a && defined b)%bool
                 | |- context [(defined ?a || defined ?b)%bool] =>
                     destruct (defined a || defined b)%bool
                 end; reflexivity
        | split;
          [ intros Hyes;
            first [ discriminate Hyes
                  | repeat match goal with
                           | |- context [truthy ?v] => destruct (truthy v)
                           | |- context [(defined ?a && defined ?b)%bool] =>
                               destruct (defined a && defined b)%bool
                           | |- context [(defined ?a || defined ?b)%bool] =>
                               destruct (defined a || defined b)%bool
                           end; reflexivity ]
          | intros Hempty;
            first [ rewrite Hempty in Htext; discriminate Htext
                  | repeat match goal with
                           | |- context [truthy ?v] => destruct (truthy v)
                           | |- context [(defined ?a && defined ?b)%bool] =>
                               destruct (defined a && defined b)%bool
                           | |- context [(defined ?a || defined ?b)%bool] =>
                               destruct (defined a || defined b)%bool
                           end; reflexivity ] ] ]) ]).
Qed.

Lemma empty_text_is_not_sent_witness :
  exists input req,
    issued (call (miro_update_text {| accessToken := "tok" |})
                 (JObj [("boardId", JStr "b1"); ("itemId", JStr "i1");
                        ("content", JStr "")]))
           (fun _ => inl no_token_error)
    = [req]
    /\ req_body req = JSON_stringify input
    /\ has_prop "data" input
       = truthy (prop (JObj [("boardId", JStr "b1"); ("itemId", JStr "i1");
                             ("content", JStr "")]) "content")
    /\ (truthy (prop (JObj [("boardId", JStr "b1"); ("itemId", JStr "i1");
                            ("content", JStr "")]) "content") = true ->
        prop input "data"
        = JObj [("content",
                 prop (JObj [("boardId", JStr "b1"); ("itemId", JStr "i1");
                             ("content", JStr "")]) "content")])
    /\ (prop (JObj [("boardId", JStr "b1"); ("itemId", JStr "i1");
                    ("content", JStr "")]) "content" = JStr "" ->
        has_prop "data" input = false).
Proof.
  apply (empty_text_is_not_sent
           {| accessToken := "tok" |}
           (miro_update_text {| accessToken := "tok" |}) "content"
           (JObj [("boardId", JStr "b1"); ("itemId", JStr "i1");
                  ("content", JStr "")])
           (fun _ => inl no_token_error)).
  - unfold text_field_tools. cbn [In]. right. right. left. reflexivity.
  - discriminate.
Defined.

Lemma split_comma_nonempty s : split_comma s <> [].
Proof.
  destruct s as [| c s]; cbn [split_comma]; [discriminate |].
  destruct (Ascii.eqb c ","); [discriminate |].
  destruct (split_comma s); discriminate.
Qed.

Lemma split_comma_clean_part part :
  count_char "," part = 0 -> split_comma part = [part].
Proof.
  induction part as [| c part IH]; [reflexivity |].
  cbn [count_char split_comma]. destruct (Ascii.eqb c ","); [discriminate |].
  intros H. rewrite (IH H). reflexivity.
Qed.

Lemma split_comma_append part rest :
  count_char "," part = 0 ->
  split_comma (part ++ "," ++ rest) = part :: split_comma rest.
Proof.
  induction part as [| c part IH]; [reflexivity |].
  cbn [count_char append split_comma]. destruct (Ascii.eqb c ","); [discriminate |].
  intros H. change (part ++ String "," rest) with (part ++ "," ++ rest).
  rewrite (IH H). reflexivity.
Qed.

Lemma join_cons sep x y rest :
  join sep (x :: y :: rest) = x ++ sep ++ join sep (y :: rest).
Proof.
  reflexivity.
Qed.

(** Splitting at the commas undoes joining with commas. *)
Lemma split_comma_of_join parts :
  parts <> [] ->
  Forall (fun part => count_char "," part = 0) parts ->
  split_comma (join "," parts) = parts.
Proof.
  induction parts as [| part parts IH]; [contradiction |].
  intros _ Hall. pose proof (Forall_inv Hall) as Hpart.
  apply Forall_inv_tail in Hall.
  destruct parts as [| next parts]; [exact (split_comma_clean_part part Hpart) |].
  rewrite join_cons, (split_comma_append _ _ Hpart).
  rewrite IH by (discriminate || exact Hall). reflexivity.
Qed.

Lemma split_comma_join s : join "," (split_comma s) = s.
Proof.
  induction s as [| c s IH]; [reflexivity |].
  cbn [split_comma]. destruct (Ascii.eqb_spec c ",") as [-> | Hc].
  - pose proof (split_comma_nonempty s) as Hne.
    destruct (split_comma s) as [| part parts]; [contradiction |].
    rewrite join_cons, IH. reflexivity.
  - pose proof (split_comma_nonempty s) as Hne.
    destruct (split_comma s) as [| part parts]; [contradiction |].
    destruct parts as [| next parts].
    + cbn [join String.concat] in *. rewrite <- IH. reflexivity.
    + rewrite join_cons in *. rewrite <- IH. reflexivity.
Qed.

Lemma split_comma_clean s :
  Forall (fun part => count_char "," part = 0) (split_comma s).
Proof.
  induction s as [| c s IH]; [repeat constructor |].
  cbn [split_comma]. destruct (Ascii.eqb c ",") eqn:Hc.
  - constructor; [reflexivity | exact IH].
  - pose proof (split_comma_nonempty s) as Hne.
    destruct (split_comma s) as [| part parts]; [contradiction |].
    constructor; [| exact (Forall_inv_tail IH)].
    cbn [count_char]. rewrite Hc. exact (Forall_inv IH).
Qed.

(** X20.  [miro_share_board] cuts the [emails] argument at its commas -
    into the one list of comma-free parts that, joined by commas, give the
    argument back - trims every part, drops the empty ones and sends what
    is left, complete and in order, with the role defaulting to [viewer].
    The invitation is issued whatever is left of the list (even nothing),
    and on success the reply counts the addresses sent. *)
Theorem share_board_sends_the_cleaned_address_list :
  forall (credentials : TenantCredentials) (args : JsValue) (remote : Remote)
         (emails : string),
    prop args "emails" = JStr emails ->
    accessToken credentials <> "" ->
    exists parts addresses req,
      parts <> []
      /\ Forall (fun part => count_char "," part = 0) parts
      /\ join "," parts = emails
      /\ (forall parts',
             parts' <> [] ->
             Forall (fun part => count_char "," part = 0) parts' ->
             join "," parts' = emails ->
             parts' = parts)
      /\ addresses
         = filter (fun address => negb (String.eqb address "")) (map trim parts)
      /\ issued (call (miro_share_board credentials) args) remote = [req]
      /\ req_method req = "POST"
      /\ req_body req
         = JSON_stringify
             (JObj [("emails", JArr (map JStr addresses));
                    ("role", js_or (prop args "role") (JStr "viewer"));
                    ("message", prop args "message")])
      /\ (forall body,
             and_then (remote req) handle_response = inr body ->
             outcome (call (miro_share_board credentials) args) remote
             = inr (text_response
                      (success_message
                         ("Board shared with "
                            ++ Z_to_string (Z.of_nat (length addresses))
                            ++ " user(s)")))).
Proof.
  intros credentials args remote emails Hemails Htoken.
  exists (split_comma emails).
  exists (filter (fun e => negb (String.eqb e "")) (map trim (split_comma emails))).
  eexists.
  split; [apply split_comma_nonempty |].
  split; [apply split_comma_clean |].
  split; [apply split_comma_join |].
  split.
  { intros parts' Hne Hclean Hjoin. rewrite <- Hjoin.
    symmetry. exact (split_comma_of_join parts' Hne Hclean). }
  split; [reflexivity |].
  unfold issued, outcome, call, try_catch, miro_share_board.
  cbn [tool tool_try tool_catch]. rewrite Hemails. cbn [email_list].
  unfold shareBoard, bind, lift. rewrite (request_run _ _ _ _ Htoken).
  split.
  { destruct (remote _) as [e | response];
      [ reflexivity
      | cbn [and_then]; destruct (handle_response response); reflexivity ]. }
  split; [reflexivity |].
  split; [reflexivity |].
  intros body Hbody. cbn [prop lookup String.eqb Ascii.eqb Bool.eqb] in Hbody |- *.
  rewrite Hbody. reflexivity.
Qed.

Lemma share_board_sends_the_cleaned_address_list_witness :
  exists req,
    issued (call (miro_share_board {| accessToken := "tok" |})
                 (JObj [("boardId", JStr "b1");
                        ("emails", JStr "ann@x.io, bob@y.io,,")]))
           (fun _ => inr {| resp_status := 204; resp_headers := [];
                            resp_json := inl "Unexpected end of JSON input" |})
    = [req]
    /\ req_method req = "POST"
    /\ req_body req
       = JSON_stringify
           (JObj [("emails", JArr [JStr "ann@x.io"; JStr "bob@y.io"]);
                  ("role", JStr "viewer")])
    /\ outcome (call (miro_share_board {| accessToken := "tok" |})
                     (JObj [("boardId", JStr "b1");
                            ("emails", JStr "ann@x.io, bob@y.io,,")]))
               (fun _ => inr {| resp_status := 204; resp_headers := [];
                                resp_json := inl "Unexpected end of JSON input" |})
       = inr (text_response (success_message "Board shared with 2 user(s)")).
Proof.
  destruct (share_board_sends_the_cleaned_address_list
              {| accessToken := "tok" |}
              (JObj [("boardId", JStr "b1"); ("emails", JStr "ann@x.io, bob@y.io,,")])
              (fun _ => inr {| resp_status := 204; resp_headers := [];
                               resp_json := inl "Unexpected end of JSON input" |})
              "ann@x.io, bob@y.io,,"
              eq_refl ltac:(discriminate))
    as [parts [addresses [req [Hne [Hclean [Hjoin [Hunique [Haddresses
       [Hissued [Hmethod [Hbody Houtcome]]]]]]]]]]].
  assert (Hparts : ["ann@x.io"; " bob@y.io"; ""; ""] = parts).
  { apply Hunique; [discriminate | repeat constructor | reflexivity]. }
  subst parts.
  assert (Hsent : addresses = ["ann@x.io"; "bob@y.io"]).
  { rewrite Haddresses. reflexivity. }
  subst addresses.
  exists req.
  split; [exact Hissued |]. split; [exact Hmethod |].
  split; [rewrite Hbody; reflexivity |].
  rewrite (Houtcome JUndefined eq_refl). reflexivity.
Defined.

(** Two addresses among four parts: both are sent, trimmed and in order,
    and the reply counts two. *)
Example share_board_with_two_addresses :
  call (miro_share_board {| accessToken := "tok" |})
       (JObj [("boardId", JStr "b1"); ("emails", JStr "ann@x.io, bob@y.io,,")])
       (fun _ => inr {| resp_status := 204; resp_headers := [];
                        resp_json := inl "Unexpected end of JSON input" |})
  = ([ {| req_url := "https://api.miro.com/v2/boards/b1/members";
          req_method := "POST";
          req_headers := [("Authorization", "Bearer tok");
                          ("Content-Type", "application/json")];
          req_body :=
            JSON_stringify
              (JObj [("emails", JArr [JStr "ann@x.io"; JStr "bob@y.io"]);
                     ("role", JStr "viewer")]) |} ],
     inr (text_response (success_message "Board shared with 2 user(s)"))).
Proof.
  vm_compute. reflexivity.
Qed.

(* ====================================================================== *)
(** * Further properties: the formatters (utils/formatters.ts) *)
(* ====================================================================== *)

Lemma get_prop_defined obj k :
  nullish obj = false -> get_prop obj k = inr (prop obj k).
Proof.
  destruct obj; cbn [nullish get_prop]; intros H;
    first [discriminate H | reflexivity].
Qed.

Ltac row_succeeds :=
  unfold converts;
  repeat match goal with
         | |- context [ToString ?v] => destruct (ToString v)
         end;
  cbn [and_then];
  (split;
   [ intros [row Hrow];
     first [ discriminate Hrow
           | split; [reflexivity |]; repeat split; constructor ]
   | intros [_ Hcolumns];
     first [ eexists; reflexivity
           | repeat match goal with
                    | H : _ /\ _ |- _ => destruct H
                    | H : false = true |- _ => discriminate H
                    end ] ]).

Lemma board_row_succeeds entry :
  (exists row, board_row entry = inr row)
  <-> nullish entry = false
      /\ Forall (fun column => converts (prop entry column) = true)
                ["id"; "name"; "description"; "viewLink"].
Proof.
  destruct (nullish entry) eqn:Hnullish.
  - split; [intros [row Hrow] | intros [H _]; discriminate H].
    destruct entry; first [discriminate Hnullish | discriminate Hrow].
  - unfold board_row. rewrite !(get_prop_defined _ _ Hnullish). cbn [and_then].
    rewrite !Forall_cons_iff. cbv beta.
    rewrite <- (converts_js_or (prop entry "description")),
              <- (converts_js_or (prop entry "viewLink")).
    row_succeeds.
Qed.

Lemma member_row_succeeds entry :
  (exists row, member_row entry = inr row)
  <-> nullish entry = false
      /\ Forall (fun column => converts (prop entry column) = true)
                ["id"; "name"; "email"; "role"].
Proof.
  destruct (nullish entry) eqn:Hnullish.
  - split; [intros [row Hrow] | intros [H _]; discriminate H].
    destruct entry; first [discriminate Hnullish | discriminate Hrow].
  - unfold member_row. rewrite !(get_prop_defined _ _ Hnullish). cbn [and_then].
    rewrite !Forall_cons_iff. cbv beta.
    rewrite <- (converts_js_or (prop entry "name")),
              <- (converts_js_or (prop entry "email")),
              <- (converts_js_or (prop entry "role")).
    row_succeeds.
Qed.

Lemma tag_row_succeeds entry :
  (exists row, tag_row entry = inr row)
  <-> nullish entry = false
      /\ Forall (fun column => converts (prop entry column) = true)
                ["id"; "title"; "fillColor"].
Proof.
  destruct (nullish entry) eqn:Hnullish.
  - split; [intros [row Hrow] | intros [H _]; discriminate H].
    destruct entry; first [discriminate Hnullish | discriminate Hrow].
  - unfold tag_row. rewrite !(get_prop_defined _ _ Hnullish). cbn [and_then].
    rewrite !Forall_cons_iff. cbv beta.
    rewrite <- (converts_js_or (prop entry "fillColor")).
    row_succeeds.
Qed.

(** X21.  The board, member and tag tables are produced exactly when no
    entry of the page is [null] or [undefined] and every column read from
    an entry converts to a string; which other fields an entry has, and
    whether the columns are there at all, does not matter. *)
Theorem record_tables_need_convertible_entries :
  forall (entityType : string) (items : list JsValue),
    In entityType ["boards"; "members"; "tags"] ->
    (exists table, entity_table entityType items = inr table)
    <-> Forall (fun entry =>
                  nullish entry = false
                  /\ Forall (fun column => converts (prop entry column) = true)
                            (table_columns entityType))
               items.
Proof.
  intros entityType items Hin.
  assert (Hrow : forall (f : JsValue -> Result string) (columns : list string),
             (forall entry,
                 (exists row, f entry = inr row)
                 <-> nullish entry = false
                     /\ Forall (fun column => converts (prop entry column) = true)
                               columns) ->
             forall header separator,
               (exists table,
                   and_then (for_each f items)
                            (fun rows => inr (join_lines (header :: separator :: rows)))
                   = inr table)
               <-> Forall (fun entry =>
                             nullish entry = false
                             /\ Forall (fun column =>
                                          converts (prop entry column) = true)
                                       columns)
                          items).
  { intros f columns Hf header separator. split.
    - intros [table H].
      destruct (for_each f items) as [e | rows] eqn:Hrows; [discriminate |].
      assert (Hall : Forall (fun x => exists y, f x = inr y) items).
      { apply for_each_succeeds. exists rows. exact Hrows. }
      revert Hall. apply Forall_impl. intros entry. apply Hf.
    - intros Hall.
      assert (Hrows : exists rows, for_each f items = inr rows).
      { apply for_each_succeeds. revert Hall. apply Forall_impl.
        intros entry. apply Hf. }
      destruct Hrows as [rows ->]. eexists; reflexivity. }
  cbn [In] in Hin. unfold entity_table, table_columns.
  destruct Hin as [<- | [<- | [<- | []]]];
    cbn [String.eqb Ascii.eqb Bool.eqb];
    unfold formatBoardsTable, formatMembersTable, formatTagsTable;
    apply Hrow;
    first [ exact board_row_succeeds
          | exact member_row_succeeds
          | exact tag_row_succeeds ].
Qed.

Lemma record_tables_need_convertible_entries_witness :
  (exists table,
      entity_table "tags"
        [JObj [("id", JStr "t1"); ("title", JObj [("toString", JInt 1)])]]
      = inr table)
  <-> Forall (fun entry =>
                nullish entry = false
                /\ Forall (fun column => converts (prop entry column) = true)
                          (table_columns "tags"))
             [JObj [("id", JStr "t1"); ("title", JObj [("toString", JInt 1)])]].
Proof.
  apply (record_tables_need_convertible_entries
           "tags"
           [JObj [("id", JStr "t1"); ("title", JObj [("toString", JInt 1)])]]).
  cbn [In]. right. right. left. reflexivity.
Defined.

(** A tag whose title is an object with an own [toString] key makes the
    table fail, with the [TypeError] of the conversion. *)
Example tag_with_unconvertible_title :
  formatTagsTable
    [JObj [("id", JStr "t1"); ("title", JObj [("toString", JInt 1)])]]
  = inl (ThrownError "TypeError" "Cannot convert object to primitive value").
Proof.
  reflexivity.
Qed.








(** X24.  In the Markdown of a single object, fields that are [null] or
    [undefined] leave no trace: the text is the one of the object without
    them. *)
Theorem object_markdown_ignores_nullish_fields :
  forall (fields : list (string * JsValue)) (entityType : string),
    formatObjectAsMarkdown
      (filter (fun field => negb (nullish (snd field))) fields) entityType
    = formatObjectAsMarkdown fields entityType.
Proof.
  intros fields entityType. unfold formatObjectAsMarkdown.
  f_equal. f_equal. f_equal.
  induction fields as [| [key value] fields IH]; [reflexivity |].
  destruct value; cbn [filter snd nullish negb flat_map]; try exact IH;
    rewrite IH; reflexivity.
Qed.
